(** * Reconstruction of test runs from the WebSocket event log

    A shallow embedding of [end-to-end/consume_logs.py]: the values that
    [json.loads] hands to the script, the exceptions the script can meet,
    the per-line reducer [parse_log_file] with its helpers, and the
    aggregator [generate_summary].  Around it, the scripts it works with:
    [make_test_cases.py], which writes the test cases, [run_grun.py], which
    runs them and writes the log, and [eval_analysis.py] and [eval_pql.py],
    which read the reconstructed cases for the judge.

    Conventions of the embedding.
    - A Python object obtained from JSON is a term of [json]; [None] is
      [JNull].  Strings are byte strings holding the UTF-8 text.
    - A call that may raise returns a [result]; sequencing is the bind of
      that monad, so the first exception ends the computation exactly as in
      the interpreter.
    - A function that mutates its argument returns the new value of that
      argument.
    - The floats the script computes (durations, rates) are the exact
      rationals they stand for; rounding is not modelled.  Floats read from
      the log are only compared and tested, never computed with, and are kept
      as IEEE binary64 values. *)

From Stdlib Require Import ZArith QArith List String Ascii Bool Lia.
From Stdlib Require Import Floats.SpecFloat DecimalString.
Import ListNotations.

Set Warnings "-register-all".
Local Close Scope Q_scope.
Local Open Scope string_scope.
Local Open Scope list_scope.

(** ** Python exceptions and results *)

Module Py.

Inductive exn : Type :=
| AttributeError
| TypeError
| KeyError
| ValueError
| JSONDecodeError
| RecursionError.

Definition exn_eqb (a b : exn) : bool :=
  match a, b with
  | AttributeError, AttributeError
  | TypeError, TypeError
  | KeyError, KeyError
  | ValueError, ValueError
  | JSONDecodeError, JSONDecodeError
  | RecursionError, RecursionError => true
  | _, _ => false
  end.

(** [isinstance e cls]: [json.JSONDecodeError] derives from [ValueError];
    the other classes used here are unrelated to one another. *)
Definition isinstance (e cls : exn) : bool :=
  match e, cls with
  | JSONDecodeError, ValueError => true
  | _, _ => exn_eqb e cls
  end.

Inductive result (A : Type) : Type :=
| Ok (a : A)
| Raise (e : exn).

Arguments Ok {A} a.
Arguments Raise {A} e.

Definition bind {A B : Type} (m : result A) (k : A -> result B) : result B :=
  match m with
  | Ok a => k a
  | Raise e => Raise e
  end.

(** [try: body  except cls: handler] *)
Definition try_except {A : Type} (body : result A) (cls : exn)
    (handler : result A) : result A :=
  match body with
  | Ok a => Ok a
  | Raise e => if isinstance e cls then handler else Raise e
  end.

End Py.

Import Py.

Declare Scope py_scope.
Delimit Scope py_scope with py.
Notation "x <- m ;; k" := (Py.bind m (fun x => k))
  (at level 61, m at next level, right associativity) : py_scope.
Local Open Scope py_scope.

(** ** JSON values as Python objects *)

Module Json.

Inductive json : Type :=
| JNull
| JBool (b : bool)
| JInt (z : Z)
| JFloat (f : spec_float)
| JStr (s : string)
| JList (l : list json)
| JDict (d : list (string * json)).

(** *** Dictionaries: insertion-ordered, one binding per key *)

Definition dict := list (string * json).

Fixpoint dict_get (d : dict) (k : string) : option json :=
  match d with
  | [] => None
  | (k', v) :: d' => if String.eqb k k' then Some v else dict_get d' k
  end.

Definition dict_has (d : dict) (k : string) : bool :=
  match dict_get d k with
  | Some _ => true
  | None => false
  end.

(** [d[k] = v]: an existing key keeps its position, a new key goes last. *)
Fixpoint dict_set (d : dict) (k : string) (v : json) : dict :=
  match d with
  | [] => [(k, v)]
  | (k', v') :: d' =>
      if String.eqb k k' then (k', v) :: d' else (k', v') :: dict_set d' k v
  end.

Definition dict_of_items (items : list (string * json)) : dict :=
  fold_left (fun d kv => dict_set d (fst kv) (snd kv)) items [].

Definition dict_keys (d : dict) : list string := map fst d.

(** *** Truth value and equality *)

Definition float_is_zero (f : spec_float) : bool :=
  match f with
  | S754_zero _ => true
  | _ => false
  end.

(** [bool(v)] *)
Definition truthy (v : json) : bool :=
  match v with
  | JNull => false
  | JBool b => b
  | JInt z => negb (Z.eqb z 0)
  | JFloat f => negb (float_is_zero f)
  | JStr s => negb (String.eqb s "")
  | JList l => match l with [] => false | _ => true end
  | JDict d => match d with [] => false | _ => true end
  end.

(** An [int] equals a [float] when the float is finite and has that exact
    value. *)
Definition int_float_eqb (z : Z) (f : spec_float) : bool :=
  match f with
  | S754_zero _ => Z.eqb z 0
  | S754_finite s m e =>
      let sm := if s then Z.neg m else Z.pos m in
      if (0 <=? e)%Z then Z.eqb z (sm * 2 ^ e)
      else Z.eqb (z * 2 ^ (- e)) sm
  | _ => false
  end.

Definition is_nan (f : spec_float) : bool :=
  match f with
  | S754_nan => true
  | _ => false
  end.

(** [a is b or a == b], the test that a list or a dictionary applies to its
    members when it is compared.  [json.loads] hands out one and the same
    object for every [NaN] it reads, so there a NaN passes for itself; for
    every other value the test is [==].  [bool] is a subclass of [int]. *)
Fixpoint same_or_eq (a b : json) : bool :=
  match a, b with
  | JNull, JNull => true
  | JBool x, JBool y => Bool.eqb x y
  | JBool x, JInt z => Z.eqb (Z.b2z x) z
  | JInt z, JBool x => Z.eqb z (Z.b2z x)
  | JBool x, JFloat f => int_float_eqb (Z.b2z x) f
  | JFloat f, JBool x => int_float_eqb (Z.b2z x) f
  | JInt x, JInt y => Z.eqb x y
  | JInt x, JFloat f => int_float_eqb x f
  | JFloat f, JInt x => int_float_eqb x f
  | JFloat f, JFloat g => (is_nan f && is_nan g) || SFeqb f g
  | JStr s, JStr t => String.eqb s t
  | JList l, JList m =>
      (fix all2 (l m : list json) : bool :=
         match l, m with
         | [], [] => true
         | x :: l', y :: m' => same_or_eq x y && all2 l' m'
         | _, _ => false
         end) l m
  | JDict d, JDict e =>
      Nat.eqb (List.length d) (List.length e) &&
      (fix sub (d : dict) : bool :=
         match d with
         | [] => true
         | (k, v) :: d' =>
             match dict_get e k with
             | Some v' => same_or_eq v v'
             | None => false
             end && sub d'
         end) d
  | _, _ => false
  end.

(** [a == b] on objects built by [json.loads]: two floats are compared as
    numbers, so that a NaN differs from itself; lists and dictionaries
    compare their members as above. *)
Definition py_eq (a b : json) : bool :=
  match a, b with
  | JFloat f, JFloat g => SFeqb f g
  | _, _ => same_or_eq a b
  end.

(** [v == "literal"] *)
Definition eq_str (v : json) (s : string) : bool := py_eq v (JStr s).

(** *** Methods and operators that can raise *)

(** [o.get(k, default)]; only a [dict] has the method. *)
Definition py_get (o : json) (k : string) (default : json) : result json :=
  match o with
  | JDict d =>
      Ok (match dict_get d k with Some v => v | None => default end)
  | _ => Raise AttributeError
  end.

(** [o[k]] for a string key. *)
Definition py_getitem (o : json) (k : string) : result json :=
  match o with
  | JDict d =>
      match dict_get d k with Some v => Ok v | None => Raise KeyError end
  | _ => Raise TypeError
  end.

Fixpoint substring_of (p s : string) : bool :=
  String.prefix p s ||
  match s with
  | EmptyString => false
  | String _ s' => substring_of p s'
  end.

(** ["k" in o] *)
Definition py_in (k : string) (o : json) : result bool :=
  match o with
  | JDict d => Ok (dict_has d k)
  | JList l => Ok (existsb (fun x => py_eq (JStr k) x) l)
  | JStr s => Ok (substring_of k s)
  | _ => Raise TypeError
  end.

(** [o.items()] *)
Definition py_items (o : json) : result (list (string * json)) :=
  match o with
  | JDict d => Ok d
  | _ => Raise AttributeError
  end.

(** [s.replace(old, new)] for a one-character [old]. *)
Fixpoint str_replace (old : ascii) (new s : string) : string :=
  match s with
  | EmptyString => EmptyString
  | String c s' =>
      if Ascii.eqb c old then new ++ str_replace old new s'
      else String c (str_replace old new s')
  end.

(** [o.replace(old, new)]; only a [str] has the method. *)
Definition py_replace (o : json) (old : ascii) (new : string) : result string :=
  match o with
  | JStr s => Ok (str_replace old new s)
  | _ => Raise AttributeError
  end.

(** [s.strip()]: the characters for which [str.isspace] holds, as the byte
    sequences of their UTF-8 encoding. *)
Definition bytes (l : list nat) : string :=
  string_of_list_ascii (map ascii_of_nat l).

Definition whitespace : list string :=
  map bytes
    [[9]; [10]; [11]; [12]; [13]; [28]; [29]; [30]; [31]; [32];
     [194; 133]; [194; 160]; [225; 154; 128];
     [226; 128; 128]; [226; 128; 129]; [226; 128; 130]; [226; 128; 131];
     [226; 128; 132]; [226; 128; 133]; [226; 128; 134]; [226; 128; 135];
     [226; 128; 136]; [226; 128; 137]; [226; 128; 138];
     [226; 128; 168]; [226; 128; 169]; [226; 128; 175]; [226; 129; 159];
     [227; 128; 128]].

Fixpoint drop_prefix (p s : string) : option string :=
  match p, s with
  | EmptyString, _ => Some s
  | String a p', String b s' =>
      if Ascii.eqb a b then drop_prefix p' s' else None
  | String _ _, EmptyString => None
  end.

Fixpoint first_some {A B : Type} (f : A -> option B) (l : list A) : option B :=
  match l with
  | [] => None
  | x :: l' => match f x with Some y => Some y | None => first_some f l' end
  end.

Fixpoint lstrip_fuel (n : nat) (ws : list string) (s : string) : string :=
  match n with
  | O => s
  | S n' =>
      match first_some (fun w => drop_prefix w s) ws with
      | Some s' => lstrip_fuel n' ws s'
      | None => s
      end
  end.

Definition lstrip (ws : list string) (s : string) : string :=
  lstrip_fuel (String.length s) ws s.

Definition str_rev (s : string) : string :=
  string_of_list_ascii (rev (list_ascii_of_string s)).

Definition py_strip (s : string) : string :=
  str_rev (lstrip (map str_rev whitespace) (str_rev (lstrip whitespace s))).

End Json.

Import Json.

(** ** Timestamps: the part of [datetime] the script uses *)

Module Datetime.

Record datetime : Type := mk_datetime {
  year : Z; month : Z; day : Z;
  hour : Z; minute : Z; second : Z; microsecond : Z;
  tzinfo : option Z  (* the UTC offset in microseconds; [None] when naive *)
}.

(** A [timedelta] is a number of microseconds. *)
Definition timedelta := Z.

Definition is_leap (y : Z) : bool :=
  ((y mod 4 =? 0) && (negb (y mod 100 =? 0) || (y mod 400 =? 0)))%Z.

Definition days_before_year (y : Z) : Z :=
  let p := (y - 1)%Z in (p * 365 + p / 4 - p / 100 + p / 400)%Z.

Definition days_in_month (y m : Z) : Z :=
  if (m =? 2)%Z then (if is_leap y then 29 else 28)%Z
  else if ((m =? 4) || (m =? 6) || (m =? 9) || (m =? 11))%Z then 30%Z
  else 31%Z.

Definition days_before_month (y m : Z) : Z :=
  (nth (Z.to_nat m) [0; 0; 31; 59; 90; 120; 151; 181; 212; 243; 273; 304; 334] 0
   + (if (2 <? m) && is_leap y then 1 else 0))%Z.

(** [d.toordinal()] *)
Definition toordinal (d : datetime) : Z :=
  (days_before_year (year d) + days_before_month (year d) (month d) + day d)%Z.

(** [a - b]: two naive values or two aware values subtract; a naive and an
    aware one do not. *)
Definition sub (a b : datetime) : result timedelta :=
  let secs (d : datetime) := (second d + minute d * 60 + hour d * 3600)%Z in
  let base :=
    (((toordinal a - toordinal b) * 86400 + (secs a - secs b)) * 1000000
     + (microsecond a - microsecond b))%Z in
  match tzinfo a, tzinfo b with
  | None, None => Ok base
  | Some myoff, Some otoff => Ok (base + otoff - myoff)%Z
  | _, _ => Raise TypeError
  end.

(** [td.total_seconds()] *)
Definition total_seconds (td : timedelta) : Q := Qred (td # 1000000).

(** *** [datetime.fromisoformat]

    The parser of CPython 3.11, transcribed from [_datetimemodule.c].  It
    reads the UTF-8 bytes of the string, which a zero byte ends: the dates
    [YYYY-MM-DD], [YYYYMMDD], [YYYY-Www], [YYYYWww], [YYYY-Www-D] and
    [YYYYWwwD]; then, after one character of any kind, the time
    [HH[:MM[:SS[.f...]]]] or [HH[MM[SS[.f...]]]], a comma serving as a
    point; then [Z] or an offset written like a time.  An interpreter
    older than 3.11 reads less, so the reducer below takes its parser as a
    parameter and this one serves the concrete runs. *)

Definition digit (c : ascii) : option Z :=
  let n := Z.of_N (N_of_ascii c) in
  if ((48 <=? n) && (n <=? 57))%Z then Some (n - 48)%Z else None.

Definition is_digit (c : ascii) : bool :=
  match digit c with Some _ => true | None => false end.

Definition is_empty (s : string) : bool :=
  match s with EmptyString => true | _ => false end.

Definition nul : ascii := ascii_of_nat 0.

(** The byte at an index, and the zero byte at the end of the text. *)
Definition byte_at (s : string) (i : nat) : ascii :=
  match String.get i s with
  | Some c => c
  | None => nul
  end.

(** [parse_digits]: a number of [n] digits from index [p], and the index
    after it. *)
Fixpoint parse_digits (s : string) (p n : nat) (acc : Z) : option (Z * nat) :=
  match n with
  | O => Some (acc, p)
  | S n' =>
      match digit (byte_at s p) with
      | Some d => parse_digits s (S p) n' (acc * 10 + d)%Z
      | None => None
      end
  end.

(** The first index from [idx], below [idx + fuel], that holds no digit. *)
Fixpoint skip_digits (s : string) (idx fuel : nat) : nat :=
  match fuel with
  | O => idx
  | S fuel' =>
      if is_digit (byte_at s idx) then skip_digits s (S idx) fuel' else idx
  end.

(** [_find_isoformat_datetime_separator]; [None] stands for its [-1]. *)
Definition find_isoformat_datetime_separator (s : string) (len : nat)
  : option nat :=
  if Nat.eqb len 7 then Some 7
  else if Ascii.eqb (byte_at s 4) "-" then
    if Ascii.eqb (byte_at s 5) "W" then
      if Nat.ltb len 8 then None
      else if Nat.ltb 8 len && Ascii.eqb (byte_at s 8) "-" then
        if Nat.eqb len 9 then None
        else if Nat.ltb 10 len && is_digit (byte_at s 10) then Some 8
        else Some 10
      else Some 8
    else Some 10
  else if Ascii.eqb (byte_at s 4) "W" then
    let idx := skip_digits s 7 (len - 7) in
    if Nat.ltb idx 9 then Some idx
    else if Nat.even idx then Some 7
    else Some 8
  else Some 8.

Definition days_in_month_table : list Z :=
  [0; 31; 28; 31; 30; 31; 30; 31; 31; 30; 31; 30; 31]%Z.

Definition days_before_month_table : list Z :=
  [0; 0; 31; 59; 90; 120; 151; 181; 212; 243; 273; 304; 334]%Z.

(** [ord_to_ymd], for an ordinal of one or more. *)
Definition ord_to_ymd (ordinal : Z) : Z * Z * Z :=
  let ordinal := (ordinal - 1)%Z in
  let n400 := (ordinal / 146097)%Z in
  let n := (ordinal mod 146097)%Z in
  let n100 := (n / 36524)%Z in
  let n := (n mod 36524)%Z in
  let n4 := (n / 1461)%Z in
  let n := (n mod 1461)%Z in
  let n1 := (n / 365)%Z in
  let n := (n mod 365)%Z in
  let year := (n400 * 400 + 1 + n100 * 100 + n4 * 4 + n1)%Z in
  if ((n1 =? 4) || (n100 =? 4))%Z then ((year - 1)%Z, 12%Z, 31%Z)
  else
    let leapyear :=
      ((n1 =? 3) && (negb (n4 =? 24) || (n100 =? 3)))%Z in
    let month := Z.shiftr (n + 50) 5 in
    let preceding :=
      (nth (Z.to_nat month) days_before_month_table 0
       + (if (2 <? month) && leapyear then 1 else 0))%Z in
    if (n <? preceding)%Z then
      let month := (month - 1)%Z in
      let preceding := (preceding - days_in_month year month)%Z in
      (year, month, (n - preceding + 1)%Z)
    else (year, month, (n - preceding + 1)%Z).

(** [weekday(year, 1, 1)]: 0 for a Monday. *)
Definition first_weekday (y : Z) : Z := ((days_before_year y + 1 + 6) mod 7)%Z.

(** [iso_week1_monday] *)
Definition iso_week1_monday (y : Z) : Z :=
  let first_day := (days_before_year y + 1)%Z in
  let week1_monday := (first_day - first_weekday y)%Z in
  if (3 <? first_weekday y)%Z then (week1_monday + 7)%Z else week1_monday.

(** [iso_to_ymd].  A week of the year 0 is a day before the year 1, which
    the constructor refuses: it is refused here. *)
Definition iso_to_ymd (iso_year iso_week iso_day : Z) : option (Z * Z * Z) :=
  if (iso_year <? 1)%Z then None
  else if ((iso_week <=? 0) || (53 <=? iso_week))%Z
          && negb ((iso_week =? 53)%Z
                   && ((first_weekday iso_year =? 3)%Z
                       || ((first_weekday iso_year =? 2)%Z
                           && is_leap iso_year)))
  then None
  else if ((iso_day <=? 0) || (8 <=? iso_day))%Z then None
  else
    Some (ord_to_ymd
            (iso_week1_monday iso_year + (iso_week - 1) * 7 + iso_day - 1)%Z).

(** [parse_isoformat_date]; [len] is where the date ends, [None] when
    nothing bounds it. *)
Definition parse_isoformat_date (s : string) (len : option nat)
  : option (Z * Z * Z) :=
  match parse_digits s 0 4 0 with
  | None => None
  | Some (year, cursor) =>
      let uses_separator := Ascii.eqb (byte_at s cursor) "-" in
      let cursor := if uses_separator then S cursor else cursor in
      if Ascii.eqb (byte_at s cursor) "W" then
        match parse_digits s (S cursor) 2 0 with
        | None => None
        | Some (iso_week, cursor) =>
            if match len with Some l => Nat.ltb cursor l | None => true end
            then
              if uses_separator && negb (Ascii.eqb (byte_at s cursor) "-")
              then None
              else
                let cursor := if uses_separator then S cursor else cursor in
                match parse_digits s cursor 1 0 with
                | None => None
                | Some (iso_day, _) => iso_to_ymd year iso_week iso_day
                end
            else iso_to_ymd year iso_week 1
        end
      else
        match parse_digits s cursor 2 0 with
        | None => None
        | Some (month, cursor) =>
            if uses_separator && negb (Ascii.eqb (byte_at s cursor) "-")
            then None
            else
              let cursor := if uses_separator then S cursor else cursor in
              match parse_digits s cursor 2 0 with
              | None => None
              | Some (day, _) => Some (year, month, day)
              end
        end
  end.

(** What the loop over hour, minute and second ends with: the function
    returns, [true] when a character is left over; or the fraction is read
    next, from an index. *)
Inductive after_components : Type :=
| returns (left_over : bool) (vals : list Z)
| fraction_from (p : nat) (vals : list Z).

(** The loop of [parse_hh_mm_ss_ff], from its turn [3 - turns]. *)
Fixpoint components (s : string) (p_end : nat) (turns : nat) (first : bool)
    (p : nat) (has_separator : bool) (vals : list Z)
  : option after_components :=
  match turns with
  | O => Some (fraction_from p vals)
  | S turns' =>
      match parse_digits s p 2 0 with
      | None => None
      | Some (v, p) =>
          let vals := vals ++ [v] in
          let c := byte_at s p in
          let p := S p in
          let has_separator :=
            if first then Ascii.eqb c ":" else has_separator in
          if Nat.leb p_end p then Some (returns (negb (Ascii.eqb c nul)) vals)
          else if has_separator && Ascii.eqb c ":" then
            components s p_end turns' false p has_separator vals
          else if Ascii.eqb c "." || Ascii.eqb c "," then
            Some (fraction_from p vals)
          else if negb has_separator then
            components s p_end turns' false (pred p) has_separator vals
          else None
      end
  end.

(** [parse_hh_mm_ss_ff] on the bytes from [p] to [p_end]: whether a
    character is left over, and hour, minute, second and microsecond. *)
Definition parse_hh_mm_ss_ff (s : string) (p p_end : nat)
  : option (bool * (Z * Z * Z * Z)) :=
  let quad (vals : list Z) (us : Z) :=
    (nth 0 vals 0, nth 1 vals 0, nth 2 vals 0, us)%Z in
  match components s p_end 3 true p true [] with
  | None => None
  | Some (returns left_over vals) => Some (left_over, quad vals 0%Z)
  | Some (fraction_from p vals) =>
      let len_remains := p_end - p in
      let to_parse := if Nat.leb 6 len_remains then 6 else len_remains in
      match parse_digits s p to_parse 0 with
      | None => None
      | Some (us, p) =>
          let us := (us * 10 ^ Z.of_nat (6 - to_parse))%Z in
          let p := skip_digits s p (String.length s) in
          Some (negb (Ascii.eqb (byte_at s p) nul), quad vals us)
      end
  end.

(** The first index from [p] that holds [Z], [+] or [-], tried at [p] and
    then as long as it is below [p_end]. *)
Fixpoint find_tzinfo (s : string) (p p_end fuel : nat) : nat :=
  let c := byte_at s p in
  if Ascii.eqb c "Z" || Ascii.eqb c "+" || Ascii.eqb c "-" then p
  else
    match fuel with
    | O => S p
    | S fuel' => if Nat.ltb (S p) p_end then find_tzinfo s (S p) p_end fuel'
                 else S p
    end.

(** [parse_isoformat_time] on the [dtlen] bytes from [p]: the time, and the
    offset in seconds and microseconds if there is one. *)
Definition parse_isoformat_time (s : string) (p dtlen : nat)
  : option (Z * Z * Z * Z * option (Z * Z)) :=
  let p_end := p + dtlen in
  let tzinfo_pos := find_tzinfo s p p_end dtlen in
  match parse_hh_mm_ss_ff s p tzinfo_pos with
  | None => None
  | Some (left_over, t) =>
      if Nat.eqb tzinfo_pos p_end then
        if left_over then None else Some (t, None)
      else if Ascii.eqb (byte_at s tzinfo_pos) "Z" then
        if negb (Ascii.eqb (byte_at s (S tzinfo_pos)) nul) then None
        else Some (t, Some (0, 0)%Z)
      else
        let tzsign :=
          if Ascii.eqb (byte_at s tzinfo_pos) "-" then (-1)%Z else 1%Z in
        match parse_hh_mm_ss_ff s (S tzinfo_pos) p_end with
        | Some (false, (tzhour, tzminute, tzsecond, tzmicrosecond)) =>
            Some (t,
                  Some ((tzsign * (tzhour * 3600 + tzminute * 60 + tzsecond))%Z,
                        (tzmicrosecond * tzsign)%Z))
        | _ => None
        end
  end.

(** The number of bytes of the character that a byte begins. *)
Definition char_width (c : ascii) : nat :=
  let n := nat_of_ascii c in
  if Nat.ltb n 128 then 1
  else if Nat.eqb (n / 16) 14 then 3
  else if Nat.eqb (n / 16) 15 then 4
  else 2.

(** *** Characters

    The string has its length in characters, and may hold a lone
    surrogate, which has no UTF-8 encoding; here it is the three bytes that
    the encoding would give it. *)

Fixpoint take_bytes (n : nat) (s : string) : string * string :=
  match n, s with
  | S n', String c s' => let (l, r) := take_bytes n' s' in (String c l, r)
  | _, _ => (EmptyString, s)
  end.

Fixpoint chars_of (fuel : nat) (s : string) : list string :=
  match fuel, s with
  | S fuel', String c _ =>
      let (ch, rest) := take_bytes (char_width c) s in
      ch :: chars_of fuel' rest
  | _, _ => []
  end.

Definition is_surrogate (ch : string) : bool :=
  match ch with
  | String a (String b _) =>
      Nat.eqb (nat_of_ascii a) 237 && Nat.leb 160 (nat_of_ascii b)
  | _ => false
  end.

(** [_sanitize_isoformat_str]: the first of the characters 7, 8 and 10
    that is a surrogate becomes a [T]. *)
Fixpoint sanitize (positions : list nat) (chars : list string) : list string :=
  match positions with
  | [] => chars
  | pos :: rest =>
      if Nat.ltb (List.length chars) pos then chars
      else if is_surrogate (nth pos chars "") then
        firstn pos chars ++ "T" :: skipn (S pos) chars
      else sanitize rest chars
  end.

Definition in_range (lo x hi : Z) : bool := ((lo <=? x) && (x <=? hi))%Z.

Definition day_microseconds : Z := 86400000000.

(** [datetime.fromisoformat(s)], [None] where it raises [ValueError]. *)
Definition iso8601 (text : string) : option datetime :=
  let chars := chars_of (String.length text) text in
  if Nat.ltb (List.length chars) 7 then None
  else
    let chars := sanitize [7; 8; 10] chars in
    if existsb is_surrogate chars then None
    else
      let s := String.concat "" chars in
      let len := String.length s in
      let separator_location := find_isoformat_datetime_separator s len in
      match parse_isoformat_date s separator_location with
      | None => None
      | Some (y, m, d) =>
          let time :=
            match separator_location with
            | Some location =>
                if Nat.ltb location len then
                  let p := location + char_width (byte_at s location) in
                  parse_isoformat_time s p (len - p)
                else Some (0, 0, 0, 0, None)%Z
            | None => Some (0, 0, 0, 0, None)%Z
            end in
          match time with
          | None => None
          | Some (hh, mm, ss, us, tz) =>
              let offset :=
                match tz with
                | Some (tzoffset, tzusec) =>
                    if (tzoffset =? 0)%Z then Some 0%Z
                    else Some (tzoffset * 1000000 + tzusec)%Z
                | None => None
                end in
              if in_range 1 y 9999 && in_range 1 m 12
                 && in_range 1 d (days_in_month y m)
                 && in_range 0 hh 23 && in_range 0 mm 59 && in_range 0 ss 59
                 && match offset with
                    | Some o =>
                        ((- day_microseconds <? o) && (o <? day_microseconds))%Z
                    | None => true
                    end
              then Some (mk_datetime y m d hh mm ss us offset)
              else None
          end
      end.

End Datetime.

(** ** Reading a JSON text

    A model of [json.loads] with its default (strict) settings, for the
    concrete runs.  Every syntax error is a [JSONDecodeError]; an integer
    literal of more than 4300 digits is a [ValueError], as in CPython since
    3.10.7; a nesting deeper than the interpreter's stack allows is a
    [RecursionError]. *)

Module JsonText.

Definition code (c : ascii) : Z := Z.of_N (N_of_ascii c).

Definition dquote : ascii := ascii_of_nat 34.

Definition is_ws (c : ascii) : bool :=
  ((code c =? 32) || (code c =? 9) || (code c =? 10) || (code c =? 13))%Z.

Fixpoint skip_ws (s : string) : string :=
  match s with
  | String c s' => if is_ws c then skip_ws s' else s
  | EmptyString => s
  end.

(** *** String literals *)

Definition hex_digit (c : ascii) : option Z :=
  let n := code c in
  if ((48 <=? n) && (n <=? 57))%Z then Some (n - 48)%Z
  else if ((97 <=? n) && (n <=? 102))%Z then Some (n - 87)%Z
  else if ((65 <=? n) && (n <=? 70))%Z then Some (n - 55)%Z
  else None.

Definition hex4 (a b c d : ascii) : option Z :=
  match hex_digit a, hex_digit b, hex_digit c, hex_digit d with
  | Some x, Some y, Some z, Some w => Some (((x * 16 + y) * 16 + z) * 16 + w)%Z
  | _, _, _, _ => None
  end.

Definition simple_escape (c : ascii) : option ascii :=
  if Ascii.eqb c dquote then Some dquote
  else if Ascii.eqb c "\" then Some "\"%char
  else if Ascii.eqb c "/" then Some "/"%char
  else if Ascii.eqb c "b" then Some (ascii_of_nat 8)
  else if Ascii.eqb c "f" then Some (ascii_of_nat 12)
  else if Ascii.eqb c "n" then Some (ascii_of_nat 10)
  else if Ascii.eqb c "r" then Some (ascii_of_nat 13)
  else if Ascii.eqb c "t" then Some (ascii_of_nat 9)
  else None.

(** What a literal is made of: a byte of the text, or the value of a
    [\uXXXX] escape. *)
Inductive piece : Type :=
| Raw (c : ascii)
| Esc (u : Z).

(** Scans the literal whose opening quote has been read. *)
Fixpoint scan_string (s : string) : result (list piece * string) :=
  match s with
  | EmptyString => Raise JSONDecodeError
  | String c s' =>
      if Ascii.eqb c dquote then Ok ([], s')
      else if Ascii.eqb c "\" then
        match s' with
        | EmptyString => Raise JSONDecodeError
        | String e s2 =>
            if Ascii.eqb e "u" then
              match s2 with
              | String a (String b (String c2 (String d s3))) =>
                  match hex4 a b c2 d with
                  | Some u =>
                      r <- scan_string s3;; Ok (Esc u :: fst r, snd r)
                  | None => Raise JSONDecodeError
                  end
              | _ => Raise JSONDecodeError
              end
            else
              match simple_escape e with
              | Some ch => r <- scan_string s2;; Ok (Raw ch :: fst r, snd r)
              | None => Raise JSONDecodeError
              end
        end
      else if (code c <? 32)%Z then Raise JSONDecodeError
      else r <- scan_string s';; Ok (Raw c :: fst r, snd r)
  end.

Definition byte_of (z : Z) : ascii := ascii_of_N (Z.to_N z).

(** UTF-8 of a code point; a lone surrogate is written like any other
    three-byte code point. *)
Definition utf8 (n : Z) : string :=
  if (n <? 128)%Z then String (byte_of n) ""
  else if (n <? 2048)%Z then
    String (byte_of (192 + n / 64)) (String (byte_of (128 + n mod 64)) "")
  else if (n <? 65536)%Z then
    String (byte_of (224 + n / 4096))
      (String (byte_of (128 + (n / 64) mod 64))
         (String (byte_of (128 + n mod 64)) ""))
  else
    String (byte_of (240 + n / 262144))
      (String (byte_of (128 + (n / 4096) mod 64))
         (String (byte_of (128 + (n / 64) mod 64))
            (String (byte_of (128 + n mod 64)) ""))).

Definition is_high (u : Z) : bool := ((55296 <=? u) && (u <=? 56319))%Z.
Definition is_low (u : Z) : bool := ((56320 <=? u) && (u <=? 57343))%Z.

(** A high surrogate escape directly followed by a low one is one character. *)
Fixpoint decode_pieces (l : list piece) : string :=
  match l with
  | [] => ""
  | Raw c :: l' => String c (decode_pieces l')
  | Esc hi :: l' =>
      match l' with
      | Esc lo :: l'' =>
          if is_high hi && is_low lo
          then utf8 (65536 + (hi - 55296) * 1024 + (lo - 56320))
               ++ decode_pieces l''
          else utf8 hi ++ decode_pieces l'
      | _ => utf8 hi ++ decode_pieces l'
      end
  end.

(** *** Numbers *)

Definition dec_digit (c : ascii) : option Z :=
  let n := code c in
  if ((48 <=? n) && (n <=? 57))%Z then Some (n - 48)%Z else None.

(** The longest prefix of digits. *)
Fixpoint scan_digits (s : string) : list Z * string :=
  match s with
  | EmptyString => ([], s)
  | String c s' =>
      match dec_digit c with
      | Some d => let (ds, r) := scan_digits s' in (d :: ds, r)
      | None => ([], s)
      end
  end.

Definition digits_value (ds : list Z) : Z :=
  fold_left (fun a d => (a * 10 + d)%Z) ds 0%Z.

Definition prec : Z := 53.
Definition emax : Z := 1024.

(** The binary64 value nearest to [m * 10 ^ e10], ties to even. *)
Definition float_of_decimal (neg : bool) (m e10 : Z) : spec_float :=
  if (m =? 0)%Z then S754_zero neg
  else if (0 <=? e10)%Z then
    binary_normalize prec emax (cond_Zopp neg (m * 10 ^ e10)) 0 neg
  else
    let d := (10 ^ (- e10))%Z in
    let k := Z.max 0 (Z.log2 d + 56 - Z.log2 m) in
    let n := (m * 2 ^ k)%Z in
    let q := (n / d)%Z in
    let r := (n mod d)%Z in
    let loc :=
      if (r =? 0)%Z then loc_Exact else loc_Inexact (Z.compare (2 * r) d) in
    binary_round_aux prec emax neg q (- k) loc.

Definition int_max_str_digits : nat := 4300.

(** The longest match of: an optional minus; a zero, or a non-zero digit
    and more digits; optionally a point and one digit or more; optionally
    [e] or [E], an optional sign and one digit or more. *)
Definition scan_number (s : string) : result (json * string) :=
  let (neg, s1) :=
    match s with
    | String c r => if Ascii.eqb c "-" then (true, r) else (false, s)
    | EmptyString => (false, s)
    end in
  let (all, after_all) := scan_digits s1 in
  match all, s1 with
  | d0 :: _, String _ after_first =>
      let (ip, s2) :=
        if (d0 =? 0)%Z then ([0%Z], after_first) else (all, after_all) in
      let (fp, s3) :=
        match s2 with
        | String c r =>
            if Ascii.eqb c "." then
              match scan_digits r with
              | ([], _) => ([], s2)
              | (ds, r') => (ds, r')
              end
            else ([], s2)
        | EmptyString => ([], s2)
        end in
      let '(ep, s4) :=
        match s3 with
        | String c r =>
            if Ascii.eqb c "e" || Ascii.eqb c "E" then
              let (sg, r1) :=
                match r with
                | String c' r' =>
                    if Ascii.eqb c' "-" then ((-1)%Z, r')
                    else if Ascii.eqb c' "+" then (1%Z, r')
                    else (1%Z, r)
                | EmptyString => (1%Z, r)
                end in
              match scan_digits r1 with
              | ([], _) => (None, s3)
              | (ds, r2) => (Some (sg * digits_value ds)%Z, r2)
              end
            else (None, s3)
        | EmptyString => (None, s3)
        end in
      match fp, ep with
      | [], None =>
          if Nat.ltb int_max_str_digits (List.length ip) then Raise ValueError
          else Ok (JInt (cond_Zopp neg (digits_value ip)), s4)
      | _, _ =>
          let e := match ep with Some e => e | None => 0%Z end in
          Ok (JFloat (float_of_decimal neg (digits_value (ip ++ fp))
                        (e - Z.of_nat (List.length fp))),
              s4)
      end
  | _, _ => Raise JSONDecodeError
  end.

(** *** Values *)

Section Containers.

Variable value : string -> result (json * string).

(** The elements of an array, after [[] or after a comma. *)
Fixpoint parse_elements (n : nat) (s : string) (acc : list json)
  : result (json * string) :=
  match n with
  | O => Raise RecursionError
  | S n' =>
      p <- value s;;
      let acc := acc ++ [fst p] in
      match skip_ws (snd p) with
      | String c r =>
          if Ascii.eqb c "," then parse_elements n' (skip_ws r) acc
          else if Ascii.eqb c "]" then Ok (JList acc, r)
          else Raise JSONDecodeError
      | EmptyString => Raise JSONDecodeError
      end
  end.

(** The members of an object, after [{] or after a comma; a repeated key
    takes the later value. *)
Fixpoint parse_members (n : nat) (s : string) (acc : dict)
  : result (json * string) :=
  match n with
  | O => Raise RecursionError
  | S n' =>
      match s with
      | String q r =>
          if Ascii.eqb q dquote then
            k <- scan_string r;;
            match skip_ws (snd k) with
            | String c r1 =>
                if Ascii.eqb c ":" then
                  p <- value (skip_ws r1);;
                  let acc := dict_set acc (decode_pieces (fst k)) (fst p) in
                  match skip_ws (snd p) with
                  | String c' r2 =>
                      if Ascii.eqb c' "," then parse_members n' (skip_ws r2) acc
                      else if Ascii.eqb c' "}" then Ok (JDict acc, r2)
                      else Raise JSONDecodeError
                  | EmptyString => Raise JSONDecodeError
                  end
                else Raise JSONDecodeError
            | EmptyString => Raise JSONDecodeError
            end
          else Raise JSONDecodeError
      | EmptyString => Raise JSONDecodeError
      end
  end.

End Containers.

Definition literal (word : string) (v : json) (s : string)
  : option (json * string) :=
  match drop_prefix word s with
  | Some r => Some (v, r)
  | None => None
  end.

(** One value.  [depth] is the number of arrays and objects that may still
    be opened within one another.  [size] bounds the members of each; every
    member takes a character of the text and [loads] gives the length of the
    text and one more, so that this bound is never reached. *)
Fixpoint parse_value (depth size : nat) (s : string)
  : result (json * string) :=
  match s with
  | EmptyString => Raise JSONDecodeError
  | String c r =>
      if Ascii.eqb c dquote then
        p <- scan_string r;; Ok (JStr (decode_pieces (fst p)), snd p)
      else if Ascii.eqb c "{" then
        match depth with
        | O => Raise RecursionError
        | S depth' =>
            match skip_ws r with
            | String c' r' =>
                if Ascii.eqb c' "}" then Ok (JDict [], r')
                else parse_members (parse_value depth' size) size (skip_ws r) []
            | EmptyString => Raise JSONDecodeError
            end
        end
      else if Ascii.eqb c "[" then
        match depth with
        | O => Raise RecursionError
        | S depth' =>
            match skip_ws r with
            | String c' r' =>
                if Ascii.eqb c' "]" then Ok (JList [], r')
                else parse_elements (parse_value depth' size) size (skip_ws r) []
            | EmptyString => Raise JSONDecodeError
            end
        end
      else
        match
          first_some (fun f => f s)
            [literal "null" JNull; literal "true" (JBool true);
             literal "false" (JBool false); literal "NaN" (JFloat S754_nan);
             literal "Infinity" (JFloat (S754_infinity false));
             literal "-Infinity" (JFloat (S754_infinity true))]
        with
        | Some p => Ok p
        | None => scan_number s
        end
  end.

(** How deep arrays and objects may be nested before the decoder raises
    [RecursionError]: what is left of CPython 3.11's default recursion limit
    of 1000 where [parse_log_file], called by [main], calls [json.loads]. *)
Definition nesting_limit : nat := 993.

(** [json.loads(s)] *)
Definition loads (s : string) : result json :=
  p <- parse_value nesting_limit (S (String.length s)) (skip_ws s);;
  if Datetime.is_empty (skip_ws (snd p)) then Ok (fst p)
  else Raise JSONDecodeError.

End JsonText.

(** ** The script *)

Module ConsumeLogs.

Import Datetime.

(** A test case is a dictionary with a fixed set of keys. *)
Record test_case : Type := mk_test_case {
  name : json;
  session_id : json;
  start_time : json;
  end_time : json;
  duration : option Q;
  status : string;
  request : json;
  responses : list json;
  final_result : json;
  errors : list json;
  progress_messages : list json
}.

Definition set_end_time (tc : test_case) (v : json) : test_case :=
  mk_test_case (name tc) (session_id tc) (start_time tc) v (duration tc)
    (status tc) (request tc) (responses tc) (final_result tc) (errors tc)
    (progress_messages tc).

Definition set_duration (tc : test_case) (v : option Q) : test_case :=
  mk_test_case (name tc) (session_id tc) (start_time tc) (end_time tc) v
    (status tc) (request tc) (responses tc) (final_result tc) (errors tc)
    (progress_messages tc).

Definition set_status (tc : test_case) (v : string) : test_case :=
  mk_test_case (name tc) (session_id tc) (start_time tc) (end_time tc)
    (duration tc) v (request tc) (responses tc) (final_result tc) (errors tc)
    (progress_messages tc).

Definition set_request (tc : test_case) (v : json) : test_case :=
  mk_test_case (name tc) (session_id tc) (start_time tc) (end_time tc)
    (duration tc) (status tc) v (responses tc) (final_result tc) (errors tc)
    (progress_messages tc).

Definition set_final_result (tc : test_case) (v : json) : test_case :=
  mk_test_case (name tc) (session_id tc) (start_time tc) (end_time tc)
    (duration tc) (status tc) (request tc) (responses tc) v (errors tc)
    (progress_messages tc).

Definition append_response (tc : test_case) (v : json) : test_case :=
  mk_test_case (name tc) (session_id tc) (start_time tc) (end_time tc)
    (duration tc) (status tc) (request tc) (responses tc ++ [v])
    (final_result tc) (errors tc) (progress_messages tc).

Definition append_error (tc : test_case) (v : json) : test_case :=
  mk_test_case (name tc) (session_id tc) (start_time tc) (end_time tc)
    (duration tc) (status tc) (request tc) (responses tc) (final_result tc)
    (errors tc ++ [v]) (progress_messages tc).

Definition append_progress (tc : test_case) (v : json) : test_case :=
  mk_test_case (name tc) (session_id tc) (start_time tc) (end_time tc)
    (duration tc) (status tc) (request tc) (responses tc) (final_result tc)
    (errors tc) (progress_messages tc ++ [v]).

Record summary_t : Type := mk_summary {
  total_tests : Z;
  successful_tests : Z;
  failed_tests : Z;
  incomplete_tests : Z;
  success_rate : Q;
  total_duration : Q;
  average_duration : Q;
  test_names : list json
}.

(** The [results] dictionary; [save_results] adds the last two keys. *)
Record results : Type := mk_results {
  run_info : json;
  test_cases : list test_case;
  summary : option summary_t;
  generated_at : option string
}.

(** *** Helpers of the reducer *)

Definition extract_run_header (log_entry : json) : result json :=
  ts <- py_get log_entry "ts" JNull;;
  endpoint_id <- py_get log_entry "endpoint_id" JNull;;
  url <- py_get log_entry "url" JNull;;
  Ok (JDict [("timestamp", ts); ("endpoint_id", endpoint_id);
             ("websocket_url", url)]).

Definition initialize_test_case (log_entry : json) : result test_case :=
  case <- py_get log_entry "case" JNull;;
  session <- py_get log_entry "session" JNull;;
  ts <- py_get log_entry "ts" JNull;;
  Ok (mk_test_case case session ts JNull None "running" (JDict []) []
        (JDict []) [] []).

Definition core_params : list string :=
  ["prompt"; "env_id"; "session_id"; "where"; "when"; "metricFilters";
   "useVectorSearch"].

Definition extract_request_data (log_entry : json) : result json :=
  request_data <- py_get log_entry "request" (JDict []);;
  prompt <- py_get request_data "prompt" JNull;;
  env_id <- py_get request_data "env_id" JNull;;
  where_ <- py_get request_data "where" JNull;;
  when_ <- py_get request_data "when" JNull;;
  metric_filters <- py_get request_data "metricFilters" (JList []);;
  use_vector_search <- py_get request_data "useVectorSearch" (JBool false);;
  items <- py_items request_data;;
  Ok (JDict
        [("prompt", prompt); ("env_id", env_id); ("where", where_);
         ("when", when_); ("metric_filters", metric_filters);
         ("use_vector_search", use_vector_search);
         ("additional_params",
          JDict (dict_of_items
                   (filter (fun kv => negb (existsb (String.eqb (fst kv))
                                                    core_params))
                           items)))]).

Definition extract_success_data (frame : json) : result json :=
  data <- py_get frame "data" (JDict []);;
  message <- py_get frame "message" JNull;;
  timestamp <- py_get frame "ts" JNull;;
  key_findings <- py_get data "key_findings" JNull;;
  trends_anomalies <- py_get data "trends_anomalies" JNull;;
  recommendations <- py_get data "recommendations" JNull;;
  data_quality <- py_get data "data_quality" JNull;;
  executive_summary <- py_get data "executive_summary" JNull;;
  key_metrics <- py_get data "key_metrics" JNull;;
  alerts <- py_get data "alerts" JNull;;
  context <- py_get data "context" JNull;;
  relevance <- py_get data "relevance_score" JNull;;
  completeness <- py_get data "completeness_score" JNull;;
  quality <- py_get data "quality_score" JNull;;
  evaluation_notes <- py_get data "evaluation_notes" JNull;;
  Ok (JDict
        [("message", message); ("timestamp", timestamp);
         ("key_findings", key_findings);
         ("trends_anomalies", trends_anomalies);
         ("recommendations", recommendations);
         ("data_quality", data_quality);
         ("executive_summary", executive_summary);
         ("key_metrics", key_metrics); ("alerts", alerts);
         ("context", context);
         ("scores",
          JDict [("relevance", relevance); ("completeness", completeness);
                 ("quality", quality)]);
         ("evaluation_notes", evaluation_notes)]).

Definition process_frame_data (tc : test_case) (frame : json)
  : result test_case :=
  frame_status <- py_get frame "status" JNull;;
  frame_message <- py_get frame "message" (JStr "");;
  frame_timestamp <- py_get frame "ts" JNull;;
  data <- py_get frame "data" JNull;;
  let tc :=
    append_response tc
      (JDict [("status", frame_status); ("message", frame_message);
              ("timestamp", frame_timestamp); ("data", data)]) in
  if eq_str frame_status "progress" then
    data <- py_get frame "data" JNull;;
    Ok (append_progress tc
          (JDict [("message", frame_message); ("timestamp", frame_timestamp);
                  ("data", data)]))
  else if eq_str frame_status "success" then
    final <- extract_success_data frame;;
    Ok (set_final_result (set_status tc "success") final)
  else if eq_str frame_status "error" then
    data <- py_get frame "data" JNull;;
    Ok (append_error (set_status tc "error")
          (JDict [("type", JStr "execution_error");
                  ("message", frame_message);
                  ("timestamp", frame_timestamp); ("data", data)]))
  else Ok tc.

Section Reducer.

(** [json.loads] and [datetime.fromisoformat] belong to the interpreter.
    [json_loads] raises [JSONDecodeError] on a text that is not JSON and may
    raise other exceptions (an integer literal beyond the digit limit, a
    nesting deeper than the stack allows); [fromisoformat] answers [None]
    where the interpreter raises [ValueError]. *)
Variable json_loads : string -> result json.
Variable fromisoformat : string -> option datetime.

Definition py_fromisoformat (s : string) : result datetime :=
  match fromisoformat s with
  | Some d => Ok d
  | None => Raise ValueError
  end.

Definition finalize_test_case (tc : test_case) : result test_case :=
  let start_time_str := start_time tc in
  let end_time_str := end_time tc in
  tc <- (if truthy start_time_str && truthy end_time_str then
           try_except
             (s <- py_replace start_time_str "Z" "+00:00";;
              start <- py_fromisoformat s;;
              e <- py_replace end_time_str "Z" "+00:00";;
              end_ <- py_fromisoformat e;;
              delta <- Datetime.sub end_ start;;
              Ok (set_duration tc (Some (total_seconds delta))))
             ValueError
             (Ok (set_duration tc None))
         else Ok (set_duration tc None));;
  if String.eqb (status tc) "running" then
    match errors tc with
    | _ :: _ => Ok (set_status tc "error")
    | [] => Ok (set_status tc "incomplete")
    end
  else Ok tc.

(** The two locals of [parse_log_file]. *)
Record loop_state : Type := mk_state {
  acc : results;
  current_test_case : option test_case
}.

Definition set_current (st : loop_state) (c : option test_case) : loop_state :=
  mk_state (acc st) c.

Definition set_run_info (st : loop_state) (v : json) : loop_state :=
  mk_state (mk_results v (test_cases (acc st)) (summary (acc st))
              (generated_at (acc st)))
           (current_test_case st).

Definition append_test_case (st : loop_state) (tc : test_case) : loop_state :=
  mk_state (mk_results (run_info (acc st)) (test_cases (acc st) ++ [tc])
              (summary (acc st)) (generated_at (acc st)))
           (current_test_case st).

(** The body of the [for] loop once the line has been decoded. *)
Definition handle_entry (st : loop_state) (log_entry : json)
  : result loop_state :=
  event_type <- py_get log_entry "event" JNull;;
  if eq_str event_type "run_header" then
    info <- extract_run_header log_entry;;
    Ok (set_run_info st info)
  else if eq_str event_type "connection_opening" then
    tc <- initialize_test_case log_entry;;
    Ok (set_current st (Some tc))
  else if eq_str event_type "sent_request" then
    match current_test_case st with
    | Some tc =>
        req <- extract_request_data log_entry;;
        Ok (set_current st (Some (set_request tc req)))
    | None => Ok st
    end
  else
    has_case <- py_in "case" log_entry;;
    has_frame <- (if has_case then py_in "frame" log_entry else Ok false);;
    if has_case && has_frame then
      match current_test_case st with
      | Some tc =>
          case <- py_getitem log_entry "case";;
          if py_eq case (name tc) then
            frame <- py_getitem log_entry "frame";;
            tc' <- process_frame_data tc frame;;
            Ok (set_current st (Some tc'))
          else Ok st
      | None => Ok st
      end
    else if eq_str event_type "connection_closed" then
      match current_test_case st with
      | Some tc =>
          ts <- py_get log_entry "ts" JNull;;
          tc' <- finalize_test_case (set_end_time tc ts);;
          Ok (set_current (append_test_case st tc') None)
      | None => Ok st
      end
    else if eq_str event_type "client_error"
            || eq_str event_type "client_timeout" then
      match current_test_case st with
      | Some tc =>
          message <- py_get log_entry "error" (JStr "Timeout occurred");;
          ts <- py_get log_entry "ts" JNull;;
          Ok (set_current st
                (Some (append_error tc
                         (JDict [("type", event_type); ("message", message);
                                 ("timestamp", ts)]))))
      | None => Ok st
      end
    else Ok st.

Fixpoint run_lines (lines : list string) (st : loop_state)
  : result loop_state :=
  match lines with
  | [] => Ok st
  | line :: rest =>
      match json_loads (py_strip line) with
      | Ok log_entry =>
          st' <- handle_entry st log_entry;;
          run_lines rest st'
      | Raise e =>
          if isinstance e JSONDecodeError then run_lines rest st
          else Raise e
      end
  end.

Definition initial_state : loop_state :=
  mk_state (mk_results (JDict []) [] None None) None.

(** [lines] is what [file.readlines()] returned. *)
Definition parse_log_file (lines : list string) : result results :=
  st <- run_lines lines initial_state;;
  Ok (acc st).

End Reducer.

(** *** The aggregator *)

Definition count_status (s : string) (tcs : list test_case) : Z :=
  Z.of_nat (List.length (filter (fun tc => String.eqb (status tc) s) tcs)).

(** [bool(tc.get("duration"))] *)
Definition duration_truthy (tc : test_case) : bool :=
  match duration tc with
  | Some d => negb (Qeq_bool d 0%Q)
  | None => false
  end.

Definition duration_or_zero (tc : test_case) : Q :=
  match duration tc with
  | Some d => d
  | None => 0%Q
  end.

(** [sum(l)] *)
Definition py_sum (l : list Q) : Q := fold_left Qplus l 0%Q.

(** [generate_summary] and [save_results] receive the [results] dictionary
    by reference: they are state transformers over it. *)
Definition call (A : Type) : Type := results -> A * results.

Definition ret {A : Type} (a : A) : call A := fun r => (a, r).

Definition bind_call {A B : Type} (m : call A) (k : A -> call B) : call B :=
  fun r => let (a, r') := m r in k a r'.

(** [results.get("test_cases", [])] *)
Definition get_test_cases : call (list test_case) :=
  fun r => (test_cases r, r).

(** [results["summary"] = v] *)
Definition set_summary (v : summary_t) : call unit :=
  fun r => (tt, mk_results (run_info r) (test_cases r) (Some v)
                  (generated_at r)).

(** [results["generated_at"] = v] *)
Definition set_generated_at (v : string) : call unit :=
  fun r => (tt, mk_results (run_info r) (test_cases r) (summary r) (Some v)).

Definition generate_summary : call summary_t :=
  bind_call get_test_cases (fun test_cases =>
  let total_tests := Z.of_nat (List.length test_cases) in
  let successful_tests := count_status "success" test_cases in
  let failed_tests := count_status "error" test_cases in
  let incomplete_tests := count_status "incomplete" test_cases in
  let total_duration :=
    py_sum (map duration_or_zero (filter duration_truthy test_cases)) in
  let average_duration :=
    if (0 <? total_tests)%Z then (total_duration / inject_Z total_tests)%Q
    else 0%Q in
  ret (mk_summary total_tests successful_tests failed_tests incomplete_tests
         (if (0 <? total_tests)%Z
          then (inject_Z successful_tests / inject_Z total_tests)%Q else 0%Q)
         total_duration average_duration (map name test_cases))).

(** [now] is the text of [datetime.now().isoformat()]; the value returned is
    the document handed to [json.dump]. *)
Definition save_results (now : string) : call results :=
  bind_call generate_summary (fun s =>
  bind_call (set_summary s) (fun _ =>
  bind_call (set_generated_at now) (fun _ =>
  fun r => (r, r)))).

End ConsumeLogs.

Import ConsumeLogs.

(** ** Concrete runs *)

Module Runs.

(** Log lines are written with ['] where the file has a double quote. *)
Definition quoted (s : string) : string :=
  str_replace "'" (String JsonText.dquote "") s.

Definition newline : string := String (ascii_of_nat 10) "".

(** The script with the interpreter's two library functions plugged in. *)
Definition parse (lines : list string) : result results :=
  parse_log_file JsonText.loads Datetime.iso8601 lines.

Definition example_lines : list string :=
  map quoted
    ["{'event':'run_header','ts':'2025-01-01T00:00:00Z','endpoint_id':'default','url':'ws://h/p'}";
     "{'event':'connection_opening','case':'T1','session':'s1','ts':'2025-01-01T00:00:00Z'}";
     "{'case':'T1','session':'s1','frame':{'status':'success','message':'done','ts':'2025-01-01T00:00:02Z','data':{'key_findings':'k'}}}";
     "{'event':'connection_closed','case':'T1','session':'s1','ts':'2025-01-01T00:00:02Z'}"].

(** A case as [connection_opening] leaves it. *)
Definition opened (case session ts : json) : test_case :=
  mk_test_case case session ts JNull None "running" (JDict []) [] (JDict [])
    [] [].

Definition no_results : results := mk_results (JDict []) [] None None.

Definition utc (y m d hh mm ss : Z) : Datetime.datetime :=
  Datetime.mk_datetime y m d hh mm ss 0 (Some 0%Z).

(** T1 about to be finalized, two seconds after it was opened. *)
Definition closing_T1 : test_case :=
  set_end_time
    (opened (JStr "T1") (JStr "s1") (JStr "2025-01-01T00:00:00Z"))
    (JStr "2025-01-01T00:00:02Z").

(** The same with a closing event that carried no timestamp. *)
Definition closing_T1_no_end : test_case :=
  opened (JStr "T1") (JStr "s1") (JStr "2025-01-01T00:00:00Z").

(** A log whose opening event carries a number as its timestamp. *)
Definition numeric_ts_lines : list string :=
  map quoted
    ["{'event':'connection_opening','case':'T1','session':'s1','ts':5}";
     "{'event':'connection_closed','case':'T1','session':'s1','ts':'2025-01-01T00:00:02Z'}"].

(** A log whose opening timestamp has no offset and whose closing one has. *)
Definition mixed_offset_lines : list string :=
  map quoted
    ["{'event':'connection_opening','case':'T1','session':'s1','ts':'2025-01-01T00:00:00'}";
     "{'event':'connection_closed','case':'T1','session':'s1','ts':'2025-01-01T00:00:02Z'}"].

(** A log with a client error between an opening event that carries epoch
    seconds and the closing event. *)
Definition epoch_ts_lines : list string :=
  map quoted
    ["{'event':'connection_opening','case':'T2','session':'s2','ts':1735689600}";
     "{'event':'client_error','case':'T2','session':'s2','error':'boom','ts':'2025-01-01T00:00:01Z'}";
     "{'event':'connection_closed','case':'T2','session':'s2','ts':'2025-01-01T00:00:02Z'}"].

(** T2 of that log when its closing event arrives. *)
Definition closing_T2 : test_case :=
  set_end_time
    (append_error
       (opened (JStr "T2") (JStr "s2") (JInt 1735689600))
       (JDict [("type", JStr "client_error"); ("message", JStr "boom");
               ("timestamp", JStr "2025-01-01T00:00:01Z")]))
    (JStr "2025-01-01T00:00:02Z").

(** T3, closed after a client timeout. *)
Definition closing_T3 : test_case :=
  set_end_time
    (append_error
       (opened (JStr "T3") (JStr "s3") (JStr "2025-01-01T00:00:00Z"))
       (JDict [("type", JStr "client_timeout");
               ("message", JStr "Timeout occurred");
               ("timestamp", JStr "2025-01-01T00:05:00Z")]))
    (JStr "2025-01-01T00:05:00Z").

(** Case A is opened and, before it is closed, case B is opened. *)
Definition open_A_line : string :=
  quoted "{'event':'connection_opening','case':'A','session':'s1','ts':'2025-01-01T00:00:00Z'}".

Definition open_B_line : string :=
  quoted "{'event':'connection_opening','case':'B','session':'s2','ts':'2025-01-01T00:00:05Z'}".

Definition close_B_line : string :=
  quoted "{'event':'connection_closed','case':'B','session':'s2','ts':'2025-01-01T00:00:07Z'}".

Definition case_A : test_case :=
  opened (JStr "A") (JStr "s1") (JStr "2025-01-01T00:00:00Z").

Definition A_is_open : loop_state := mk_state no_results (Some case_A).

(** A frame record for a case B that is not the open one. *)
Definition frame_for_B : json :=
  JDict [("case", JStr "B"); ("session", JStr "s2");
         ("frame", JDict [("status", JStr "success")])].

(** A log cut in the middle of its second line, and the same log without
    that line. *)
Definition truncated_lines : list string :=
  map quoted
    ["{'event':'connection_opening','case':'T1','session':'s1','ts':'2025-01-01T00:00:00Z'}";
     "{'case':'T1','session':'s1','frame':{'status':'succ";
     "{'event':'connection_closed','case':'T1','session':'s1','ts':'2025-01-01T00:00:02Z'}"].

Definition truncated_line : string :=
  quoted "{'case':'T1','session':'s1','frame':{'status':'succ".

(** A log with two run headers. *)
Definition first_header : json :=
  JDict [("event", JStr "run_header"); ("ts", JStr "2025-01-01T00:00:00Z");
         ("endpoint_id", JStr "default"); ("url", JStr "ws://h/p")].

Definition second_header : json :=
  JDict [("event", JStr "run_header"); ("ts", JStr "2025-01-02T00:00:00Z");
         ("endpoint_id", JStr "other"); ("url", JStr "ws://h/q")].

Definition two_header_lines : list string :=
  map quoted
    ["{'event':'run_header','ts':'2025-01-01T00:00:00Z','endpoint_id':'default','url':'ws://h/p'}";
     "{'event':'run_header','ts':'2025-01-02T00:00:00Z','endpoint_id':'other','url':'ws://h/q'}"].

(** Two finalized cases, one of which has no duration. *)
Definition finished (case : string) (d : option Q) (st : string) : test_case :=
  set_status (set_duration (opened (JStr case) JNull JNull) d) st.

Definition two_cases : results :=
  mk_results (JDict [])
    [finished "T1" (Some 3%Q) "success"; finished "T2" None "incomplete"]
    None None.

(** A request payload as the runner sends it, with one extra parameter. *)
Definition payload : dict :=
  [("prompt", JStr "cpu usage"); ("env_id", JStr "default");
   ("session_id", JStr "0f8a"); ("where", JStr "aws-cw");
   ("limit", JInt 10)].

Definition sent_request_entry : dict :=
  [("event", JStr "sent_request"); ("case", JStr "T1");
   ("session", JStr "0f8a"); ("request", JDict payload);
   ("ts", JStr "2025-01-01T00:00:00Z")].

End Runs.

(** ** Specification-side notions *)

(** The durations that are not null, in encounter order. *)
Definition non_null_durations (tcs : list test_case) : list Q :=
  flat_map (fun tc => match duration tc with Some d => [d] | None => [] end)
    tcs.

(** The sum of a list of rationals. *)
Definition Qsum (l : list Q) : Q := fold_right Qplus 0%Q l.

(** How many cases carry a given status. *)
Definition with_status (s : string) (tcs : list test_case) : nat :=
  count_occ string_dec (map status tcs) s.

(** How many cases carry a duration. *)
Definition with_duration (tcs : list test_case) : nat :=
  List.length (non_null_durations tcs).

(** A line on which [json.loads] raises [JSONDecodeError]: the lines the
    loop skips.  A line can fail to parse with another exception,
    [ValueError] for a number of more than 4300 digits or [RecursionError]
    for deep nesting, and is then not skipped. *)
Definition malformed (json_loads : string -> result json) (line : string)
  : bool :=
  match json_loads (py_strip line) with
  | Ok _ => false
  | Raise e => isinstance e JSONDecodeError
  end.

(** The entries of a log: what its lines decode to, in order. *)
Definition decoded (json_loads : string -> result json) (lines : list string)
  : list json :=
  flat_map (fun l => match json_loads (py_strip l) with
                     | Ok entry => [entry]
                     | Raise _ => []
                     end) lines.

(** An entry whose [event] field is the given name. *)
Definition is_event (kind : string) (entry : json) : bool :=
  match py_get entry "event" JNull with
  | Ok ev => eq_str ev kind
  | Raise _ => false
  end.

(** A record with both a [case] and a [frame] key. *)
Definition has_case_and_frame (entry : json) : bool :=
  match entry with
  | JDict d => dict_has d "case" && dict_has d "frame"
  | _ => false
  end.

(** Such a record is for another case than the open one, or no case is
    open. *)
Definition not_for_open_case (current : option test_case) (entry : json)
  : bool :=
  match current with
  | None => true
  | Some tc =>
      match py_getitem entry "case" with
      | Ok case => negb (py_eq case (name tc))
      | Raise _ => false
      end
  end.

(** A timestamp that is absent or a string. *)
Definition str_or_null (v : json) : bool :=
  match v with
  | JNull | JStr _ => true
  | _ => false
  end.

(** What a timestamp parses to: it must be present, that is truthy, and a
    string that the parser reads once every [Z] is written [+00:00]. *)
Definition parsed_timestamp (fromisoformat : string -> option Datetime.datetime)
    (v : json) : option Datetime.datetime :=
  match v with
  | JStr s =>
      if truthy v then fromisoformat (str_replace "Z" "+00:00" s) else None
  | _ => None
  end.

(** Both values carry a UTC offset, or neither does. *)
Definition same_awareness (a b : Datetime.datetime) : bool :=
  match Datetime.tzinfo a, Datetime.tzinfo b with
  | Some _, Some _ | None, None => true
  | _, _ => false
  end.

(** The status a case has once closed. *)
Definition closing_status (tc : test_case) : string :=
  if String.eqb (status tc) "running" then
    match errors tc with
    | [] => "incomplete"
    | _ :: _ => "error"
    end
  else status tc.


(** ** The runner that writes the log *)

Module RunGrun.

(** [v in {...}] for a set of strings: the value is hashed before it is
    compared, and a list or a dictionary has no hash. *)
Definition in_str_set (v : json) (set : list string) : result bool :=
  match v with
  | JList _ | JDict _ => Raise TypeError
  | _ => Ok (existsb (eq_str v) set)
  end.

Definition should_close (frame : json) : result bool :=
  match frame with
  | JDict _ =>
      status <- py_get frame "status" JNull;;
      in_str_set status ["success"; "error"]
  | _ => Ok false
  end.

(** [d.update(other)] *)
Definition dict_update (d other : dict) : dict :=
  fold_left (fun acc kv => dict_set acc (fst kv) (snd kv)) other d.

Definition mk_request (test_case : json) (session_id : string) : result json :=
  prompt <- py_getitem test_case "prompt";;
  env_id <- py_get test_case "env_id" (JStr "default");;
  let req :=
    [("prompt", prompt); ("env_id", env_id); ("session_id", JStr session_id)] in
  additional <- py_get test_case "additional_params" JNull;;
  match additional with
  | JDict _ =>
      other <- py_getitem test_case "additional_params";;
      items <- py_items other;;
      Ok (JDict (dict_update req items))
  | _ => Ok (JDict req)
  end.

(** The record [run_case] writes once the request is sent. *)
Definition sent_request_record (name : json) (session_id : string)
    (req : json) (ts : string) : json :=
  JDict [("event", JStr "sent_request"); ("case", name);
         ("session", JStr session_id); ("request", req); ("ts", JStr ts)].

(** The record [run_case] writes for a text message of the server. *)
Definition frame_record (name : json) (session_id : string) (payload : json)
  : json :=
  JDict [("case", name); ("session", JStr session_id); ("frame", payload)].

(** [str(n)] for an integer *)
Definition str_of_int (n : Z) : string := NilZero.string_of_int (Z.to_int n).

Definition ws_url (host : string) (port : Z) (endpoint_id : string) : string :=
  "ws://" ++ host ++ ":" ++ str_of_int port ++ "/story/ep/" ++ endpoint_id
  ++ "/grun/ws".

(** *** The other records of [run_case] and [main_async] *)

Definition header_record (ts endpoint_id url : string) : json :=
  JDict [("event", JStr "run_header"); ("ts", JStr ts);
         ("endpoint_id", JStr endpoint_id); ("url", JStr url)].

Definition opening_record (name : json) (session_id url ts : string) : json :=
  JDict [("event", JStr "connection_opening"); ("case", name);
         ("session", JStr session_id); ("url", JStr url); ("ts", JStr ts)].

Definition open_record (name : json) (session_id ts : string) : json :=
  JDict [("event", JStr "connection_open"); ("case", name);
         ("session", JStr session_id); ("ts", JStr ts)].

Definition timeout_record (name : json) (session_id ts : string) : json :=
  JDict [("event", JStr "client_timeout"); ("case", name);
         ("session", JStr session_id); ("ts", JStr ts)].

Definition binary_payload (raw_b64 ts : string) : json :=
  JDict [("binary", JBool true); ("raw_b64", JStr raw_b64); ("ts", JStr ts)].

Definition raw_payload (raw ts : string) : json :=
  JDict [("raw", JStr raw); ("ts", JStr ts)].

Definition error_record (name : json) (session_id error ts : string) : json :=
  JDict [("event", JStr "client_error"); ("case", name);
         ("session", JStr session_id); ("error", JStr error); ("ts", JStr ts)].

Definition closed_record (name : json) (session_id ts : string) : json :=
  JDict [("event", JStr "connection_closed"); ("case", name);
         ("session", JStr session_id); ("ts", JStr ts)].

(** [d.setdefault(k, v)] *)
Definition dict_setdefault (d : dict) (k : string) (v : json) : dict :=
  if dict_has d k then d else dict_set d k v.

(** *** [run_case] and [main_async] against a scripted connection

    The runner talks to a WebSocket server and reads the clock.  Here the
    server's side is a script: what each awaited call hands back.  The log
    file is the list of the objects given to [logger.write], in order, and
    the clock is the sequence of its readings; writing to the file is taken
    to succeed. *)

(** How an awaited call can fail to hand back a value: with an exception
    that [except Exception] catches, [text] being its [str]; with a
    cancellation, which that handler does not catch; or not at all yet. *)
Inductive halt : Type :=
| failure (text : string)
| cancelled
| pending.

(** What [wait_for(ws.recv(), ...)] hands back; for a message in bytes,
    the text [b64encode] makes of it.  When the script of the messages is
    used up the call is still waiting. *)
Inductive received : Type :=
| timed_out
| bytes_message (raw_b64 : string)
| text_message (raw : string)
| halted (h : halt).

(** The script of one connection: entering the [async with] block, sending
    the request, the messages in turn, leaving the block after the loop.
    An exception raised inside the block is taken to leave it unchanged. *)
Record connection : Type := mk_connection {
  connect : option halt;
  send : option halt;
  inbox : list received;
  leave : option halt
}.

(** One call of [run_case]: the test case, the identifier [uuid4] draws and
    the script of its connection. *)
Record session : Type := mk_session {
  case : json;
  uuid : string;
  socket : connection
}.

(** The log so far and the number of clock readings so far. *)
Record journal : Type := mk_journal {
  written : list json;
  reads : nat
}.

Definition empty_journal : journal := mk_journal [] 0.

Section Runner.

(** [json.loads], [str] of an exception and the readings of the clock as
    [ts()] formats them. *)
Variable json_loads : string -> result json.
Variable describe : exn -> string.
Variable now : nat -> string.

(** [logger.write(obj)] *)
Definition write (obj : json) (j : journal) : journal :=
  mk_journal (written j ++ [obj]) (reads j).

(** [logger.write({..., "ts": ts()})] *)
Definition write_at (record : string -> json) (j : journal) : journal :=
  mk_journal (written j ++ [record (now (reads j))]) (S (reads j)).

(** The payload of a text message: the decoded text, with a [ts] when it is
    an object that has none, or the raw text when it is not JSON. *)
Definition read_text (raw : string) (j : journal) : result json * journal :=
  match json_loads raw with
  | Ok (JDict d) =>
      (Ok (JDict (dict_setdefault d "ts" (JStr (now (reads j))))),
       mk_journal (written j) (S (reads j)))
  | Ok payload => (Ok payload, j)
  | Raise e =>
      if isinstance e JSONDecodeError then
        (Ok (raw_payload raw (now (reads j))),
         mk_journal (written j) (S (reads j)))
      else (Raise e, j)
  end.

(** The [while True] loop. *)
Fixpoint receive (name : json) (session_id : string) (inbox : list received)
    (j : journal) : option halt * journal :=
  match inbox with
  | [] => (Some pending, j)
  | halted h :: _ => (Some h, j)
  | timed_out :: _ => (None, write_at (timeout_record name session_id) j)
  | bytes_message raw_b64 :: rest =>
      receive name session_id rest
        (write_at
           (fun ts => frame_record name session_id (binary_payload raw_b64 ts))
           j)
  | text_message raw :: rest =>
      match read_text raw j with
      | (Raise e, j) => (Some (failure (describe e)), j)
      | (Ok payload, j) =>
          let j := write (frame_record name session_id payload) j in
          match should_close payload with
          | Ok true => (None, j)
          | Ok false => receive name session_id rest j
          | Raise e => (Some (failure (describe e)), j)
          end
      end
  end.

(** The body of the [try] statement. *)
Definition exchange (name : json) (s : session) (j : journal)
  : option halt * journal :=
  match connect (socket s) with
  | Some h => (Some h, j)
  | None =>
      let j := write_at (open_record name (uuid s)) j in
      match mk_request (case s) (uuid s) with
      | Raise e => (Some (failure (describe e)), j)
      | Ok req =>
          match send (socket s) with
          | Some h => (Some h, j)
          | None =>
              let j := write_at (sent_request_record name (uuid s) req) j in
              match receive name (uuid s) (inbox (socket s)) j with
              | (None, j) => (leave (socket s), j)
              | (Some h, j) => (Some h, j)
              end
          end
      end
  end.

(** [run_case]: what leaves it, if anything, and the log after it. *)
Definition run_case (s : session) (url : string) (j : journal)
  : option halt * journal :=
  match py_getitem (case s) "name" with
  | Raise e => (Some (failure (describe e)), j)
  | Ok name =>
      let j := write_at (opening_record name (uuid s) url) j in
      match exchange name s j with
      | (None, j) => (None, write_at (closed_record name (uuid s)) j)
      | (Some (failure text), j) =>
          let j := write_at (error_record name (uuid s) text) j in
          (None, write_at (closed_record name (uuid s)) j)
      | (Some cancelled, j) =>
          (Some cancelled, write_at (closed_record name (uuid s)) j)
      | (Some pending, j) => (Some pending, j)
      end
  end.

(** The [for] loop of [main_async]. *)
Fixpoint run_cases (sessions : list session) (url : string) (j : journal)
  : option halt * journal :=
  match sessions with
  | [] => (None, j)
  | s :: rest =>
      match run_case s url j with
      | (None, j) => run_cases rest url j
      | (Some h, j) => (Some h, j)
      end
  end.

(** [main_async] on a new log file; [sessions] has the test cases that
    [load_cases] returns, each with what its call of [run_case] meets. *)
Definition main_async (host : string) (port : Z) (endpoint_id : string)
    (sessions : list session) : option halt * journal :=
  let j :=
    write_at
      (fun ts => header_record ts endpoint_id (ws_url host port endpoint_id))
      empty_journal in
  run_cases sessions (ws_url host port endpoint_id) j.

End Runner.

End RunGrun.

(** ** The judge's input: [eval_analysis.py] *)

Module EvalAnalysis.

(** [isinstance(v, str) and len(v) > 0] *)
Definition nonempty_str (v : json) : option string :=
  match v with
  | JStr s => if String.eqb s "" then None else Some s
  | _ => None
  end.

Definition ordered_keys : list string :=
  ["executive_summary"; "key_findings"; "trends_anomalies";
   "recommendations"; "data_quality"; "alerts"; "context"; "key_metrics"].

(** [sep.join(parts)] *)
Fixpoint join (sep : string) (parts : list string) : string :=
  match parts with
  | [] => ""
  | [p] => p
  | p :: rest => (p ++ sep ++ join sep rest)%string
  end.

Definition two_newlines : string :=
  String (ascii_of_nat 10) (String (ascii_of_nat 10) "").

Definition build_analysis_actual_output (final_result : json) (mode : string)
  : string :=
  match final_result with
  | JDict d =>
      let get k := match dict_get d k with Some v => v | None => JNull end in
      if String.eqb mode "executive_summary" then
        match nonempty_str (get "executive_summary") with
        | Some s => s
        | None => "(no executive_summary)"
        end
      else if String.eqb mode "key_findings" then
        match nonempty_str (get "key_findings") with
        | Some s => s
        | None => "(no key_findings)"
        end
      else
        let concatenated_parts :=
          flat_map (fun field_name =>
                      match nonempty_str (get field_name) with
                      | Some field_value =>
                          [(field_name ++ ": " ++ field_value)%string]
                      | None => []
                      end) ordered_keys in
        match concatenated_parts with
        | [] => "(no final_result)"
        | _ => join two_newlines concatenated_parts
        end
  | _ => "(no final_result)"
  end.

Definition candidate_keys : list string :=
  ["key_metrics"; "recommendations"; "context"; "alerts"].

Definition build_retrieval_context (final_result : json) : list string :=
  match final_result with
  | JDict d =>
      flat_map (fun field_name =>
                  match dict_get d field_name with
                  | Some v =>
                      match nonempty_str v with
                      | Some s => [s]
                      | None => []
                      end
                  | None => []
                  end) candidate_keys
  | _ => []
  end.

End EvalAnalysis.

(** ** The query handed to the judge: [eval_pql.py] *)

Module EvalPql.

Definition core_tokens : list string :=
  ["where("; ".when("; ".what("; ".request("].

Definition selector_hints : list string :=
  ["metricname='"; "namespace='"; "distributionid='"; "targetgroup='";
   "loadbalancer='"; "hostedzone='"; "region='"; "apiname='"; "stage='"].

Definition required_substring : string := "Workflow generated successfully".

Section Pql.

(** [str.lower] belongs to the interpreter. *)
Variable lower : string -> string.

Definition is_probable_pql (pql_text : json) : bool :=
  match pql_text with
  | JStr text =>
      if String.eqb (py_strip text) "" then false
      else
        let compact_text := lower (str_replace " " "" text) in
        if negb (forallb (fun token => substring_of token compact_text)
                   core_tokens)
        then false
        else existsb (fun hint => substring_of hint compact_text)
               selector_hints
  | _ => false
  end.

(** The text of a step that is searched: its message if that is a string,
    else its status if that is a string, else the empty string. *)
Definition message_or_status (message_field_raw status_field_raw : json)
  : string :=
  match message_field_raw with
  | JStr message => message
  | _ => match status_field_raw with JStr status => status | _ => "" end
  end.

(** The body of the loop of [find_pql_in_step_list]: the query this step
    gives, if any. *)
Definition accepts (required_message_substring : string) (step : json)
  : result (option string) :=
  message_field_raw <- py_get step "message" JNull;;
  status_field_raw <- py_get step "status" JNull;;
  data_field_raw <- py_get step "data" JNull;;
  if substring_of required_message_substring
       (message_or_status message_field_raw status_field_raw) then
    match data_field_raw with
    | JStr data =>
        if negb (String.eqb (py_strip data) "")
           && is_probable_pql data_field_raw
        then Ok (Some data)
        else Ok None
    | _ => Ok None
    end
  else Ok None.

(** The loop, with [n] for [index + 1]; the index is always in range. *)
Fixpoint search (steps : list json) (required_message_substring : string)
    (n : nat) : result (option string) :=
  match n with
  | 0 => Ok None
  | S index =>
      found <- accepts required_message_substring (nth index steps JNull);;
      match found with
      | Some pql => Ok (Some pql)
      | None => search steps required_message_substring index
      end
  end.

(** A string, or a dictionary, that is not empty gives [step_list[index]] a
    character, which has no [get], or no entry at all; a number has no
    length. *)
Definition find_pql_in_step_list (step_list : json)
    (required_message_substring : string) : result (option string) :=
  match step_list with
  | JNull => Ok None
  | JList steps => search steps required_message_substring (List.length steps)
  | JStr text =>
      if String.eqb text "" then Ok None else Raise AttributeError
  | JDict d => match d with [] => Ok None | _ => Raise KeyError end
  | _ => Raise TypeError
  end.

Definition extract_pql_from_case (test_case_json : json) : result string :=
  responses <- py_get test_case_json "responses" JNull;;
  let responses := if truthy responses then responses else JList [] in
  pql_from_responses <- find_pql_in_step_list responses required_substring;;
  Ok (match pql_from_responses with
      | Some pql => pql
      | None => "(no PQL found)"
      end).

End Pql.

End EvalPql.

(** ** The test cases of the runner: [make_test_cases.py] *)

Module MakeTestCases.

Section Convert.

(** [json.loads], [str.lower], [str.title] and, for a value that is not a
    string, [str] belong to the interpreter. *)
Variable json_loads : string -> result json.
Variable lower : string -> string.
Variable title : string -> string.
Variable repr : json -> string.

(** [str(v)], which is also what an f-string writes for [v]. *)
Definition py_str (v : json) : string :=
  match v with
  | JStr s => s
  | _ => repr v
  end.

(** [o.lower()] and [o.title()]; only a [str] has the methods. *)
Definition py_lower (o : json) : result string :=
  match o with
  | JStr s => Ok (lower s)
  | _ => Raise AttributeError
  end.

Definition py_title (o : json) : result string :=
  match o with
  | JStr s => Ok (title s)
  | _ => Raise AttributeError
  end.

Definition determine_provider_config (provider : json) : result json :=
  key <- py_lower provider;;
  let default :=
    JDict [("where", provider); ("when", JStr "1h");
           ("useVectorSearch", JBool true)] in
  Ok (if String.eqb key "prometheus" then
        JDict [("where", JStr "prometheus"); ("when", JStr "1h");
               ("useVectorSearch", JBool true)]
      else if String.eqb key "aws" then
        JDict [("where", JStr "aws-cw"); ("when", JStr "24h");
               ("useVectorSearch", JBool true)]
      else if String.eqb key "cloudwatch" then
        JDict [("where", JStr "aws-cw"); ("when", JStr "24h");
               ("useVectorSearch", JBool true)]
      else default).

Definition extract_metric_filters (metric_info : json) : result (list json) :=
  metric_name <- py_get metric_info "MetricName" JNull;;
  let filters := if truthy metric_name then [metric_name] else [] in
  items <- py_items metric_info;;
  Ok (fold_left
        (fun filters kv =>
           if negb (String.eqb (fst kv) "MetricName")
              && negb (eq_str (snd kv) "*")
           then
             match snd kv with
             | JList values => filters ++ values
             | value => filters ++ [JStr (py_str value)]
             end
           else filters)
        items filters).

Definition generate_test_case_name (test_case_id provider metric_name : json)
  : result string :=
  key <- py_lower provider;;
  titled <- py_title provider;;
  let provider_display :=
    if String.eqb key "prometheus" then "Prometheus"
    else if String.eqb key "aws" then "AWS CloudWatch"
    else if String.eqb key "cloudwatch" then "AWS CloudWatch"
    else titled in
  spaced <- py_replace metric_name "_" " ";;
  let metric_display := title spaced in
  Ok (provider_display ++ " - " ++ metric_display ++ " ("
      ++ py_str test_case_id ++ ")")%string.

(** The body of the loop of [convert_jsonl_to_test_cases]: the test case
    of a line, or nothing for a line that is skipped. *)
Definition convert_line (line_number : Z) (line : string)
  : result (option json) :=
  let line := py_strip line in
  if String.eqb line "" then Ok None
  else
    match json_loads line with
    | Raise e => if isinstance e JSONDecodeError then Ok None else Raise e
    | Ok jsonl_case =>
        test_case_id <-
          py_get jsonl_case "id"
            (JStr ("case_" ++ RunGrun.str_of_int line_number));;
        provider <- py_get jsonl_case "provider" (JStr "unknown");;
        metric_info <- py_get jsonl_case "metric_information" (JDict []);;
        question <- py_get jsonl_case "generated_question" (JStr "");;
        provider_config <- determine_provider_config provider;;
        metric_filters <- extract_metric_filters metric_info;;
        metric_name <- py_get metric_info "MetricName" (JStr "Unknown Metric");;
        test_case_name <-
          generate_test_case_name test_case_id provider metric_name;;
        where_ <- py_getitem provider_config "where";;
        when_ <- py_getitem provider_config "when";;
        use_vector_search <- py_getitem provider_config "useVectorSearch";;
        Ok (Some
              (JDict
                 [("name", JStr test_case_name);
                  ("prompt", question);
                  ("env_id", JStr "default");
                  ("additional_params",
                   JDict [("where", where_); ("when", when_);
                          ("metricFilters", JList metric_filters);
                          ("useVectorSearch", use_vector_search)]);
                  ("metadata",
                   JDict [("original_id", test_case_id);
                          ("provider", provider);
                          ("metric_information", metric_info)])]))
    end.

(** The loop over the lines of the file, numbered from [line_number]. *)
Fixpoint convert_from (line_number : Z) (lines : list string)
  : result (list json) :=
  match lines with
  | [] => Ok []
  | line :: rest =>
      converted <- convert_line line_number line;;
      test_cases <- convert_from (line_number + 1) rest;;
      Ok (match converted with
          | Some test_case => test_case :: test_cases
          | None => test_cases
          end)
  end.

Definition convert_jsonl_to_test_cases (lines : list string)
  : result (list json) :=
  convert_from 1 lines.

End Convert.

End MakeTestCases.

(** ** Notions for the run as a whole *)

(** A field of a stored record, null when missing. *)
Definition field (record : json) (k : string) : json :=
  match record with
  | JDict d => match dict_get d k with Some v => v | None => JNull end
  | _ => JNull
  end.

(** The response record [process_frame_data] stores for a frame. *)
Definition response_of (frame : json) : json :=
  match frame with
  | JDict d =>
      JDict [("status", field frame "status");
             ("message",
              match dict_get d "message" with Some v => v | None => JStr "" end);
             ("timestamp", field frame "ts"); ("data", field frame "data")]
  | _ => JNull
  end.

(** What a stored response contributes to the progress messages. *)
Definition progress_view (response : json) : list json :=
  if eq_str (field response "status") "progress"
  then [JDict [("message", field response "message");
               ("timestamp", field response "timestamp");
               ("data", field response "data")]]
  else [].

(** The keys of a final result. *)
Definition result_keys : list string :=
  ["message"; "timestamp"; "key_findings"; "trends_anomalies";
   "recommendations"; "data_quality"; "executive_summary"; "key_metrics";
   "alerts"; "context"; "scores"; "evaluation_notes"].

Definition has_result (final_result : json) : Prop :=
  exists d, final_result = JDict d /\ dict_keys d = result_keys.

(** What holds of a case under construction... *)
Definition open_ok (tc : test_case) : Prop :=
  progress_messages tc = flat_map progress_view (responses tc) /\
  In (status tc) ["running"; "success"; "error"] /\
  (status tc = "running" -> final_result tc = JDict []) /\
  (status tc = "error" -> errors tc <> []) /\
  (status tc = "success" -> has_result (final_result tc)).

(** ... and of a case that has been closed. *)
Definition closed_ok (tc : test_case) : Prop :=
  progress_messages tc = flat_map progress_view (responses tc) /\
  In (status tc) ["success"; "error"; "incomplete"] /\
  (status tc = "incomplete" -> errors tc = [] /\ final_result tc = JDict []) /\
  (status tc = "error" -> errors tc <> []) /\
  (status tc = "success" -> has_result (final_result tc)).

Definition state_ok (st : loop_state) : Prop :=
  Forall closed_ok (test_cases (acc st)) /\
  forall tc, current_test_case st = Some tc -> open_ok tc.

(** What one entry can do to the cases of the loop. *)
Inductive effect (fromisoformat : string -> option Datetime.datetime)
    (entry : json) (st st' : loop_state) : Prop :=
| eff_none :
    test_cases (acc st') = test_cases (acc st) ->
    current_test_case st' = current_test_case st ->
    is_event "connection_opening" entry = false ->
    effect fromisoformat entry st st'
| eff_open (fresh : test_case) :
    is_event "connection_opening" entry = true ->
    initialize_test_case entry = Ok fresh ->
    test_cases (acc st') = test_cases (acc st) ->
    current_test_case st' = Some fresh ->
    effect fromisoformat entry st st'
| eff_request (tc : test_case) (req : json) :
    is_event "sent_request" entry = true ->
    current_test_case st = Some tc ->
    extract_request_data entry = Ok req ->
    test_cases (acc st') = test_cases (acc st) ->
    current_test_case st' = Some (set_request tc req) ->
    effect fromisoformat entry st st'
| eff_frame (tc tc' : test_case) (frame : json) :
    is_event "connection_opening" entry = false ->
    current_test_case st = Some tc ->
    py_getitem entry "frame" = Ok frame ->
    process_frame_data tc frame = Ok tc' ->
    test_cases (acc st') = test_cases (acc st) ->
    current_test_case st' = Some tc' ->
    effect fromisoformat entry st st'
| eff_close (tc tc' : test_case) (ts : json) :
    is_event "connection_closed" entry = true ->
    current_test_case st = Some tc ->
    finalize_test_case fromisoformat (set_end_time tc ts) = Ok tc' ->
    test_cases (acc st') = test_cases (acc st) ++ [tc'] ->
    current_test_case st' = None ->
    effect fromisoformat entry st st'
| eff_error (tc : test_case) (kind message ts : json) :
    is_event "connection_opening" entry = false ->
    current_test_case st = Some tc ->
    test_cases (acc st') = test_cases (acc st) ->
    current_test_case st'
    = Some (append_error tc
              (JDict [("type", kind); ("message", message);
                      ("timestamp", ts)])) ->
    effect fromisoformat entry st st'.

(** How many entries of a log are events of a kind. *)
Definition count_events (json_loads : string -> result json) (kind : string)
    (lines : list string) : nat :=
  List.length (filter (is_event kind) (decoded json_loads lines)).

(** A line that is skipped or decodes to a value [json.loads] returns. *)
Definition decodes (json_loads : string -> result json) (line : string)
  : bool :=
  match json_loads (py_strip line) with
  | Ok _ => true
  | Raise e => isinstance e JSONDecodeError
  end.

(** ** Logs of the shape the runner writes *)

Definition is_str (v : json) : bool :=
  match v with JStr _ => true | _ => false end.

Definition is_dict (v : json) : bool :=
  match v with JDict _ => true | _ => false end.

(** A timestamp that is null, or a string which, if it parses, carries a UTC
    offset. *)
Definition offset_ts (fromisoformat : string -> option Datetime.datetime)
    (v : json) : bool :=
  match v with
  | JNull => true
  | JStr _ =>
      match parsed_timestamp fromisoformat v with
      | Some d =>
          match Datetime.tzinfo d with Some _ => true | None => false end
      | None => true
      end
  | _ => false
  end.

(** A value that is missing or a dictionary. *)
Definition absent_or_dict (o : option json) : bool :=
  match o with
  | None => true
  | Some v => is_dict v
  end.

(** A frame that is an object and, when its status is success, has an
    object for its data or no data. *)
Definition well_typed_frame (frame : json) : bool :=
  match frame with
  | JDict d =>
      negb (eq_str (field frame "status") "success")
      || absent_or_dict (dict_get d "data")
  | _ => false
  end.

(** An entry that is an object, with such a timestamp, with an object for
    its request if it has one, and with such a frame if it has one. *)
Definition well_typed_entry
    (fromisoformat : string -> option Datetime.datetime) (entry : json)
  : bool :=
  match entry with
  | JDict d =>
      offset_ts fromisoformat (field entry "ts")
      && absent_or_dict (dict_get d "request")
      && match dict_get d "frame" with
         | None => true
         | Some frame => well_typed_frame frame
         end
  | _ => false
  end.

(** A line that is skipped, or decodes to such an entry. *)
Definition well_typed_line (json_loads : string -> result json)
    (fromisoformat : string -> option Datetime.datetime) (line : string)
  : bool :=
  match json_loads (py_strip line) with
  | Ok entry => well_typed_entry fromisoformat entry
  | Raise e => isinstance e JSONDecodeError
  end.

(** ** Notions for finalization *)

(** A case with other timestamps. *)
Definition with_times (tc : test_case) (start_ end_ : json) : test_case :=
  mk_test_case (name tc) (session_id tc) start_ end_ (duration tc) (status tc)
    (request tc) (responses tc) (final_result tc) (errors tc)
    (progress_messages tc).

(** A timestamp with [+00:00] for every [Z]. *)
Definition with_offset (s : string) : string := str_replace "Z" "+00:00" s.

(** What finalization computes: the duration and the status. *)
Definition outcome (fromisoformat : string -> option Datetime.datetime)
    (tc : test_case) : result (option Q * string) :=
  tc' <- finalize_test_case fromisoformat tc;;
  Ok (duration tc', status tc').

(** ** Notions for the request *)

(** The field of the snapshot that holds a recognized key of the request. *)
Definition snapshot_field (k : string) : option string :=
  if String.eqb k "prompt" then Some "prompt"
  else if String.eqb k "env_id" then Some "env_id"
  else if String.eqb k "where" then Some "where"
  else if String.eqb k "when" then Some "when"
  else if String.eqb k "metricFilters" then Some "metric_filters"
  else if String.eqb k "useVectorSearch" then Some "use_vector_search"
  else None.

(** ** Notions for the log of the runner *)

(** The lines of a log and the entries they decode to. *)
Definition decode_to (json_loads : string -> result json)
    (lines : list string) (entries : list json) : Prop :=
  Forall2 (fun line entry => json_loads (py_strip line) = Ok entry)
    lines entries.

(** The entries handled one after another. *)
Fixpoint handle_all (fromisoformat : string -> option Datetime.datetime)
    (entries : list json) (st : loop_state) : result loop_state :=
  match entries with
  | [] => Ok st
  | entry :: rest =>
      st' <- handle_entry fromisoformat st entry;;
      handle_all fromisoformat rest st'
  end.

(** The frames that the records of a log carry. *)
Definition frames_of (records : list json) : list json :=
  flat_map
    (fun record =>
       match record with
       | JDict d =>
           match dict_get d "frame" with Some frame => [frame] | None => [] end
       | _ => []
       end)
    records.

Definition is_success (frame : json) : bool :=
  eq_str (field frame "status") "success".

(** The records [run_case] writes between the opening and the closing
    of a session, with the name and the identifier of the session. *)
Inductive logged (now : nat -> string) (name : json) (session_id : string)
  : json -> Prop :=
| logged_open (n : nat) :
    logged now name session_id (RunGrun.open_record name session_id (now n))
| logged_sent (req : json) (n : nat) :
    is_dict req = true ->
    logged now name session_id
      (RunGrun.sent_request_record name session_id req (now n))
| logged_frame (payload : json) :
    logged now name session_id (RunGrun.frame_record name session_id payload)
| logged_timeout (n : nat) :
    logged now name session_id
      (RunGrun.timeout_record name session_id (now n))
| logged_error (text : string) (n : nat) :
    logged now name session_id
      (RunGrun.error_record name session_id text (now n)).

(** The name under which the runner logs a session. *)
Definition name_of (s : RunGrun.session) : json := field (RunGrun.case s) "name".

(** A value that equals itself: every value but the float NaN.  A list or a
    dictionary that holds a NaN equals itself. *)
Definition self_equal (v : json) : Prop := py_eq v v = true.

(** ** More concrete logs *)

Module Logs.

(** A run of four cases: one succeeds after a progress frame, one times
    out, one is closed after a progress frame only, one fails. *)
Definition four_sessions : list string :=
  map Runs.quoted
    ["{'event':'run_header','ts':'2025-01-01T00:00:00+00:00','endpoint_id':'default','url':'ws://h/p'}";
     "{'event':'connection_opening','case':'T1','session':'s1','url':'ws://h/p','ts':'2025-01-01T00:00:00+00:00'}";
     "{'event':'connection_open','case':'T1','session':'s1','ts':'2025-01-01T00:00:00+00:00'}";
     "{'event':'sent_request','case':'T1','session':'s1','request':{'prompt':'cpu usage','env_id':'default','session_id':'s1','where':'aws-cw'},'ts':'2025-01-01T00:00:01+00:00'}";
     "{'case':'T1','session':'s1','frame':{'status':'progress','message':'Workflow generated successfully','data':'where(...)','ts':'2025-01-01T00:00:02+00:00'}}";
     "{'case':'T1','session':'s1','frame':{'status':'success','message':'done','data':{'key_findings':'k','executive_summary':'e'},'ts':'2025-01-01T00:00:03+00:00'}}";
     "{'event':'connection_closed','case':'T1','session':'s1','ts':'2025-01-01T00:00:03+00:00'}";
     "{'event':'connection_opening','case':'T2','session':'s2','url':'ws://h/p','ts':'2025-01-01T00:00:04+00:00'}";
     "{'event':'client_timeout','case':'T2','session':'s2','ts':'2025-01-01T00:05:04+00:00'}";
     "{'event':'connection_closed','case':'T2','session':'s2','ts':'2025-01-01T00:05:04+00:00'}";
     "{'event':'connection_opening','case':'T3','session':'s3','url':'ws://h/p','ts':'2025-01-01T00:06:00+00:00'}";
     "{'case':'T3','session':'s3','frame':{'status':'progress','message':'working','ts':'2025-01-01T00:06:01+00:00'}}";
     "{'event':'connection_closed','case':'T3','session':'s3','ts':'2025-01-01T00:06:02+00:00'}";
     "{'event':'connection_opening','case':'T4','session':'s4','url':'ws://h/p','ts':'2025-01-01T00:07:00+00:00'}";
     "{'case':'T4','session':'s4','frame':{'status':'error','message':'failed','ts':'2025-01-01T00:07:01+00:00'}}";
     "{'event':'connection_closed','case':'T4','session':'s4','ts':'2025-01-01T00:07:01+00:00'}"].

(** The first case of that run, and what follows it. *)
Definition first_session : list string := firstn 7 four_sessions.

Definition later_sessions : list string := skipn 7 four_sessions.

(** A line that is JSON but not an object. *)
Definition number_line : string := "42".

(** A string of [n] digits, and one of [n] opening brackets. *)
Definition digits (n : nat) : string := String.concat "" (repeat "7" n).

Definition brackets (n : nat) : string := String.concat "" (repeat "[" n).

(** A number of 5000 digits: JSON, but more digits than [int] converts. *)
Definition long_number_line : string := digits 5000.

(** A run header cut inside a timestamp of 4301 digits, the same line with
    one digit less, and a line cut after 2000 opening brackets.  None of
    them is JSON. *)
Definition cut_in_number : string :=
  Runs.quoted "{'event':'run_header','ts':" ++ digits 4301.

Definition cut_in_shorter_number : string :=
  Runs.quoted "{'event':'run_header','ts':" ++ digits 4300.

Definition cut_in_lists : string := brackets 2000.

(** The four sessions with a line in the middle, after the first. *)
Definition with_line (line : string) : list string :=
  first_session ++ line :: later_sessions.

(** A case that was opened with a number for its timestamp and is closed
    with a string. *)
Definition numeric_start : test_case :=
  set_end_time (Runs.opened (JStr "T1") (JStr "s1") (JInt 5))
    (JStr "2025-01-01T00:00:02Z").

(** Frames as the server sends them. *)
Definition success_frame : json :=
  JDict [("status", JStr "success"); ("message", JStr "done");
         ("data", JDict [("key_findings", JStr "k");
                         ("executive_summary", JStr "e");
                         ("alerts", JStr "")])].

Definition success_frame_null_data : json :=
  JDict [("status", JStr "success"); ("message", JStr "done");
         ("data", JNull)].

(** A test case as [make_test_cases.py] writes it. *)
Definition converted_case : dict :=
  [("name", JStr "Prometheus - Up (case_1)");
   ("prompt", JStr "is the target up?");
   ("env_id", JStr "default");
   ("additional_params",
    JDict [("where", JStr "prometheus"); ("when", JStr "1h");
           ("metricFilters", JList [JStr "up"]);
           ("useVectorSearch", JBool true); ("limit", JInt 5)])].

(** A clock with a resolution of seconds, read a few times within one
    second and then within a later one. *)
Definition clock (n : nat) : string :=
  if Nat.ltb n 8 then "2025-03-01T10:00:00+00:00"
  else "2025-03-01T10:00:09+00:00".

Definition describe (e : exn) : string :=
  match e with
  | KeyError => "'prompt'"
  | _ => "unhashable type"
  end.

(** A session in which the server reports progress, sends bytes, sends a
    text that is not JSON and ends with a success. *)
Definition cpu_session : RunGrun.session :=
  RunGrun.mk_session
    (JDict [("name", JStr "cpu"); ("prompt", JStr "cpu usage")])
    "u1"
    (RunGrun.mk_connection None None
       [RunGrun.text_message
          (Runs.quoted "{'status':'progress','message':'working'}");
        RunGrun.bytes_message "AAEC";
        RunGrun.text_message "not json";
        RunGrun.text_message
          (Runs.quoted
             "{'status':'success','message':'done','data':{'executive_summary':'fine'}}")]
       None).

(** A session whose connection is refused. *)
Definition refused_session : RunGrun.session :=
  RunGrun.mk_session
    (JDict [("name", JStr "mem"); ("prompt", JStr "memory usage")])
    "u2"
    (RunGrun.mk_connection (Some (RunGrun.failure "refused")) None [] None).

(** A session in which the server sends a list. *)
Definition list_session : RunGrun.session :=
  RunGrun.mk_session
    (JDict [("name", JStr "disk"); ("prompt", JStr "disk usage")])
    "u3"
    (RunGrun.mk_connection None None
       [RunGrun.text_message "[1, 2]"; RunGrun.timed_out] None).

Definition run_of (sessions : list RunGrun.session)
  : option RunGrun.halt * RunGrun.journal :=
  RunGrun.main_async JsonText.loads describe clock "localhost" 9999 "default"
    sessions.

(** The log of the first two sessions, as the logger writes it. *)
Definition runner_lines : list string :=
  map (fun l => (Runs.quoted l ++ Runs.newline)%string)
    ["{'event': 'run_header', 'ts': '2025-03-01T10:00:00+00:00', 'endpoint_id': 'default', 'url': 'ws://localhost:9999/story/ep/default/grun/ws'}";
     "{'event': 'connection_opening', 'case': 'cpu', 'session': 'u1', 'url': 'ws://localhost:9999/story/ep/default/grun/ws', 'ts': '2025-03-01T10:00:00+00:00'}";
     "{'event': 'connection_open', 'case': 'cpu', 'session': 'u1', 'ts': '2025-03-01T10:00:00+00:00'}";
     "{'event': 'sent_request', 'case': 'cpu', 'session': 'u1', 'request': {'prompt': 'cpu usage', 'env_id': 'default', 'session_id': 'u1'}, 'ts': '2025-03-01T10:00:00+00:00'}";
     "{'case': 'cpu', 'session': 'u1', 'frame': {'status': 'progress', 'message': 'working', 'ts': '2025-03-01T10:00:00+00:00'}}";
     "{'case': 'cpu', 'session': 'u1', 'frame': {'binary': true, 'raw_b64': 'AAEC', 'ts': '2025-03-01T10:00:00+00:00'}}";
     "{'case': 'cpu', 'session': 'u1', 'frame': {'raw': 'not json', 'ts': '2025-03-01T10:00:00+00:00'}}";
     "{'case': 'cpu', 'session': 'u1', 'frame': {'status': 'success', 'message': 'done', 'data': {'executive_summary': 'fine'}, 'ts': '2025-03-01T10:00:00+00:00'}}";
     "{'event': 'connection_closed', 'case': 'cpu', 'session': 'u1', 'ts': '2025-03-01T10:00:09+00:00'}";
     "{'event': 'connection_opening', 'case': 'mem', 'session': 'u2', 'url': 'ws://localhost:9999/story/ep/default/grun/ws', 'ts': '2025-03-01T10:00:09+00:00'}";
     "{'event': 'client_error', 'case': 'mem', 'session': 'u2', 'error': 'refused', 'ts': '2025-03-01T10:00:09+00:00'}";
     "{'event': 'connection_closed', 'case': 'mem', 'session': 'u2', 'ts': '2025-03-01T10:00:09+00:00'}"].

(** The part of that log that the first session wrote. *)
Definition cpu_lines : list string := firstn 8 (skipn 1 runner_lines).

(** The log of the third session alone. *)
Definition list_lines : list string :=
  map (fun l => (Runs.quoted l ++ Runs.newline)%string)
    ["{'event': 'run_header', 'ts': '2025-03-01T10:00:00+00:00', 'endpoint_id': 'default', 'url': 'ws://localhost:9999/story/ep/default/grun/ws'}";
     "{'event': 'connection_opening', 'case': 'disk', 'session': 'u3', 'url': 'ws://localhost:9999/story/ep/default/grun/ws', 'ts': '2025-03-01T10:00:00+00:00'}";
     "{'event': 'connection_open', 'case': 'disk', 'session': 'u3', 'ts': '2025-03-01T10:00:00+00:00'}";
     "{'event': 'sent_request', 'case': 'disk', 'session': 'u3', 'request': {'prompt': 'disk usage', 'env_id': 'default', 'session_id': 'u3'}, 'ts': '2025-03-01T10:00:00+00:00'}";
     "{'case': 'disk', 'session': 'u3', 'frame': [1, 2]}";
     "{'event': 'client_timeout', 'case': 'disk', 'session': 'u3', 'ts': '2025-03-01T10:00:00+00:00'}";
     "{'event': 'connection_closed', 'case': 'disk', 'session': 'u3', 'ts': '2025-03-01T10:00:00+00:00'}"].

(** [str.lower] on a text in ASCII. *)
Definition ascii_lower (s : string) : string :=
  string_of_list_ascii
    (map (fun c =>
            let n := nat_of_ascii c in
            if Nat.leb 65 n && Nat.leb n 90 then ascii_of_nat (n + 32) else c)
       (list_ascii_of_string s)).

(** [str.title] on a text in ASCII: a letter after a letter is made
    small, a letter after anything else is made capital. *)
Fixpoint title_from (after_letter : bool) (l : list ascii) : list ascii :=
  match l with
  | [] => []
  | c :: rest =>
      let n := nat_of_ascii c in
      if Nat.leb 65 n && Nat.leb n 90 then
        (if after_letter then ascii_of_nat (n + 32) else c)
        :: title_from true rest
      else if Nat.leb 97 n && Nat.leb n 122 then
        (if after_letter then c else ascii_of_nat (n - 32))
        :: title_from true rest
      else c :: title_from false rest
  end.

Definition ascii_title (s : string) : string :=
  string_of_list_ascii (title_from false (list_ascii_of_string s)).

(** [str] of an integer, a truth value and [None]. *)
Definition repr (v : json) : string :=
  match v with
  | JInt z => RunGrun.str_of_int z
  | JBool true => "True"
  | JBool false => "False"
  | _ => "None"
  end.

(** A line of the questions file. *)
Definition jsonl_line : string :=
  (Runs.quoted
     "{'id': 'q7', 'provider': 'AWS', 'metric_information': {'MetricName': 'CPUUtilization', 'Namespace': 'AWS/EC2', 'InstanceId': '*', 'Period': 300, 'Statistics': ['Average', 'Maximum']}, 'generated_question': 'How busy are the instances?'}"
   ++ Runs.newline)%string.

(** A session in which the workflow is generated twice before the
    success; the quotes inside the queries are written as escapes. *)
Definition pql_lines : list string :=
  map Runs.quoted
    ["{'event':'connection_opening','case':'T1','session':'s1','ts':'2025-01-01T00:00:00+00:00'}";
     "{'case':'T1','session':'s1','frame':{'status':'progress','message':'Workflow generated successfully','data':'where(@aws).when(1h).what(MetricName=\u0027Errors\u0027).request($where[0]).as($first)'}}";
     "{'case':'T1','session':'s1','frame':{'status':'progress','message':'Workflow generated successfully (retry)','data':'where(@aws) .when(24h) .what(Namespace=\u0027AWS/ApiGateway\u0027) .request($where[0]) .as($second)'}}";
     "{'case':'T1','session':'s1','frame':{'status':'progress','message':'Workflow generated successfully','data':'no query here'}}";
     "{'case':'T1','session':'s1','frame':{'status':'success','message':'done','data':{'executive_summary':'e'}}}";
     "{'event':'connection_closed','case':'T1','session':'s1','ts':'2025-01-01T00:00:05+00:00'}"].

(** The journal once the header is written. *)
Definition after_header : RunGrun.journal :=
  RunGrun.mk_journal
    [RunGrun.header_record (clock 0) "default"
       (RunGrun.ws_url "localhost" 9999 "default")]
    1.

End Logs.

(** ** The end-to-end example *)

(** C1. The four lines of the end-to-end example, with or without the line
    ends that [readlines] keeps, give one test case, named T1, with status
    success, duration 2.0 and key_findings k, and the summary counts one
    test, one success and a success rate of 1.0. *)
Theorem end_to_end_example :
  forall lines,
    In lines [Runs.example_lines;
              map (fun l => (l ++ Runs.newline)%string) Runs.example_lines] ->
    exists r tc,
      Runs.parse lines = Ok r /\
      test_cases r = [tc] /\
      name tc = JStr "T1" /\
      status tc = "success" /\
      duration tc = Some 2%Q /\
      py_get (final_result tc) "key_findings" JNull = Ok (JStr "k") /\
      total_tests (fst (generate_summary r)) = 1%Z /\
      successful_tests (fst (generate_summary r)) = 1%Z /\
      success_rate (fst (generate_summary r)) = 1%Q.
Proof.
  intros lines [<- | [<- | []]];
    (eexists; eexists; split; [vm_compute; reflexivity |]);
    repeat split; reflexivity.
Qed.

Lemma end_to_end_example_witness :
  exists r tc,
    Runs.parse Runs.example_lines = Ok r /\
    test_cases r = [tc] /\
    name tc = JStr "T1" /\
    status tc = "success" /\
    duration tc = Some 2%Q /\
    py_get (final_result tc) "key_findings" JNull = Ok (JStr "k") /\
    total_tests (fst (generate_summary r)) = 1%Z /\
    successful_tests (fst (generate_summary r)) = 1%Z /\
    success_rate (fst (generate_summary r)) = 1%Q.
Proof.
  apply (end_to_end_example Runs.example_lines).
  simpl. left. reflexivity.
Defined.

(** ** The aggregator *)

Section Aggregator.

Lemma fold_Qplus_shift (l : list Q) (a : Q) :
  (fold_left Qplus l a == a + Qsum l)%Q.
Proof.
  revert a. induction l as [|x l IH]; intro a; simpl.
  - ring.
  - rewrite IH. ring.
Qed.

Lemma py_sum_is_Qsum (l : list Q) : (py_sum l == Qsum l)%Q.
Proof. unfold py_sum. rewrite fold_Qplus_shift. ring. Qed.

(** Leaving out the durations that are zero does not change the sum. *)
Lemma truthy_durations_sum (tcs : list test_case) :
  (Qsum (map duration_or_zero (filter duration_truthy tcs))
   == Qsum (non_null_durations tcs))%Q.
Proof.
  induction tcs as [|tc tcs IH]; [reflexivity|].
  cbn [filter non_null_durations flat_map].
  fold (non_null_durations tcs).
  unfold duration_truthy at 1.
  destruct (duration tc) as [d|] eqn:E.
  - destruct (Qeq_bool d 0) eqn:Z0; cbn [negb map Qsum fold_right app].
    + apply Qeq_bool_eq in Z0. fold (Qsum (non_null_durations tcs)).
      rewrite IH, Z0. ring.
    + unfold duration_or_zero at 1. rewrite E.
      fold (Qsum (map duration_or_zero (filter duration_truthy tcs))).
      fold (Qsum (non_null_durations tcs)).
      rewrite IH. reflexivity.
  - cbn [app]. exact IH.
Qed.

Lemma count_status_with_status (s : string) (tcs : list test_case) :
  count_status s tcs = Z.of_nat (with_status s tcs).
Proof.
  unfold count_status, with_status. f_equal.
  induction tcs as [|tc tcs IH]; simpl; [reflexivity|].
  destruct (string_dec (status tc) s) as [e|ne].
  - apply String.eqb_eq in e. rewrite e. simpl. now rewrite IH.
  - apply String.eqb_neq in ne. rewrite ne. exact IH.
Qed.

Lemma total_tests_positive (tcs : list test_case) :
  tcs <> [] -> (0 <? Z.of_nat (List.length tcs))%Z = true.
Proof.
  destruct tcs; [congruence|]. intros _. apply Z.ltb_lt. simpl. lia.
Qed.

End Aggregator.

(** C3. The total duration is the sum of the durations that are not null;
    the success rate is successes over cases, and the average duration is
    the total duration over the number of cases, whatever the number of cases
    that carry a duration; both are 0 for an empty list. *)
Theorem summary_rates_and_durations (r : results) :
  let tcs := test_cases r in
  let s := fst (generate_summary r) in
  let n := inject_Z (Z.of_nat (List.length tcs)) in
  total_tests s = Z.of_nat (List.length tcs) /\
  successful_tests s = Z.of_nat (with_status "success" tcs) /\
  (total_duration s == Qsum (non_null_durations tcs))%Q /\
  (tcs = [] -> success_rate s = 0%Q /\ average_duration s = 0%Q) /\
  (tcs <> [] ->
   (success_rate s == inject_Z (Z.of_nat (with_status "success" tcs)) / n)%Q /\
   (average_duration s == Qsum (non_null_durations tcs) / n)%Q).
Proof.
  cbv zeta. unfold generate_summary, bind_call, get_test_cases, ret. simpl.
  split; [reflexivity|].
  split; [apply count_status_with_status|].
  split; [rewrite py_sum_is_Qsum; apply truthy_durations_sum|].
  split.
  - intros ->. simpl. split; reflexivity.
  - intros Hne. rewrite (total_tests_positive _ Hne).
    rewrite count_status_with_status, py_sum_is_Qsum, truthy_durations_sum.
    split; reflexivity.
Qed.

(** C9. The aggregator leaves the [results] dictionary as it found it, reads
    nothing but the list of test cases, and gives the same summary when it
    is called again, also after [save_results] stored the first one. *)
Theorem generate_summary_is_pure (r : results) :
  snd (generate_summary r) = r /\
  fst (generate_summary (snd (generate_summary r))) = fst (generate_summary r) /\
  (forall now,
     test_cases (snd (save_results now r)) = test_cases r /\
     fst (generate_summary (snd (save_results now r)))
     = fst (generate_summary r)) /\
  (forall r',
     test_cases r' = test_cases r ->
     fst (generate_summary r') = fst (generate_summary r)).
Proof.
  split; [reflexivity|].
  split; [reflexivity|].
  split; [intro now; split; reflexivity|].
  intros r' H.
  unfold generate_summary, bind_call, get_test_cases, ret. simpl.
  now rewrite H.
Qed.

(** ** Dictionaries *)

Section Dicts.

Lemma dict_set_fresh (d : dict) (k : string) (v : json) :
  ~ In k (dict_keys d) -> dict_set d k v = d ++ [(k, v)].
Proof.
  induction d as [|[k' v'] d IH]; simpl; intro H; [reflexivity|].
  destruct (String.eqb_spec k k') as [->|ne].
  - exfalso. apply H. now left.
  - f_equal. apply IH. intro Hin. apply H. now right.
Qed.

Lemma fold_dict_set_nodup (items acc : dict) :
  NoDup (dict_keys (acc ++ items)) ->
  fold_left (fun d kv => dict_set d (fst kv) (snd kv)) items acc
  = acc ++ items.
Proof.
  revert acc. induction items as [|[k v] items IH]; intros acc H; simpl.
  - now rewrite app_nil_r.
  - assert (Hfresh : ~ In k (dict_keys acc)).
    { unfold dict_keys in H. rewrite map_app in H. simpl in H.
      apply NoDup_remove_2 in H. intro Hin. apply H.
      apply in_or_app. now left. }
    rewrite (dict_set_fresh _ _ _ Hfresh).
    rewrite IH; rewrite <- app_assoc; simpl; [reflexivity | exact H].
Qed.

(** Rebuilding a dictionary from its own items gives it back. *)
Lemma dict_of_items_nodup (items : dict) :
  NoDup (dict_keys items) -> dict_of_items items = items.
Proof.
  intro H. unfold dict_of_items. now rewrite fold_dict_set_nodup.
Qed.

Lemma filter_keys_nodup (p : string -> bool) (d : dict) :
  NoDup (dict_keys d) ->
  NoDup (dict_keys (filter (fun kv => p (fst kv)) d)).
Proof.
  induction d as [|[k v] d IH]; simpl; intro H; [constructor|].
  inversion H as [|? ? Hnot Hd]; subst.
  destruct (p k); simpl; [constructor|]; auto.
  intro Hin. apply Hnot. unfold dict_keys in *.
  apply in_map_iff in Hin. destruct Hin as [[k' v'] [Hk Hin]].
  apply filter_In in Hin. destruct Hin as [Hin _].
  apply in_map_iff. exists (k', v'). auto.
Qed.

Lemma dict_get_filter (p : string -> bool) (d : dict) (k : string) :
  dict_get (filter (fun kv => p (fst kv)) d) k
  = if p k then dict_get d k else None.
Proof.
  induction d as [|[k' v'] d IH]; simpl.
  - now destruct (p k).
  - destruct (p k') eqn:Hp; simpl.
    + destruct (String.eqb_spec k k') as [->|ne].
      * now rewrite Hp.
      * exact IH.
    + destruct (String.eqb_spec k k') as [->|ne].
      * rewrite IH. now rewrite Hp.
      * exact IH.
Qed.

Lemma existsb_eqb_In (k : string) (l : list string) :
  existsb (String.eqb k) l = true <-> In k l.
Proof.
  rewrite existsb_exists. split.
  - intros [x [Hin Heq]]. apply String.eqb_eq in Heq. now subst.
  - intro Hin. exists k. split; [exact Hin | apply String.eqb_refl].
Qed.

End Dicts.

(** ** The request snapshot *)

(** C10. For a [sent_request] event whose payload is a dictionary, with
    one binding per key as dictionaries have, the snapshot has exactly
    seven fields, none of them [session_id]; its
    [additional_params] are the payload's items, in order, whose key is none
    of [session_id] and the six recognized names: [session_id] is not among
    them, and every key outside those seven keeps its value. *)
Theorem request_snapshot_drops_session_id (d rd : dict) :
  dict_get d "request" = Some (JDict rd) ->
  NoDup (dict_keys rd) ->
  exists snap ap,
    extract_request_data (JDict d) = Ok (JDict snap) /\
    dict_keys snap
    = ["prompt"; "env_id"; "where"; "when"; "metric_filters";
       "use_vector_search"; "additional_params"] /\
    dict_get snap "session_id" = None /\
    dict_get snap "additional_params" = Some (JDict ap) /\
    ap = filter (fun kv => negb (existsb (String.eqb (fst kv)) core_params))
           rd /\
    dict_get ap "session_id" = None /\
    (forall k,
       ~ In k ["prompt"; "env_id"; "where"; "when"; "metricFilters";
               "useVectorSearch"] ->
       k <> "session_id" ->
       dict_get ap k = dict_get rd k).
Proof.
  intros Hreq Hnd.
  set (keep := fun k : string => negb (existsb (String.eqb k) core_params)).
  exists
    [("prompt", match dict_get rd "prompt" with Some v => v | None => JNull end);
     ("env_id", match dict_get rd "env_id" with Some v => v | None => JNull end);
     ("where", match dict_get rd "where" with Some v => v | None => JNull end);
     ("when", match dict_get rd "when" with Some v => v | None => JNull end);
     ("metric_filters",
      match dict_get rd "metricFilters" with Some v => v | None => JList [] end);
     ("use_vector_search",
      match dict_get rd "useVectorSearch" with
      | Some v => v
      | None => JBool false
      end);
     ("additional_params", JDict (filter (fun kv => keep (fst kv)) rd))],
    (filter (fun kv => keep (fst kv)) rd).
  split.
  { unfold extract_request_data. cbn [py_get Py.bind]. rewrite Hreq.
    cbn [py_get Py.bind py_items].
    pose proof (dict_of_items_nodup _ (filter_keys_nodup keep rd Hnd)) as E.
    unfold keep in E. rewrite E. reflexivity. }
  split; [reflexivity|].
  split; [reflexivity|].
  split; [reflexivity|].
  split; [reflexivity|].
  split.
  { rewrite (dict_get_filter keep). reflexivity. }
  intros k Hk Hs.
  rewrite (dict_get_filter keep).
  assert (Hkeep : keep k = true).
  { unfold keep. apply negb_true_iff. apply not_true_is_false.
    rewrite existsb_eqb_In. unfold core_params. simpl in *.
    intuition congruence. }
  now rewrite Hkeep.
Qed.

(** ** The reducer *)

Lemma eq_str_true (v : json) (s : string) : eq_str v s = true -> v = JStr s.
Proof.
  unfold eq_str. destruct v; simpl; try discriminate.
  intro H. apply String.eqb_eq in H. now subst.
Qed.

Lemma eq_str_refl (s : string) : eq_str (JStr s) s = true.
Proof. unfold eq_str. simpl. apply String.eqb_refl. Qed.

Lemma eq_str_other (s t : string) : s <> t -> eq_str (JStr s) t = false.
Proof. intro H. unfold eq_str. simpl. now apply String.eqb_neq. Qed.

(** An entry that carries an [event] is a dictionary. *)
Lemma is_event_dict (kind : string) (entry : json) :
  is_event kind entry = true ->
  exists d, entry = JDict d /\ py_get entry "event" JNull = Ok (JStr kind).
Proof.
  unfold is_event. destruct entry; simpl; try discriminate.
  intro H. apply eq_str_true in H. exists d. split; [reflexivity|].
  now rewrite H.
Qed.

Section Loop.

Variable json_loads : string -> result json.
Variable fromisoformat : string -> option Datetime.datetime.

Let run := run_lines json_loads fromisoformat.
Let handle := handle_entry fromisoformat.

Lemma run_malformed (line : string) (rest : list string) (st : loop_state) :
  malformed json_loads line = true -> run (line :: rest) st = run rest st.
Proof.
  unfold malformed, run. simpl.
  destruct (json_loads (py_strip line)) as [entry|e]; [discriminate|].
  now intros ->.
Qed.

Lemma run_app (pre post : list string) (st : loop_state) :
  run (pre ++ post) st = (st' <- run pre st;; run post st').
Proof.
  revert st. induction pre as [|line pre IH]; intro st; [reflexivity|].
  unfold run in *. simpl.
  destruct (json_loads (py_strip line)) as [entry|e].
  - destruct (handle_entry fromisoformat st entry) as [st'|e]; simpl;
      [apply IH | reflexivity].
  - destruct (isinstance e JSONDecodeError); [apply IH | reflexivity].
Qed.

Lemma run_without_malformed (lines : list string) (st : loop_state) :
  run lines st
  = run (filter (fun l => negb (malformed json_loads l)) lines) st.
Proof.
  revert st. induction lines as [|line lines IH]; intro st; [reflexivity|].
  cbn [filter]. destruct (malformed json_loads line) eqn:M; cbn [negb].
  - rewrite run_malformed by exact M. apply IH.
  - unfold run, malformed in *. simpl.
    destruct (json_loads (py_strip line)) as [entry|e].
    + destruct (handle_entry fromisoformat st entry); simpl;
        [apply IH | reflexivity].
    + rewrite M. reflexivity.
Qed.

(** X24. A line on which [json.loads] raises [JSONDecodeError] is skipped
    and leaves the state of the loop as it was; the result of a log, an
    exception raised by another line included, is the result of the log
    without those lines, taken in the same order, and so are the summary and
    every count in it. *)
Theorem malformed_lines_are_skipped (lines : list string) :
  let kept := filter (fun l => negb (malformed json_loads l)) lines in
  (forall line rest st,
     malformed json_loads line = true ->
     run_lines json_loads fromisoformat (line :: rest) st
     = run_lines json_loads fromisoformat rest st) /\
  parse_log_file json_loads fromisoformat lines
  = parse_log_file json_loads fromisoformat kept /\
  (forall r,
     parse_log_file json_loads fromisoformat kept = Ok r ->
     parse_log_file json_loads fromisoformat lines = Ok r /\
     forall r',
       parse_log_file json_loads fromisoformat lines = Ok r' ->
       generate_summary r' = generate_summary r).
Proof.
  cbv zeta. split; [exact run_malformed|].
  assert (E : parse_log_file json_loads fromisoformat lines
              = parse_log_file json_loads fromisoformat
                  (filter (fun l => negb (malformed json_loads l)) lines)).
  { unfold parse_log_file. fold run. now rewrite <- run_without_malformed. }
  split; [exact E|].
  intros r Hr. rewrite E. split; [exact Hr|].
  intros r' Hr'. congruence.
Qed.

End Loop.

Section Dispatch.

Variable json_loads : string -> result json.
Variable fromisoformat : string -> option Datetime.datetime.

Let run := run_lines json_loads fromisoformat.
Let handle := handle_entry fromisoformat.

(** A [connection_opening] event replaces the open case, if any, by a fresh
    one and touches nothing else. *)
Lemma handle_opening (st : loop_state) (entry : json) :
  is_event "connection_opening" entry = true ->
  exists fresh,
    initialize_test_case entry = Ok fresh /\
    handle st entry = Ok (mk_state (acc st) (Some fresh)).
Proof.
  intro H. destruct (is_event_dict _ _ H) as [d [-> Hev]].
  unfold handle, handle_entry. rewrite Hev. cbn [Py.bind].
  rewrite eq_str_other by discriminate. rewrite eq_str_refl.
  eexists. split; reflexivity.
Qed.

(** A [connection_closed] event without a [frame] key finalizes the open
    case with the event's timestamp as its end time, appends it and leaves
    no case open. *)
Lemma handle_closed (st : loop_state) (d : dict) (tc : test_case) :
  current_test_case st = Some tc ->
  is_event "connection_closed" (JDict d) = true ->
  dict_has d "frame" = false ->
  handle st (JDict d)
  = (tc' <- finalize_test_case fromisoformat
              (set_end_time tc
                 (match dict_get d "ts" with Some v => v | None => JNull end));;
     Ok (mk_state
           (mk_results (run_info (acc st)) (test_cases (acc st) ++ [tc'])
              (summary (acc st)) (generated_at (acc st)))
           None)).
Proof.
  intros Hcur Hev Hframe.
  destruct (is_event_dict _ _ Hev) as [d' [Hd Hget]].
  unfold handle, handle_entry. rewrite Hget. cbn [Py.bind].
  rewrite !eq_str_other by discriminate.
  cbn [py_in Py.bind]. rewrite Hframe.
  destruct (dict_has d "case"); cbn [Py.bind andb];
    rewrite eq_str_refl, Hcur; reflexivity.
Qed.

(** C5. When a [connection_opening] event arrives while a case is open, the
    step appends nothing to the list of test cases and forgets the open
    case: from there on the run, and so the test cases and the summary of
    the whole log, is the run that would follow had no case been open. *)
Theorem reopening_discards_open_case
    (pre post : list string) (line : string) (entry : json)
    (st0 : loop_state) (res : results) (old : test_case) :
  run_lines json_loads fromisoformat pre st0 = Ok (mk_state res (Some old)) ->
  json_loads (py_strip line) = Ok entry ->
  is_event "connection_opening" entry = true ->
  (exists fresh,
     handle_entry fromisoformat (mk_state res (Some old)) entry
     = Ok (mk_state res (Some fresh)) /\
     handle_entry fromisoformat (mk_state res None) entry
     = Ok (mk_state res (Some fresh))) /\
  run_lines json_loads fromisoformat (pre ++ line :: post) st0
  = run_lines json_loads fromisoformat (line :: post) (mk_state res None) /\
  (st0 = initial_state ->
   parse_log_file json_loads fromisoformat (pre ++ line :: post)
   = (st <- run_lines json_loads fromisoformat (line :: post)
              (mk_state res None);;
      Ok (acc st))).
Proof.
  intros Hpre Hline Hev.
  destruct (handle_opening (mk_state res (Some old)) entry Hev)
    as [fresh [Hinit Hold]].
  destruct (handle_opening (mk_state res None) entry Hev)
    as [fresh' [Hinit' Hnone]].
  assert (fresh' = fresh) by congruence. subst fresh'.
  assert (Hrun : run_lines json_loads fromisoformat (pre ++ line :: post) st0
                 = run_lines json_loads fromisoformat (line :: post)
                     (mk_state res None)).
  { rewrite run_app, Hpre. cbn [Py.bind run_lines]. rewrite Hline.
    fold handle. rewrite Hold, Hnone. reflexivity. }
  split; [|split].
  - exists fresh. split; assumption.
  - exact Hrun.
  - intros ->. unfold parse_log_file. now rewrite Hrun.
Qed.

(** C6. A frame record, which has both a [case] and a [frame] key, and which
    is for another case than the open one or finds no case open, leaves the
    state of the loop unchanged: no test case, open or finished, gains a
    response, a progress message, a final result or an error from it.  Frame
    records carry no [event] key; the three hypotheses on [event] hold of
    every record without that key, and of every record whose [event] is none
    of the three the loop tests before it looks for a frame. *)
Theorem foreign_frame_is_ignored (st : loop_state) (entry : json) :
  has_case_and_frame entry = true ->
  not_for_open_case (current_test_case st) entry = true ->
  is_event "run_header" entry = false ->
  is_event "connection_opening" entry = false ->
  is_event "sent_request" entry = false ->
  handle_entry fromisoformat st entry = Ok st.
Proof.
  intros Hcf Hother H1 H2 H3.
  destruct entry as [| | | | | |d]; try discriminate.
  unfold is_event in H1, H2, H3. unfold handle_entry.
  destruct (py_get (JDict d) "event" JNull) as [ev|] eqn:Hev;
    [|discriminate]. cbn [Py.bind].
  rewrite H1, H2, H3.
  cbn [has_case_and_frame] in Hcf. apply andb_true_iff in Hcf.
  destruct Hcf as [Hc Hf].
  cbn [py_in Py.bind]. rewrite Hc, Hf. cbn [andb].
  destruct (current_test_case st) as [tc|]; [|reflexivity].
  cbn [not_for_open_case] in Hother.
  destruct (py_getitem (JDict d) "case") as [case|]; [|discriminate].
  cbn [Py.bind]. apply negb_true_iff in Hother. now rewrite Hother.
Qed.

End Dispatch.

(** ** Run metadata *)

(** Splits on the calls and tests of a computation that returned. *)
Ltac split_result H :=
  repeat
    (match type of H with
     | Py.bind ?m _ = Ok _ =>
         let v := fresh "v" in
         let E := fresh "E" in
         destruct m as [v|] eqn:E; cbn [Py.bind] in H; [|discriminate H]
     | (if ?b then _ else _) = Ok _ =>
         let E := fresh "E" in destruct b eqn:E
     | match ?o with Some _ => _ | None => _ end = Ok _ =>
         let E := fresh "E" in destruct o eqn:E
     end).

Section RunInfo.

Variable json_loads : string -> result json.
Variable fromisoformat : string -> option Datetime.datetime.

(** Only a [run_header] event writes [run_info], and it writes its own
    fields. *)
Lemma handle_run_info (st st' : loop_state) (entry : json) :
  handle_entry fromisoformat st entry = Ok st' ->
  if is_event "run_header" entry
  then extract_run_header entry = Ok (run_info (acc st'))
  else run_info (acc st') = run_info (acc st).
Proof.
  unfold handle_entry, is_event. intro H.
  destruct (py_get entry "event" JNull) as [ev|] eqn:Hev;
    cbn [Py.bind] in H; [|discriminate].
  destruct (eq_str ev "run_header") eqn:Hh.
  - split_result H. inversion H. reflexivity.
  - split_result H; inversion H; reflexivity.
Qed.

Lemma run_info_invariant (lines : list string) (st st' : loop_state) :
  run_lines json_loads fromisoformat lines st = Ok st' ->
  let headers := filter (is_event "run_header") (decoded json_loads lines) in
  (headers = [] -> run_info (acc st') = run_info (acc st)) /\
  (forall hs h,
     headers = hs ++ [h] -> extract_run_header h = Ok (run_info (acc st'))).
Proof.
  revert st. induction lines as [|line lines IH]; intros st H; cbv zeta.
  - simpl in *. inversion H. split; [reflexivity|].
    intros hs h E. destruct hs; discriminate.
  - cbn [run_lines] in H. cbn [decoded flat_map].
    fold (decoded json_loads lines).
    destruct (json_loads (py_strip line)) as [entry|e].
    + destruct (handle_entry fromisoformat st entry) as [st1|] eqn:Hh;
        cbn [Py.bind] in H; [|discriminate].
      destruct (IH _ H) as [IHnil IHlast].
      pose proof (handle_run_info _ _ _ Hh) as Hri.
      cbn [app filter].
      destruct (is_event "run_header" entry).
      * split; [discriminate|].
        intros hs h E.
        destruct (filter (is_event "run_header") (decoded json_loads lines))
          as [|x l] eqn:F.
        -- destruct hs as [|? [|? ?]]; try discriminate.
           inversion E; subst. rewrite (IHnil eq_refl). exact Hri.
        -- destruct (exists_last (l := x :: l)) as [l' [z Hz]];
             [discriminate|].
           rewrite Hz in E.
           change (entry :: l' ++ [z]) with ((entry :: l') ++ [z]) in E.
           apply app_inj_tail in E. destruct E as [_ <-].
           apply (IHlast l'). exact Hz.
      * split.
        -- intro E. rewrite (IHnil E). exact Hri.
        -- exact IHlast.
    + destruct (isinstance e JSONDecodeError); [|discriminate].
      cbn [app]. apply (IH _ H).
Qed.

(** C8. In the result of a log, [run_info] holds the three fields of the
    last [run_header] event of the log, however many such events there are;
    it is the empty dictionary when there is none. *)
Theorem last_run_header_wins (lines : list string) (r : results) :
  parse_log_file json_loads fromisoformat lines = Ok r ->
  let headers := filter (is_event "run_header") (decoded json_loads lines) in
  (headers = [] -> run_info r = JDict []) /\
  (forall hs h,
     headers = hs ++ [h] ->
     extract_run_header h = Ok (run_info r) /\
     exists ts endpoint_id url,
       py_get h "ts" JNull = Ok ts /\
       py_get h "endpoint_id" JNull = Ok endpoint_id /\
       py_get h "url" JNull = Ok url /\
       run_info r = JDict [("timestamp", ts); ("endpoint_id", endpoint_id);
                           ("websocket_url", url)]).
Proof.
  unfold parse_log_file. intro H.
  destruct (run_lines json_loads fromisoformat lines initial_state)
    as [st|] eqn:Hrun; cbn [Py.bind] in H; [|discriminate].
  inversion H; subst r. clear H.
  destruct (run_info_invariant _ _ _ Hrun) as [Hnil Hlast]. cbv zeta.
  split.
  - intro E. rewrite (Hnil E). reflexivity.
  - intros hs h E. pose proof (Hlast hs h E) as Hx. split; [exact Hx|].
    unfold extract_run_header in Hx.
    destruct (py_get h "ts" JNull) as [ts|]; cbn [Py.bind] in Hx;
      [|discriminate].
    destruct (py_get h "endpoint_id" JNull) as [ep|]; cbn [Py.bind] in Hx;
      [|discriminate].
    destruct (py_get h "url" JNull) as [url|]; cbn [Py.bind] in Hx;
      [|discriminate].
    exists ts, ep, url. inversion Hx. auto.
Qed.

End RunInfo.

(** ** Finalization *)

(** A success frame or an error frame sets the status to its own. *)
Lemma frame_verdict (tc0 tc : test_case) (frame : json) (verdict : string) :
  In verdict ["success"; "error"] ->
  py_get frame "status" JNull = Ok (JStr verdict) ->
  process_frame_data tc0 frame = Ok tc ->
  status tc = verdict.
Proof.
  intros Hin Hst H. unfold process_frame_data in H.
  rewrite Hst in H. cbn [Py.bind] in H.
  destruct Hin as [<- | [<- | []]];
    rewrite ?eq_str_refl, ?(eq_str_other _ "progress"),
      ?(eq_str_other "error" "success") in H by discriminate;
    split_result H; inversion H; reflexivity.
Qed.

Section Finalization.

Variable fromisoformat : string -> option Datetime.datetime.

Let finalize := finalize_test_case fromisoformat.
Let parsed := parsed_timestamp fromisoformat.

Lemma parsed_some (v : json) (d : Datetime.datetime) :
  parsed v = Some d ->
  exists s,
    v = JStr s /\ truthy v = true /\
    fromisoformat (str_replace "Z" "+00:00" s) = Some d.
Proof.
  unfold parsed, parsed_timestamp.
  destruct v; try discriminate.
  destruct (truthy (JStr s)) eqn:T; [|discriminate].
  intro H. exists s. auto.
Qed.

Lemma sub_same_awareness (a b : Datetime.datetime) :
  same_awareness a b = true -> exists delta, Datetime.sub a b = Ok delta.
Proof.
  unfold same_awareness, Datetime.sub.
  destruct (Datetime.tzinfo a), (Datetime.tzinfo b); try discriminate;
    intros _; eexists; reflexivity.
Qed.

(** The last step of finalization, which cannot raise. *)
Lemma status_step (tc : test_case) (d : option Q) :
  (if String.eqb (status (set_duration tc d)) "running"
   then match errors (set_duration tc d) with
        | _ :: _ => Ok (set_status (set_duration tc d) "error")
        | [] => Ok (set_status (set_duration tc d) "incomplete")
        end
   else Ok (set_duration tc d))
  = Ok (set_status (set_duration tc d) (closing_status tc)).
Proof.
  unfold closing_status. destruct tc; simpl.
  destruct (String.eqb status0 "running"); [destruct errors0|]; reflexivity.
Qed.

(** Both timestamps parse and agree on carrying an offset: the duration is
    their difference. *)
Lemma finalize_parsed (tc : test_case) (ds de : Datetime.datetime) :
  parsed (start_time tc) = Some ds ->
  parsed (end_time tc) = Some de ->
  same_awareness de ds = true ->
  exists delta,
    Datetime.sub de ds = Ok delta /\
    finalize tc
    = Ok (set_status (set_duration tc (Some (Datetime.total_seconds delta)))
            (closing_status tc)).
Proof.
  intros Hs He Haw.
  destruct (parsed_some _ _ Hs) as [s [Es [Ts Fs]]].
  destruct (parsed_some _ _ He) as [e [Ee [Te Fe]]].
  destruct (sub_same_awareness _ _ Haw) as [delta Hd].
  exists delta. split; [exact Hd|].
  unfold finalize, finalize_test_case. rewrite Ts, Te. cbn [andb].
  rewrite Es, Ee. cbn [py_replace Py.bind]. unfold py_fromisoformat.
  rewrite Fs, Fe. cbn [Py.bind]. rewrite Hd. cbn [Py.bind try_except].
  apply status_step.
Qed.

(** A timestamp is absent, or both are strings and one does not parse: the
    duration is null. *)
Lemma finalize_unparsed (tc : test_case) :
  str_or_null (start_time tc) = true ->
  str_or_null (end_time tc) = true ->
  parsed (start_time tc) = None \/ parsed (end_time tc) = None ->
  finalize tc = Ok (set_status (set_duration tc None) (closing_status tc)).
Proof.
  intros Ns Ne Hnone.
  unfold finalize, finalize_test_case.
  destruct (truthy (start_time tc) && truthy (end_time tc)) eqn:T;
    cbn [Py.bind]; [|apply status_step].
  apply andb_true_iff in T. destruct T as [Ts Te].
  unfold parsed, parsed_timestamp in Hnone. rewrite Ts, Te in Hnone.
  destruct (start_time tc) as [| | | |s| |]; try discriminate.
  destruct (end_time tc) as [| | | |e| |]; try discriminate.
  cbn [py_replace Py.bind]. unfold py_fromisoformat.
  destruct (fromisoformat (str_replace "Z" "+00:00" s)) as [ds|];
    cbn [Py.bind try_except isinstance exn_eqb]; [|apply status_step].
  destruct Hnone as [Hnone|Hnone]; [discriminate|].
  rewrite Hnone. cbn [Py.bind try_except isinstance exn_eqb].
  apply status_step.
Qed.

(** Whenever finalization returns, it has set the closing status and
    changed nothing but the duration and the status. *)
Lemma finalize_returns (tc tc' : test_case) :
  finalize tc = Ok tc' ->
  exists d, tc' = set_status (set_duration tc d) (closing_status tc).
Proof.
  unfold finalize, finalize_test_case. intro H.
  match type of H with
  | Py.bind ?m _ = _ =>
      assert (Hm : forall x, m = Ok x -> exists d, x = set_duration tc d)
  end.
  { intros x Hx.
    destruct (truthy (start_time tc) && truthy (end_time tc)).
    - unfold try_except in Hx.
      match type of Hx with
      | match ?b with _ => _ end = _ => destruct b as [y|e] eqn:Hb
      end.
      + split_result Hb. inversion Hb. inversion Hx. subst. eauto.
      + destruct (isinstance e ValueError); [|discriminate].
        inversion Hx. eauto.
    - inversion Hx. eauto. }
  match type of H with
  | Py.bind ?m _ = _ => destruct m as [x|] eqn:Hx
  end; cbn [Py.bind] in H; [|discriminate].
  destruct (Hm x eq_refl) as [d ->].
  rewrite status_step in H. inversion H. eauto.
Qed.

(** C2, as amended.  When both timestamps are present, parse once every [Z]
    is written [+00:00], and both carry an offset or neither does, the
    duration is the end time minus the start time in seconds.  When each
    timestamp is null or a string, and one of them is absent or empty or
    does not parse, the duration is null.  In both cases finalization
    returns. *)
Theorem duration_at_close (tc : test_case) :
  (forall ds de,
     parsed_timestamp fromisoformat (start_time tc) = Some ds ->
     parsed_timestamp fromisoformat (end_time tc) = Some de ->
     same_awareness de ds = true ->
     exists delta tc',
       Datetime.sub de ds = Ok delta /\
       finalize_test_case fromisoformat tc = Ok tc' /\
       duration tc' = Some (Datetime.total_seconds delta)) /\
  (str_or_null (start_time tc) = true ->
   str_or_null (end_time tc) = true ->
   parsed_timestamp fromisoformat (start_time tc) = None \/
   parsed_timestamp fromisoformat (end_time tc) = None ->
   exists tc',
     finalize_test_case fromisoformat tc = Ok tc' /\ duration tc' = None).
Proof.
  split.
  - intros ds de Hs He Haw.
    destruct (finalize_parsed tc ds de Hs He Haw) as [delta [Hd Hf]].
    exists delta. eexists. split; [exact Hd|]. split; [exact Hf|].
    reflexivity.
  - intros Ns Ne Hnone. eexists. split.
    + apply finalize_unparsed; assumption.
    + reflexivity.
Qed.

(** C4, as amended.  Let each timestamp of a case be null or a string, and
    let the two not parse to one value with an offset and one without.  Then
    finalization returns; a case still running gets status error when it
    has recorded errors and incomplete when it has none, and a case whose
    status is success or error keeps it. *)
Theorem status_at_close (tc : test_case) :
  str_or_null (start_time tc) = true ->
  str_or_null (end_time tc) = true ->
  (forall ds de,
     parsed_timestamp fromisoformat (start_time tc) = Some ds ->
     parsed_timestamp fromisoformat (end_time tc) = Some de ->
     same_awareness de ds = true) ->
  exists tc',
    finalize_test_case fromisoformat tc = Ok tc' /\
    errors tc' = errors tc /\
    (status tc = "running" -> errors tc <> [] -> status tc' = "error") /\
    (status tc = "running" -> errors tc = [] -> status tc' = "incomplete") /\
    (status tc = "success" \/ status tc = "error" -> status tc' = status tc) /\
    (forall tc0 frame verdict,
       In verdict ["success"; "error"] ->
       py_get frame "status" JNull = Ok (JStr verdict) ->
       process_frame_data tc0 frame = Ok tc ->
       status tc' = verdict).
Proof.
  intros Ns Ne Haw.
  assert (Hret : exists tc', finalize tc = Ok tc').
  { destruct (parsed (start_time tc)) as [ds|] eqn:Ps.
    - destruct (parsed (end_time tc)) as [de|] eqn:Pe.
      + destruct (finalize_parsed tc ds de Ps Pe (Haw ds de Ps Pe))
          as [delta [_ Hf]]. eauto.
      + eexists. apply finalize_unparsed; auto.
    - eexists. apply finalize_unparsed; auto. }
  destruct Hret as [tc' Hf]. exists tc'. split; [exact Hf|].
  destruct (finalize_returns _ _ Hf) as [d ->].
  unfold closing_status. cbn [errors status set_status set_duration].
  split; [reflexivity|]. split; [|split; [|split]].
  - intros -> Herr. simpl. destruct (errors tc); congruence.
  - intros -> ->. reflexivity.
  - intros [-> | ->]; reflexivity.
  - intros tc0 frame verdict Hin Hst Hp.
    rewrite (frame_verdict _ _ _ _ Hin Hst Hp).
    destruct Hin as [<- | [<- | []]]; reflexivity.
Qed.

End Finalization.

(** ** The theorems at concrete inputs *)

Lemma duration_at_close_witness :
  (exists delta tc',
     Datetime.sub (Runs.utc 2025 1 1 0 0 2) (Runs.utc 2025 1 1 0 0 0)
     = Ok delta /\
     finalize_test_case Datetime.iso8601 Runs.closing_T1 = Ok tc' /\
     duration tc' = Some (Datetime.total_seconds delta)) /\
  (exists tc',
     finalize_test_case Datetime.iso8601 Runs.closing_T1_no_end = Ok tc' /\
     duration tc' = None).
Proof.
  split.
  - apply (proj1 (duration_at_close Datetime.iso8601 Runs.closing_T1));
      vm_compute; reflexivity.
  - apply (proj2 (duration_at_close Datetime.iso8601
                    Runs.closing_T1_no_end)).
    + reflexivity.
    + reflexivity.
    + right. reflexivity.
Defined.

(** C2 as stated fails.  A number for a timestamp does not parse, and
    finalization raises [AttributeError] instead of setting a null duration.
    Two timestamps that both parse, one without an offset, make it raise
    [TypeError] instead of setting their difference.  Either exception ends
    [parse_log_file]. *)
Lemma duration_claim_counterexample :
  (parsed_timestamp Datetime.iso8601 (JInt 5) = None /\
   finalize_test_case Datetime.iso8601
     (set_end_time (Runs.opened (JStr "T1") (JStr "s1") (JInt 5))
        (JStr "2025-01-01T00:00:02Z"))
   = Raise AttributeError /\
   Runs.parse Runs.numeric_ts_lines = Raise AttributeError) /\
  (parsed_timestamp Datetime.iso8601 (JStr "2025-01-01T00:00:00")
   = Some (Datetime.mk_datetime 2025 1 1 0 0 0 0 None) /\
   parsed_timestamp Datetime.iso8601 (JStr "2025-01-01T00:00:02Z")
   = Some (Runs.utc 2025 1 1 0 0 2) /\
   finalize_test_case Datetime.iso8601
     (set_end_time
        (Runs.opened (JStr "T1") (JStr "s1") (JStr "2025-01-01T00:00:00"))
        (JStr "2025-01-01T00:00:02Z"))
   = Raise TypeError /\
   Runs.parse Runs.mixed_offset_lines = Raise TypeError).
Proof. vm_compute. repeat split; reflexivity. Qed.

Lemma status_at_close_witness :
  exists tc',
    finalize_test_case Datetime.iso8601 Runs.closing_T3 = Ok tc' /\
    errors tc' = errors Runs.closing_T3 /\
    (status Runs.closing_T3 = "running" ->
     errors Runs.closing_T3 <> [] -> status tc' = "error") /\
    (status Runs.closing_T3 = "running" ->
     errors Runs.closing_T3 = [] -> status tc' = "incomplete") /\
    (status Runs.closing_T3 = "success" \/ status Runs.closing_T3 = "error" ->
     status tc' = status Runs.closing_T3) /\
    (forall tc0 frame verdict,
       In verdict ["success"; "error"] ->
       py_get frame "status" JNull = Ok (JStr verdict) ->
       process_frame_data tc0 frame = Ok Runs.closing_T3 ->
       status tc' = verdict).
Proof.
  apply (status_at_close Datetime.iso8601 Runs.closing_T3).
  - reflexivity.
  - reflexivity.
  - intros ds de Hs He. vm_compute in Hs, He.
    inversion Hs. inversion He. reflexivity.
Defined.

(** C4 as stated fails.  T2 is still running and has one recorded error
    when its closing event arrives, but its start time is a number:
    finalization raises before it reaches the status, and the run ends with
    no test case at all. *)
Lemma status_claim_counterexample :
  status Runs.closing_T2 = "running" /\
  errors Runs.closing_T2 <> [] /\
  finalize_test_case Datetime.iso8601 Runs.closing_T2
  = Raise AttributeError /\
  Runs.parse Runs.epoch_ts_lines = Raise AttributeError /\
  Runs.parse (removelast Runs.epoch_ts_lines)
  = Ok Runs.no_results.
Proof.
  split; [reflexivity|]. split; [discriminate|].
  vm_compute. repeat split; reflexivity.
Qed.

Lemma summary_rates_and_durations_witness :
  (success_rate (fst (generate_summary Runs.no_results)) = 0%Q /\
   average_duration (fst (generate_summary Runs.no_results)) = 0%Q) /\
  (success_rate (fst (generate_summary Runs.two_cases)) == 1 # 2)%Q /\
  (average_duration (fst (generate_summary Runs.two_cases)) == 3 # 2)%Q /\
  with_duration (test_cases Runs.two_cases) = 1.
Proof.
  split.
  - apply (summary_rates_and_durations Runs.no_results). reflexivity.
  - assert (H : test_cases Runs.two_cases <> []) by discriminate.
    destruct (summary_rates_and_durations Runs.two_cases)
      as (_ & _ & _ & _ & Hpos).
    destruct (Hpos H) as [Hrate Havg].
    split; [rewrite Hrate; reflexivity|].
    split; [rewrite Havg; reflexivity | reflexivity].
Defined.

Lemma generate_summary_is_pure_witness :
  fst (generate_summary
         (mk_results Runs.first_header (test_cases Runs.two_cases) None
            (Some "2025-01-01T00:00:09")))
  = fst (generate_summary Runs.two_cases).
Proof.
  apply (generate_summary_is_pure Runs.two_cases). reflexivity.
Defined.

Lemma request_snapshot_drops_session_id_witness :
  dict_has Runs.payload "session_id" = true /\
  exists snap ap,
    extract_request_data (JDict Runs.sent_request_entry) = Ok (JDict snap) /\
    dict_keys snap
    = ["prompt"; "env_id"; "where"; "when"; "metric_filters";
       "use_vector_search"; "additional_params"] /\
    dict_get snap "session_id" = None /\
    dict_get snap "additional_params" = Some (JDict ap) /\
    ap = filter (fun kv => negb (existsb (String.eqb (fst kv)) core_params))
           Runs.payload /\
    dict_get ap "session_id" = None /\
    (forall k,
       ~ In k ["prompt"; "env_id"; "where"; "when"; "metricFilters";
               "useVectorSearch"] ->
       k <> "session_id" ->
       dict_get ap k = dict_get Runs.payload k).
Proof.
  split; [vm_compute; reflexivity|].
  apply (request_snapshot_drops_session_id Runs.sent_request_entry
           Runs.payload).
  - vm_compute. reflexivity.
  - repeat constructor; simpl; intuition discriminate.
Defined.

Lemma malformed_lines_are_skipped_witness :
  malformed JsonText.loads Runs.truncated_line = true /\
  Runs.parse Runs.truncated_lines
  = Runs.parse
      (filter (fun l => negb (malformed JsonText.loads l))
         Runs.truncated_lines) /\
  forall rest st,
    run_lines JsonText.loads Datetime.iso8601
      (Runs.truncated_line :: rest) st
    = run_lines JsonText.loads Datetime.iso8601 rest st.
Proof.
  destruct (malformed_lines_are_skipped JsonText.loads Datetime.iso8601
              Runs.truncated_lines) as (Hskip & Hsame & _).
  split; [vm_compute; reflexivity|]. split.
  - unfold Runs.parse. exact Hsame.
  - intros rest st. apply Hskip. vm_compute. reflexivity.
Defined.

(** C7. The loop means to skip the lines that fail to parse, and catches
    [JSONDecodeError] only.  A line cut inside a number of 4301 digits and a
    line cut after 2000 opening brackets fail to parse as JSON, [json.loads]
    raises [ValueError] on the first and [RecursionError] on the second, and
    the reconstruction of a log that holds either line raises that exception
    where the log without the line has a result.  With one digit less the
    first line is a [JSONDecodeError] and is skipped, as the claim says. *)
Theorem unparsable_line_is_not_skipped :
  JsonText.loads (py_strip Logs.cut_in_number) = Raise ValueError /\
  JsonText.loads (py_strip Logs.cut_in_lists) = Raise RecursionError /\
  Runs.parse (Logs.with_line Logs.cut_in_number) = Raise ValueError /\
  Runs.parse (Logs.with_line Logs.cut_in_lists) = Raise RecursionError /\
  JsonText.loads (py_strip Logs.cut_in_shorter_number)
  = Raise JSONDecodeError /\
  (exists r,
     Runs.parse Logs.four_sessions = Ok r /\
     Runs.parse (Logs.with_line Logs.cut_in_shorter_number) = Ok r).
Proof.
  repeat (split; [vm_compute; reflexivity|]).
  eexists. split; vm_compute; reflexivity.
Qed.

Lemma reopening_discards_open_case_witness :
  run_lines JsonText.loads Datetime.iso8601
    ([Runs.open_A_line] ++ Runs.open_B_line :: [Runs.close_B_line])
    initial_state
  = run_lines JsonText.loads Datetime.iso8601
      (Runs.open_B_line :: [Runs.close_B_line])
      (mk_state Runs.no_results None).
Proof.
  apply (reopening_discards_open_case JsonText.loads Datetime.iso8601
           [Runs.open_A_line] [Runs.close_B_line] Runs.open_B_line
           (JDict [("event", JStr "connection_opening"); ("case", JStr "B");
                   ("session", JStr "s2");
                   ("ts", JStr "2025-01-01T00:00:05Z")])
           initial_state Runs.no_results Runs.case_A).
  - vm_compute. reflexivity.
  - vm_compute. reflexivity.
  - vm_compute. reflexivity.
Defined.

Lemma foreign_frame_is_ignored_witness :
  handle_entry Datetime.iso8601 Runs.A_is_open Runs.frame_for_B
  = Ok Runs.A_is_open.
Proof.
  apply (foreign_frame_is_ignored Datetime.iso8601 Runs.A_is_open
           Runs.frame_for_B); vm_compute; reflexivity.
Defined.

Lemma last_run_header_wins_witness :
  exists r,
    Runs.parse Runs.two_header_lines = Ok r /\
    extract_run_header Runs.second_header = Ok (run_info r) /\
    run_info r
    = JDict [("timestamp", JStr "2025-01-02T00:00:00Z");
             ("endpoint_id", JStr "other"); ("websocket_url", JStr "ws://h/q")].
Proof.
  assert (Hrun : Runs.parse Runs.two_header_lines
                 = Ok (mk_results
                         (JDict [("timestamp", JStr "2025-01-02T00:00:00Z");
                                 ("endpoint_id", JStr "other");
                                 ("websocket_url", JStr "ws://h/q")])
                         [] None None))
    by (vm_compute; reflexivity).
  eexists. split; [exact Hrun|].
  destruct (last_run_header_wins JsonText.loads Datetime.iso8601
              Runs.two_header_lines _ Hrun) as [_ H].
  assert (Hh : filter (is_event "run_header")
                 (decoded JsonText.loads Runs.two_header_lines)
               = [Runs.first_header] ++ [Runs.second_header])
    by (vm_compute; reflexivity).
  destruct (H [Runs.first_header] Runs.second_header Hh) as [Hx _].
  split; [exact Hx | reflexivity].
Defined.

(** ** One entry at a time *)

Section Steps.

Variable fromisoformat : string -> option Datetime.datetime.

Lemma is_event_get (entry ev : json) (kind : string) :
  py_get entry "event" JNull = Ok ev -> is_event kind entry = eq_str ev kind.
Proof. intro H. unfold is_event. now rewrite H. Qed.

(** Every entry that is handled has one of six effects. *)
Lemma handle_effect (st st' : loop_state) (entry : json) :
  handle_entry fromisoformat st entry = Ok st' ->
  effect fromisoformat entry st st'.
Proof.
  unfold handle_entry. intro H.
  destruct (py_get entry "event" JNull) as [ev|] eqn:Hev;
    cbn [Py.bind] in H; [|discriminate].
  pose proof (is_event_get entry ev) as Hk.
  destruct (eq_str ev "run_header") eqn:E1.
  { apply eq_str_true in E1. subst ev.
    split_result H. inversion H; subst.
    apply eff_none; try assumption; try reflexivity; try (now rewrite (Hk _ Hev)). }
  destruct (eq_str ev "connection_opening") eqn:E2.
  { destruct (initialize_test_case entry) as [fresh|] eqn:Hi;
      cbn [Py.bind] in H; [|discriminate].
    inversion H; subst.
    apply (eff_open _ _ _ _ fresh); try assumption; try reflexivity; try (now rewrite (Hk _ Hev)). }
  assert (Hno : is_event "connection_opening" entry = false)
    by now rewrite (Hk _ Hev).
  destruct (eq_str ev "sent_request") eqn:E3.
  { destruct (current_test_case st) as [tc|] eqn:Hc.
    - destruct (extract_request_data entry) as [req|] eqn:Hr;
        cbn [Py.bind] in H; [|discriminate].
      inversion H; subst.
      apply (eff_request _ _ _ _ tc req); try assumption; try reflexivity; try (now rewrite (Hk _ Hev)).
    - inversion H; subst. apply eff_none; try assumption; try reflexivity; try (now rewrite (Hk _ Hev)). }
  destruct (py_in "case" entry) as [has_case|] eqn:Hc1;
    cbn [Py.bind] in H; [|discriminate].
  destruct (if has_case then py_in "frame" entry else Ok false)
    as [has_frame|] eqn:Hc2; cbn [Py.bind] in H; [|discriminate].
  destruct (has_case && has_frame) eqn:Hboth.
  { destruct (current_test_case st) as [tc|] eqn:Hc.
    - destruct (py_getitem entry "case") as [case|] eqn:Hcase;
        cbn [Py.bind] in H; [|discriminate].
      destruct (py_eq case (name tc)).
      + destruct (py_getitem entry "frame") as [frame|] eqn:Hframe;
          cbn [Py.bind] in H; [|discriminate].
        destruct (process_frame_data tc frame) as [tc'|] eqn:Hp;
          cbn [Py.bind] in H; [|discriminate].
        inversion H; subst.
        apply (eff_frame _ _ _ _ tc tc' frame); try assumption; try reflexivity; try (now rewrite (Hk _ Hev)).
      + inversion H; subst. apply eff_none; try assumption; try reflexivity; try (now rewrite (Hk _ Hev)).
    - inversion H; subst. apply eff_none; try assumption; try reflexivity; try (now rewrite (Hk _ Hev)). }
  destruct (eq_str ev "connection_closed") eqn:E4.
  { destruct (current_test_case st) as [tc|] eqn:Hc.
    - destruct (py_get entry "ts" JNull) as [ts|] eqn:Hts;
        cbn [Py.bind] in H; [|discriminate].
      destruct (finalize_test_case fromisoformat (set_end_time tc ts))
        as [tc'|] eqn:Hf; cbn [Py.bind] in H; [|discriminate].
      inversion H; subst.
      apply (eff_close _ _ _ _ tc tc' ts); try assumption; try reflexivity; try (now rewrite (Hk _ Hev)).
    - inversion H; subst. apply eff_none; try assumption; try reflexivity; try (now rewrite (Hk _ Hev)). }
  destruct (eq_str ev "client_error" || eq_str ev "client_timeout").
  { destruct (current_test_case st) as [tc|] eqn:Hc.
    - destruct (py_get entry "error" (JStr "Timeout occurred"))
        as [message|] eqn:Hm; cbn [Py.bind] in H; [|discriminate].
      destruct (py_get entry "ts" JNull) as [ts|] eqn:Hts;
        cbn [Py.bind] in H; [|discriminate].
      inversion H; subst.
      apply (eff_error _ _ _ _ tc ev message ts); try assumption; try reflexivity; try (now rewrite (Hk _ Hev)).
    - inversion H; subst. apply eff_none; try assumption; try reflexivity; try (now rewrite (Hk _ Hev)). }
  inversion H; subst. apply eff_none; try assumption; try reflexivity; try (now rewrite (Hk _ Hev)).
Qed.

End Steps.

(** ** Frames *)

Lemma success_data_keys (frame final : json) :
  extract_success_data frame = Ok final -> has_result final.
Proof.
  unfold extract_success_data. intro H. split_result H.
  inversion H. eexists. split; reflexivity.
Qed.

(** What a frame that is processed does to the case, by its status. *)
Lemma process_frame_cases (tc tc' : test_case) (frame : json) :
  process_frame_data tc frame = Ok tc' ->
  let status := field frame "status" in
  let recorded := append_response tc (response_of frame) in
  (eq_str status "progress" = true /\
   tc' = append_progress recorded
           (JDict [("message", field (response_of frame) "message");
                   ("timestamp", field frame "ts");
                   ("data", field frame "data")])) \/
  (eq_str status "progress" = false /\ eq_str status "success" = true /\
   exists final,
     extract_success_data frame = Ok final /\
     tc' = set_final_result (set_status recorded "success") final) \/
  (eq_str status "progress" = false /\ eq_str status "success" = false /\
   eq_str status "error" = true /\
   tc' = append_error (set_status recorded "error")
           (JDict [("type", JStr "execution_error");
                   ("message", field (response_of frame) "message");
                   ("timestamp", field frame "ts");
                   ("data", field frame "data")])) \/
  (eq_str status "progress" = false /\ eq_str status "success" = false /\
   eq_str status "error" = false /\ tc' = recorded).
Proof.
  intro H. destruct frame as [| | | | | |d]; try discriminate.
  unfold process_frame_data in H. cbn [py_get Py.bind] in H. cbv zeta.
  change (field (JDict d) "status")
    with (match dict_get d "status" with Some v => v | None => JNull end).
  change (field (JDict d) "ts")
    with (match dict_get d "ts" with Some v => v | None => JNull end).
  change (field (JDict d) "data")
    with (match dict_get d "data" with Some v => v | None => JNull end).
  change (field (response_of (JDict d)) "message")
    with (match dict_get d "message" with Some v => v | None => JStr "" end).
  change (response_of (JDict d))
    with (JDict [("status",
                  match dict_get d "status" with Some v => v | None => JNull end);
                 ("message",
                  match dict_get d "message" with
                  | Some v => v
                  | None => JStr ""
                  end);
                 ("timestamp",
                  match dict_get d "ts" with Some v => v | None => JNull end);
                 ("data",
                  match dict_get d "data" with Some v => v | None => JNull end)]).
  destruct (eq_str _ "progress") eqn:E1.
  { left. inversion H. auto. }
  destruct (eq_str _ "success") eqn:E2.
  { right. left.
    destruct (extract_success_data (JDict d)) as [final|] eqn:Hx;
      cbn [Py.bind] in H; [|discriminate].
    inversion H. eauto. }
  destruct (eq_str _ "error") eqn:E3.
  { right. right. left. inversion H. auto. }
  right. right. right. inversion H. auto.
Qed.

Lemma progress_view_of_response (frame : json) (d : dict) :
  frame = JDict d ->
  progress_view (response_of frame)
  = if eq_str (field frame "status") "progress"
    then [JDict [("message", field (response_of frame) "message");
                 ("timestamp", field frame "ts");
                 ("data", field frame "data")]]
    else [].
Proof. intros ->. reflexivity. Qed.

(** A processed frame keeps a case under construction in order. *)
Lemma process_frame_open_ok (tc tc' : test_case) (frame : json) :
  process_frame_data tc frame = Ok tc' -> open_ok tc -> open_ok tc'.
Proof.
  intros H (Hp & Hs & Hrun & Herr & Hok).
  assert (Hd : exists d, frame = JDict d).
  { destruct frame; try discriminate. eauto. }
  destruct Hd as [d Hd].
  pose proof (progress_view_of_response frame d Hd) as Hv.
  destruct (process_frame_cases _ _ _ H)
    as [[E1 ->] | [(E1 & E2 & final & Hx & ->) | [(E1 & E2 & E3 & ->)
       | (E1 & E2 & E3 & ->)]]];
    rewrite E1 in Hv; unfold open_ok;
    cbn [progress_messages responses status errors final_result
         append_progress append_response set_status set_final_result
         append_error];
    rewrite flat_map_app; cbn [flat_map]; rewrite Hv, <- Hp, ?app_nil_r.
  - repeat split; auto.
  - repeat split; auto.
    + simpl. auto.
    + discriminate.
    + discriminate.
    + intros _. apply (success_data_keys _ _ Hx).
  - repeat split; auto.
    + simpl. auto.
    + discriminate.
    + intros _ E. destruct (errors tc); discriminate.
    + discriminate.
  - repeat split; auto.
Qed.

(** ** Invariants of the loop *)

Section Invariants.

Variable json_loads : string -> result json.
Variable fromisoformat : string -> option Datetime.datetime.

Lemma run_cons_ok (line : string) (rest : list string) (st st' : loop_state) :
  run_lines json_loads fromisoformat (line :: rest) st = Ok st' ->
  (malformed json_loads line = true /\
   decoded json_loads (line :: rest) = decoded json_loads rest /\
   run_lines json_loads fromisoformat rest st = Ok st') \/
  (exists entry st1,
     json_loads (py_strip line) = Ok entry /\
     decoded json_loads (line :: rest) = entry :: decoded json_loads rest /\
     handle_entry fromisoformat st entry = Ok st1 /\
     run_lines json_loads fromisoformat rest st1 = Ok st').
Proof.
  cbn [run_lines]. unfold malformed, decoded. cbn [flat_map].
  destruct (json_loads (py_strip line)) as [entry|e]; intro H.
  - right.
    destruct (handle_entry fromisoformat st entry) as [st1|] eqn:Hh;
      cbn [Py.bind] in H; [|discriminate].
    exists entry, st1. auto.
  - left. destruct (isinstance e JSONDecodeError); [auto | discriminate].
Qed.

Lemma initialize_open_ok (entry : json) (fresh : test_case) :
  initialize_test_case entry = Ok fresh -> open_ok fresh.
Proof.
  unfold initialize_test_case. intro H. split_result H. inversion H.
  unfold open_ok. simpl. repeat split; auto; discriminate.
Qed.

Lemma closing_closed_ok (tc : test_case) (ts : json) (d : option Q) :
  open_ok tc ->
  closed_ok (set_status (set_duration (set_end_time tc ts) d)
               (closing_status (set_end_time tc ts))).
Proof.
  intros (Hp & Hs & Hrun & Herr & Hok).
  unfold closed_ok, closing_status.
  cbn [progress_messages responses status errors final_result set_status
       set_duration set_end_time].
  split; [exact Hp|].
  destruct Hs as [Hs | [Hs | [Hs | []]]]; rewrite <- Hs in *.
  - cbn [String.eqb Ascii.eqb Bool.eqb].
    destruct (errors tc) eqn:He.
    + repeat split; auto; try discriminate. simpl. auto.
    + repeat split; auto; try discriminate. simpl. auto.
  - simpl. repeat split; auto; try discriminate.
  - simpl. repeat split; auto; try discriminate.
Qed.

Lemma handle_state_ok (st st' : loop_state) (entry : json) :
  handle_entry fromisoformat st entry = Ok st' -> state_ok st -> state_ok st'.
Proof.
  intros H [Hclosed Hopen]. apply handle_effect in H.
  destruct H as [Hc Hcur _ | fresh _ Hi Hc Hcur | tc req _ Ht _ Hc Hcur
                | tc tc' frame _ Ht _ Hp Hc Hcur | tc tc' ts _ Ht Hf Hc Hcur
                | tc kind message ts _ Ht Hc Hcur];
    unfold state_ok; rewrite Hc, Hcur.
  - auto.
  - split; [exact Hclosed|]. intros x Hx. inversion Hx; subst.
    apply (initialize_open_ok _ _ Hi).
  - split; [exact Hclosed|]. intros x Hx. inversion Hx; subst.
    exact (Hopen tc Ht).
  - split; [exact Hclosed|]. intros x Hx. inversion Hx; subst.
    apply (process_frame_open_ok _ _ _ Hp). exact (Hopen tc Ht).
  - split; [|discriminate].
    apply Forall_app. split; [exact Hclosed|]. constructor; [|constructor].
    destruct (finalize_returns fromisoformat _ _ Hf) as [d ->].
    apply closing_closed_ok. exact (Hopen tc Ht).
  - split; [exact Hclosed|]. intros x Hx. inversion Hx; subst.
    destruct (Hopen tc Ht) as (Hp & Hs & Hrun & Herr & Hok).
    unfold open_ok.
    cbn [progress_messages responses status errors final_result append_error].
    repeat split; auto. intros _ E. destruct (errors tc); discriminate.
Qed.

Lemma run_state_ok (lines : list string) (st st' : loop_state) :
  run_lines json_loads fromisoformat lines st = Ok st' ->
  state_ok st -> state_ok st'.
Proof.
  revert st. induction lines as [|line lines IH]; intros st H Hst.
  - inversion H. now subst.
  - destruct (run_cons_ok _ _ _ _ H)
      as [(_ & _ & Hr) | (entry & st1 & _ & _ & Hh & Hr)].
    + exact (IH _ Hr Hst).
    + exact (IH _ Hr (handle_state_ok _ _ _ Hh Hst)).
Qed.

(** Every case of a result is a closed case in order. *)
Lemma parse_cases_closed_ok (lines : list string) (r : results) :
  parse_log_file json_loads fromisoformat lines = Ok r ->
  Forall closed_ok (test_cases r).
Proof.
  unfold parse_log_file. intro H.
  destruct (run_lines json_loads fromisoformat lines initial_state)
    as [st|] eqn:Hrun; cbn [Py.bind] in H; [|discriminate].
  inversion H; subst.
  apply (run_state_ok _ _ _ Hrun).
  split; [constructor | discriminate].
Qed.

End Invariants.

(** ** What every result satisfies *)

Section Results.

Variable json_loads : string -> result json.
Variable fromisoformat : string -> option Datetime.datetime.

Lemma terminal_counts (tcs : list test_case) :
  Forall (fun tc => In (status tc) ["success"; "error"; "incomplete"]) tcs ->
  (count_status "success" tcs + count_status "error" tcs
   + count_status "incomplete" tcs)%Z = Z.of_nat (List.length tcs).
Proof.
  unfold count_status. induction 1 as [|tc tcs Hin _ IH]; [reflexivity|].
  cbn [filter List.length].
  destruct Hin as [<- | [<- | [<- | []]]]; cbn [String.eqb Ascii.eqb Bool.eqb];
    cbn [List.length]; lia.
Qed.

(** X1. No case of a result is still running: its status is success, error
    or incomplete. *)
Theorem closed_cases_have_final_status (lines : list string) (r : results) :
  parse_log_file json_loads fromisoformat lines = Ok r ->
  Forall (fun tc => In (status tc) ["success"; "error"; "incomplete"])
    (test_cases r).
Proof.
  intro H. eapply Forall_impl; [|exact (parse_cases_closed_ok _ _ _ _ H)].
  intros tc (_ & Hs & _). exact Hs.
Qed.

(** X2. In the summary of a result, the successful, failed and incomplete
    tests add up to the total. *)
Theorem summary_counts_add_up (lines : list string) (r : results) :
  parse_log_file json_loads fromisoformat lines = Ok r ->
  let s := fst (generate_summary r) in
  (successful_tests s + failed_tests s + incomplete_tests s)%Z
  = total_tests s.
Proof.
  intro H. cbv zeta.
  unfold generate_summary, bind_call, get_test_cases, ret.
  cbn [fst successful_tests failed_tests incomplete_tests total_tests].
  apply terminal_counts.
  eapply Forall_impl; [|exact (parse_cases_closed_ok _ _ _ _ H)].
  intros tc (_ & Hs & _). exact Hs.
Qed.

(** X3. In every case of a result, the progress messages are the responses
    whose status is progress, in the same order and with the same message,
    timestamp and data. *)
Theorem progress_messages_mirror_responses
    (lines : list string) (r : results) :
  parse_log_file json_loads fromisoformat lines = Ok r ->
  Forall (fun tc =>
            progress_messages tc = flat_map progress_view (responses tc))
    (test_cases r).
Proof.
  intro H. eapply Forall_impl; [|exact (parse_cases_closed_ok _ _ _ _ H)].
  intros tc (Hp & _). exact Hp.
Qed.

(** X4. In every case of a result, the status agrees with what was
    recorded: an incomplete case has no error and an empty final result, a
    case in error has at least one error, a successful case has a final
    result with its twelve keys. *)
Theorem status_agrees_with_record (lines : list string) (r : results) :
  parse_log_file json_loads fromisoformat lines = Ok r ->
  Forall (fun tc =>
            (status tc = "incomplete" ->
             errors tc = [] /\ final_result tc = JDict []) /\
            (status tc = "error" -> errors tc <> []) /\
            (status tc = "success" ->
             exists d,
               final_result tc = JDict d /\ dict_keys d = result_keys))
    (test_cases r).
Proof.
  intro H. eapply Forall_impl; [|exact (parse_cases_closed_ok _ _ _ _ H)].
  intros tc (_ & _ & Hi & He & Hs). auto.
Qed.

End Results.

Lemma closed_cases_have_final_status_witness :
  exists r,
    Runs.parse Logs.four_sessions = Ok r /\
    map status (test_cases r) = ["success"; "error"; "incomplete"; "error"] /\
    Forall (fun tc => In (status tc) ["success"; "error"; "incomplete"])
      (test_cases r).
Proof.
  unfold Runs.parse. eexists. split; [vm_compute; reflexivity|]. split.
  - vm_compute. reflexivity.
  - refine (closed_cases_have_final_status JsonText.loads
             Datetime.iso8601 Logs.four_sessions _ _).
    vm_compute. reflexivity.
Defined.

Lemma summary_counts_add_up_witness :
  exists r,
    Runs.parse Logs.four_sessions = Ok r /\
    total_tests (fst (generate_summary r)) = 4%Z /\
    (successful_tests (fst (generate_summary r))
     + failed_tests (fst (generate_summary r))
     + incomplete_tests (fst (generate_summary r)))%Z
    = total_tests (fst (generate_summary r)).
Proof.
  unfold Runs.parse. eexists. split; [vm_compute; reflexivity|]. split.
  - vm_compute. reflexivity.
  - refine (summary_counts_add_up JsonText.loads Datetime.iso8601
             Logs.four_sessions _ _).
    vm_compute. reflexivity.
Defined.

Lemma progress_messages_mirror_responses_witness :
  exists r,
    Runs.parse Logs.four_sessions = Ok r /\
    map (fun tc => List.length (progress_messages tc)) (test_cases r)
    = [1; 0; 1; 0] /\
    Forall (fun tc =>
              progress_messages tc = flat_map progress_view (responses tc))
      (test_cases r).
Proof.
  unfold Runs.parse. eexists. split; [vm_compute; reflexivity|]. split.
  - vm_compute. reflexivity.
  - refine (progress_messages_mirror_responses JsonText.loads
             Datetime.iso8601 Logs.four_sessions _ _).
    vm_compute. reflexivity.
Defined.

Lemma status_agrees_with_record_witness :
  exists r,
    Runs.parse Logs.four_sessions = Ok r /\
    Forall (fun tc =>
              (status tc = "incomplete" ->
               errors tc = [] /\ final_result tc = JDict []) /\
              (status tc = "error" -> errors tc <> []) /\
              (status tc = "success" ->
               exists d,
                 final_result tc = JDict d /\ dict_keys d = result_keys))
      (test_cases r).
Proof.
  unfold Runs.parse. eexists. split; [vm_compute; reflexivity|].
  refine (status_agrees_with_record JsonText.loads Datetime.iso8601
           Logs.four_sessions _ _).
    vm_compute. reflexivity.
Defined.

(** ** Logs that grow, logs that break *)

Section Growth.

Variable json_loads : string -> result json.
Variable fromisoformat : string -> option Datetime.datetime.

(** [1] while a case is open. *)
Let pending (st : loop_state) : nat :=
  match current_test_case st with Some _ => 1 | None => 0 end.

Lemma run_cases_grow (lines : list string) (st st' : loop_state) :
  run_lines json_loads fromisoformat lines st = Ok st' ->
  exists new, test_cases (acc st') = test_cases (acc st) ++ new.
Proof.
  revert st. induction lines as [|line lines IH]; intros st H.
  - inversion H. exists []. now rewrite app_nil_r.
  - destruct (run_cons_ok _ _ _ _ _ _ H)
      as [(_ & _ & Hr) | (entry & st1 & _ & _ & Hh & Hr)].
    + exact (IH _ Hr).
    + destruct (IH _ Hr) as [new Hnew]. rewrite Hnew.
      apply handle_effect in Hh.
      destruct Hh as [Hc _ _ | ? _ _ Hc _ | ? ? _ _ _ Hc _ | ? ? ? _ _ _ _ Hc _
                     | ? tc' ? _ _ _ Hc _ | ? ? ? ? _ _ Hc _];
        rewrite Hc; eauto.
      exists (tc' :: new). now rewrite <- app_assoc.
Qed.

(** X5. Lines added at the end of a log leave the cases already
    reconstructed as they are: the cases of the shorter log, which parses
    whenever the longer one does, are the first cases of the longer one. *)
Theorem appended_lines_keep_cases (pre post : list string) (r : results) :
  parse_log_file json_loads fromisoformat (pre ++ post) = Ok r ->
  exists r0 new,
    parse_log_file json_loads fromisoformat pre = Ok r0 /\
    test_cases r = test_cases r0 ++ new.
Proof.
  unfold parse_log_file. rewrite run_app. intro H.
  destruct (run_lines json_loads fromisoformat pre initial_state)
    as [st0|] eqn:Hpre; cbn [Py.bind] in H |- *; [|discriminate].
  destruct (run_lines json_loads fromisoformat post st0)
    as [st|] eqn:Hpost; cbn [Py.bind] in H; [|discriminate].
  inversion H; subst.
  destruct (run_cases_grow _ _ _ Hpost) as [new Hnew].
  exists (acc st0), new. auto.
Qed.

Lemma run_counts (lines : list string) (st st' : loop_state) :
  run_lines json_loads fromisoformat lines st = Ok st' ->
  List.length (test_cases (acc st')) + pending st'
  <= List.length (test_cases (acc st)) + pending st
     + count_events json_loads "connection_opening" lines /\
  List.length (test_cases (acc st'))
  <= List.length (test_cases (acc st))
     + count_events json_loads "connection_closed" lines.
Proof.
  unfold count_events.
  revert st. induction lines as [|line lines IH]; intros st H.
  - inversion H. simpl. lia.
  - destruct (run_cons_ok _ _ _ _ _ _ H)
      as [(_ & Hd & Hr) | (entry & st1 & _ & Hd & Hh & Hr)]; rewrite Hd.
    + exact (IH _ Hr).
    + destruct (IH _ Hr) as [IH1 IH2]. cbn [filter].
      apply handle_effect in Hh. unfold pending in *.
      destruct Hh as [Hc Hcur Ho | ? Ho _ Hc Hcur | ? ? _ Ht _ Hc Hcur
                     | ? ? ? Ho Ht _ _ Hc Hcur | ? ? ? Hcl Ht _ Hc Hcur
                     | ? ? ? ? Ho Ht Hc Hcur];
        rewrite Hc in IH1, IH2; rewrite Hcur in IH1;
        rewrite ?length_app in IH1, IH2;
        try rewrite Ho; try rewrite Hcl; try rewrite Ht;
        destruct (is_event "connection_opening" entry);
        destruct (is_event "connection_closed" entry);
        destruct (current_test_case st);
        cbn [List.length] in *; try discriminate; lia.
Qed.

(** X6. A result has no more cases than the log has [connection_opening]
    events, and no more than it has [connection_closed] events. *)
Theorem cases_bounded_by_events (lines : list string) (r : results) :
  parse_log_file json_loads fromisoformat lines = Ok r ->
  List.length (test_cases r)
  <= count_events json_loads "connection_opening" lines /\
  List.length (test_cases r)
  <= count_events json_loads "connection_closed" lines.
Proof.
  unfold parse_log_file. intro H.
  destruct (run_lines json_loads fromisoformat lines initial_state)
    as [st|] eqn:Hrun; cbn [Py.bind] in H; [|discriminate].
  inversion H; subst.
  destruct (run_counts _ _ _ Hrun) as [H1 H2].
  unfold pending in H1. cbn in H1, H2.
  destruct (current_test_case st); lia.
Qed.

(** X7. Wherever the lines before it left the loop, a line for which
    [json.loads] returns a value that is not an object ends the run with
    [AttributeError], and a line on which [json.loads] raises an exception
    that is not a [JSONDecodeError], as it does with [ValueError] on a number
    of more than 4300 digits, ends the run with that exception. *)
Theorem non_object_line_aborts
    (pre post : list string) (line : string) (st : loop_state) :
  run_lines json_loads fromisoformat pre initial_state = Ok st ->
  (forall v,
     json_loads (py_strip line) = Ok v ->
     (forall d, v <> JDict d) ->
     parse_log_file json_loads fromisoformat (pre ++ line :: post)
     = Raise AttributeError) /\
  (forall e,
     json_loads (py_strip line) = Raise e ->
     isinstance e JSONDecodeError = false ->
     parse_log_file json_loads fromisoformat (pre ++ line :: post)
     = Raise e).
Proof.
  intro Hpre. split.
  - intros v Hline Hv. unfold parse_log_file.
    rewrite run_app, Hpre. cbn [Py.bind run_lines]. rewrite Hline.
    destruct v; try reflexivity. exfalso. exact (Hv d eq_refl).
  - intros e Hline He. unfold parse_log_file.
    rewrite run_app, Hpre. cbn [Py.bind run_lines]. rewrite Hline, He.
    reflexivity.
Qed.

End Growth.

(** ** Logs that cannot break *)

Section WellTyped.

Variable json_loads : string -> result json.
Variable fromisoformat : string -> option Datetime.datetime.

Lemma offset_ts_facts (v : json) :
  offset_ts fromisoformat v = true ->
  str_or_null v = true /\
  forall d,
    parsed_timestamp fromisoformat v = Some d -> Datetime.tzinfo d <> None.
Proof.
  unfold offset_ts. destruct v; try discriminate.
  - intros _. split; [reflexivity | discriminate].
  - intro H. split; [reflexivity|]. intros d Hd. rewrite Hd in H.
    destruct (Datetime.tzinfo d); [discriminate | discriminate].
Qed.

Lemma finalize_offsets (tc : test_case) :
  offset_ts fromisoformat (start_time tc) = true ->
  offset_ts fromisoformat (end_time tc) = true ->
  exists tc', finalize_test_case fromisoformat tc = Ok tc'.
Proof.
  intros Hs He.
  destruct (offset_ts_facts _ Hs) as [Ns As].
  destruct (offset_ts_facts _ He) as [Ne Ae].
  destruct (parsed_timestamp fromisoformat (start_time tc)) as [ds|] eqn:Ps.
  - destruct (parsed_timestamp fromisoformat (end_time tc)) as [de|] eqn:Pe.
    + assert (Haw : same_awareness de ds = true).
      { unfold same_awareness.
        pose proof (As ds eq_refl). pose proof (Ae de eq_refl).
        destruct (Datetime.tzinfo de), (Datetime.tzinfo ds); congruence. }
      destruct (finalize_parsed fromisoformat tc ds de Ps Pe Haw)
        as [delta [_ Hf]]. eauto.
    + eexists. apply finalize_unparsed; auto.
  - eexists. apply finalize_unparsed; auto.
Qed.

Lemma process_frame_total (tc : test_case) (frame : json) :
  well_typed_frame frame = true ->
  exists tc', process_frame_data tc frame = Ok tc'.
Proof.
  destruct frame as [| | | | | |d]; try discriminate.
  unfold well_typed_frame, field, process_frame_data.
  cbn [py_get Py.bind]. intro H.
  destruct (eq_str _ "progress"); [eauto|].
  destruct (eq_str _ "success") eqn:E2; [|destruct (eq_str _ "error"); eauto].
  cbn [negb orb] in H.
  unfold extract_success_data. cbn [py_get Py.bind].
  destruct (dict_get d "data") as [[| | | | | |dd]|]; try discriminate;
    cbn [py_get Py.bind]; eauto.
Qed.

Lemma process_frame_start_time (tc tc' : test_case) (frame : json) :
  process_frame_data tc frame = Ok tc' -> start_time tc' = start_time tc.
Proof.
  intro H.
  destruct (process_frame_cases _ _ _ H)
    as [[_ ->] | [(_ & _ & final & _ & ->) | [(_ & _ & _ & ->)
       | (_ & _ & _ & ->)]]]; reflexivity.
Qed.

(** The open case, if any, was opened with a timestamp of the right kind. *)
Let start_ok (st : loop_state) : Prop :=
  forall tc,
    current_test_case st = Some tc ->
    offset_ts fromisoformat (start_time tc) = true.

Lemma handle_well_typed (st : loop_state) (entry : json) :
  well_typed_entry fromisoformat entry = true ->
  start_ok st ->
  exists st', handle_entry fromisoformat st entry = Ok st' /\ start_ok st'.
Proof.
  intros Hwt Hst.
  assert (Hex : exists st', handle_entry fromisoformat st entry = Ok st').
  { destruct entry as [| | | | | |d]; try discriminate.
    cbn [well_typed_entry] in Hwt.
    apply andb_true_iff in Hwt. destruct Hwt as [Hwt Hframe].
    apply andb_true_iff in Hwt. destruct Hwt as [Hts Hreq].
    unfold handle_entry. cbn [py_get Py.bind].
    destruct (eq_str _ "run_header"); [eexists; reflexivity|].
    destruct (eq_str _ "connection_opening"); [eexists; reflexivity|].
    destruct (eq_str _ "sent_request").
    { destruct (current_test_case st); [|eauto].
      unfold extract_request_data. cbn [py_get Py.bind].
      destruct (dict_get d "request") as [[| | | | | |rd]|];
        try discriminate; cbn [py_get py_items Py.bind]; eauto. }
    cbn [py_in Py.bind]. unfold dict_has.
    destruct (dict_get d "case") as [case|] eqn:Hc; cbn [Py.bind andb].
    2:{ destruct (eq_str _ "connection_closed").
        - destruct (current_test_case st) as [tc|] eqn:Hcur; [|eauto].
          destruct (finalize_offsets (set_end_time tc (field (JDict d) "ts")))
            as [tc' Hf]; [exact (Hst tc Hcur) | exact Hts |].
          unfold field in Hf. rewrite Hf. cbn [Py.bind]. eauto.
        - destruct (_ || _); [|eauto].
          destruct (current_test_case st); eauto. }
    destruct (dict_get d "frame") as [frame|] eqn:Hf; cbn [Py.bind andb].
    { destruct (current_test_case st) as [tc|]; [|eauto].
      cbn [py_getitem]. rewrite Hc. cbn [Py.bind].
      destruct (py_eq case (name tc)); [|eauto].
      rewrite Hf. cbn [Py.bind].
      destruct (process_frame_total tc frame Hframe) as [tc' Hp].
      rewrite Hp. cbn [Py.bind]. eauto. }
    destruct (eq_str _ "connection_closed").
    - destruct (current_test_case st) as [tc|] eqn:Hcur; [|eauto].
      destruct (finalize_offsets (set_end_time tc (field (JDict d) "ts")))
        as [tc' Hfin]; [exact (Hst tc Hcur) | exact Hts |].
      unfold field in Hfin. rewrite Hfin. cbn [Py.bind]. eauto.
    - destruct (_ || _); [|eauto].
      destruct (current_test_case st); eauto. }
  destruct Hex as [st' H]. exists st'. split; [exact H|].
  pose proof (handle_effect _ _ _ _ H) as Heff.
  destruct Heff as [_ Hcur _ | fresh _ Hi _ Hcur | tc req _ Ht _ _ Hcur
                   | tc tc' frame _ Ht _ Hp _ Hcur | tc tc' ts _ _ _ _ Hcur
                   | tc kind message ts _ Ht _ Hcur];
    unfold start_ok; rewrite Hcur; intros x Hx; try discriminate.
  - exact (Hst x Hx).
  - inversion Hx; subst x.
    destruct entry as [| | | | | |d]; try discriminate.
    cbn [well_typed_entry] in Hwt.
    apply andb_true_iff in Hwt. destruct Hwt as [Hwt _].
    apply andb_true_iff in Hwt. destruct Hwt as [Hts _].
    unfold initialize_test_case in Hi. cbn [py_get Py.bind] in Hi.
    inversion Hi. exact Hts.
  - inversion Hx; subst x. exact (Hst tc Ht).
  - inversion Hx; subst x. rewrite (process_frame_start_time _ _ _ Hp).
    exact (Hst tc Ht).
  - inversion Hx; subst x. exact (Hst tc Ht).
Qed.

Lemma run_well_typed (lines : list string) (st : loop_state) :
  Forall (fun l => well_typed_line json_loads fromisoformat l = true) lines ->
  start_ok st ->
  exists st', run_lines json_loads fromisoformat lines st = Ok st'.
Proof.
  intro H. revert st. induction H as [|line lines Hl _ IH]; intros st Hst.
  - eexists. reflexivity.
  - cbn [run_lines]. unfold well_typed_line in Hl.
    destruct (json_loads (py_strip line)) as [entry|e].
    + destruct (handle_well_typed st entry Hl Hst) as [st1 [Hh Hst1]].
      rewrite Hh. cbn [Py.bind]. exact (IH st1 Hst1).
    + rewrite Hl. exact (IH st Hst).
Qed.

(** X8. A log returns a result, whatever the order of its events, when
    each of its lines is one on which [json.loads] raises [JSONDecodeError],
    or decodes to an object whose timestamp
    is null or a string that carries an offset if it parses, whose request,
    if any, is an object, and whose frame, if any, is an object that has an
    object or nothing for its data when its status is success. *)
Theorem well_typed_log_returns (lines : list string) :
  Forall (fun l => well_typed_line json_loads fromisoformat l = true) lines ->
  exists r, parse_log_file json_loads fromisoformat lines = Ok r.
Proof.
  intro H. unfold parse_log_file.
  destruct (run_well_typed lines initial_state H) as [st Hrun].
  - intros tc Htc. discriminate.
  - rewrite Hrun. cbn [Py.bind]. eauto.
Qed.

End WellTyped.

(** ** Finalization, completed *)

Lemma string_app_assoc (a b c : string) :
  (a ++ (b ++ c) = (a ++ b) ++ c)%string.
Proof.
  induction a as [|x a IH]; [reflexivity|].
  cbn [String.append]. now rewrite IH.
Qed.

Lemma str_replace_app (old : ascii) (new a b : string) :
  str_replace old new (a ++ b)%string
  = (str_replace old new a ++ str_replace old new b)%string.
Proof.
  induction a as [|c a IH]; [reflexivity|].
  cbn [String.append str_replace]. rewrite IH.
  destruct (Ascii.eqb c old); [apply string_app_assoc | reflexivity].
Qed.

Lemma with_offset_idempotent (s : string) :
  with_offset (with_offset s) = with_offset s.
Proof.
  unfold with_offset. induction s as [|c s IH]; [reflexivity|].
  cbn [str_replace]. destruct (Ascii.eqb c "Z") eqn:E.
  - rewrite str_replace_app, IH. reflexivity.
  - cbn [str_replace]. now rewrite E, IH.
Qed.

Lemma with_offset_truthy (s : string) :
  truthy (JStr (with_offset s)) = truthy (JStr s).
Proof.
  unfold with_offset. destruct s as [|c s]; [reflexivity|].
  cbn [str_replace]. destruct (Ascii.eqb c "Z"); reflexivity.
Qed.

Section FinalizationCompleted.

Variable fromisoformat : string -> option Datetime.datetime.

(** X9. Writing [+00:00] for [Z] in the two timestamps of a case changes
    nothing to what finalization does: the same duration and status, or the
    same exception. *)
Theorem z_suffix_is_offset_zero (tc : test_case) (s e : string) :
  outcome fromisoformat (with_times tc (JStr s) (JStr e))
  = outcome fromisoformat
      (with_times tc (JStr (with_offset s)) (JStr (with_offset e))).
Proof.
  unfold outcome, finalize_test_case.
  cbn [start_time end_time with_times].
  rewrite !with_offset_truthy.
  destruct (truthy (JStr s) && truthy (JStr e)).
  - cbn [py_replace Py.bind]. fold (with_offset s) (with_offset e).
    fold (with_offset (with_offset s)) (with_offset (with_offset e)).
    rewrite !with_offset_idempotent. unfold py_fromisoformat.
    destruct (fromisoformat (with_offset s)) as [ds|];
      cbn [Py.bind try_except isinstance exn_eqb].
    + destruct (fromisoformat (with_offset e)) as [de|];
        cbn [Py.bind try_except isinstance exn_eqb].
      * destruct (Datetime.sub de ds) as [delta|[]];
          cbn [Py.bind try_except isinstance exn_eqb status errors
               set_duration with_times];
          try reflexivity;
          destruct (String.eqb (status tc) "running");
          try destruct (errors tc); reflexivity.
      * cbn [status errors set_duration with_times].
        destruct (String.eqb (status tc) "running");
          try destruct (errors tc); reflexivity.
    + cbn [status errors set_duration with_times].
      destruct (String.eqb (status tc) "running");
        try destruct (errors tc); reflexivity.
  - cbn [Py.bind status errors set_duration with_times].
    destruct (String.eqb (status tc) "running");
      try destruct (errors tc); reflexivity.
Qed.

Lemma finalize_attribute_error_start (tc : test_case) :
  truthy (start_time tc) = true ->
  truthy (end_time tc) = true ->
  is_str (start_time tc) = false ->
  finalize_test_case fromisoformat tc = Raise AttributeError.
Proof.
  intros Ts Te Hs. unfold finalize_test_case. rewrite Ts, Te.
  destruct (start_time tc); try discriminate; reflexivity.
Qed.

Lemma finalize_attribute_error_end (tc : test_case) (ds : Datetime.datetime) :
  parsed_timestamp fromisoformat (start_time tc) = Some ds ->
  truthy (end_time tc) = true ->
  is_str (end_time tc) = false ->
  finalize_test_case fromisoformat tc = Raise AttributeError.
Proof.
  intros Ps Te He.
  destruct (parsed_some fromisoformat _ _ Ps) as [s [Es [Ts Fs]]].
  unfold finalize_test_case. rewrite Ts, Te, Es.
  cbn [andb py_replace Py.bind]. unfold py_fromisoformat. rewrite Fs.
  destruct (end_time tc); try discriminate; reflexivity.
Qed.

Lemma finalize_type_error (tc : test_case) (ds de : Datetime.datetime) :
  parsed_timestamp fromisoformat (start_time tc) = Some ds ->
  parsed_timestamp fromisoformat (end_time tc) = Some de ->
  same_awareness de ds = false ->
  finalize_test_case fromisoformat tc = Raise TypeError.
Proof.
  intros Ps Pe Haw.
  destruct (parsed_some fromisoformat _ _ Ps) as [s [Es [Ts Fs]]].
  destruct (parsed_some fromisoformat _ _ Pe) as [e [Ee [Te Fe]]].
  unfold finalize_test_case. rewrite Ts, Te, Es, Ee.
  cbn [andb py_replace Py.bind]. unfold py_fromisoformat. rewrite Fs, Fe.
  cbn [Py.bind]. unfold Datetime.sub. unfold same_awareness in Haw.
  destruct (Datetime.tzinfo de), (Datetime.tzinfo ds); try discriminate;
    reflexivity.
Qed.

(** Every way finalization can go. *)
Lemma finalize_outcomes (tc : test_case) :
  (exists tc', finalize_test_case fromisoformat tc = Ok tc') \/
  (truthy (start_time tc) = true /\ truthy (end_time tc) = true /\
   is_str (start_time tc) = false) \/
  (exists ds,
     parsed_timestamp fromisoformat (start_time tc) = Some ds /\
     truthy (end_time tc) = true /\ is_str (end_time tc) = false) \/
  (exists ds de,
     parsed_timestamp fromisoformat (start_time tc) = Some ds /\
     parsed_timestamp fromisoformat (end_time tc) = Some de /\
     same_awareness de ds = false).
Proof.
  destruct (truthy (start_time tc)) eqn:Ts.
  2:{ left. unfold finalize_test_case. rewrite Ts. cbn [andb Py.bind].
      rewrite status_step. eauto. }
  destruct (truthy (end_time tc)) eqn:Te.
  2:{ left. unfold finalize_test_case. rewrite Ts, Te. cbn [andb Py.bind].
      rewrite status_step. eauto. }
  destruct (is_str (start_time tc)) eqn:Hs; [|right; left; auto].
  destruct (parsed_timestamp fromisoformat (start_time tc)) as [ds|] eqn:Ps.
  2:{ left. unfold finalize_test_case. rewrite Ts, Te. cbn [andb].
      unfold parsed_timestamp in Ps. rewrite Ts in Ps.
      destruct (start_time tc); try discriminate.
      cbn [py_replace Py.bind]. unfold py_fromisoformat. rewrite Ps.
      cbn [Py.bind try_except isinstance exn_eqb]. rewrite status_step.
      eauto. }
  destruct (is_str (end_time tc)) eqn:He; [|right; right; left; eauto].
  destruct (parsed_timestamp fromisoformat (end_time tc)) as [de|] eqn:Pe.
  2:{ left.
      destruct (parsed_some fromisoformat _ _ Ps) as [s [Es [_ Fs]]].
      unfold finalize_test_case. rewrite Ts, Te, Es. cbn [andb].
      unfold parsed_timestamp in Pe. rewrite Te in Pe.
      destruct (end_time tc); try discriminate.
      cbn [py_replace Py.bind]. unfold py_fromisoformat. rewrite Fs, Pe.
      cbn [Py.bind try_except isinstance exn_eqb]. rewrite status_step.
      eauto. }
  destruct (same_awareness de ds) eqn:Haw.
  - left. destruct (finalize_parsed fromisoformat tc ds de Ps Pe Haw)
      as [delta [_ Hf]]. eauto.
  - right. right. right. eauto.
Qed.

(** X10. Finalization raises nothing but [AttributeError] and [TypeError].
    It raises [AttributeError] exactly when both timestamps are truthy and
    the start time is not a string, or the start time parses and the end
    time is not a string; it raises [TypeError] exactly when both parse and
    only one of them carries an offset. *)
Theorem finalization_failures (tc : test_case) :
  (forall e,
     finalize_test_case fromisoformat tc = Raise e ->
     e = AttributeError \/ e = TypeError) /\
  (finalize_test_case fromisoformat tc = Raise AttributeError <->
   truthy (start_time tc) = true /\ truthy (end_time tc) = true /\
   (is_str (start_time tc) = false \/
    parsed_timestamp fromisoformat (start_time tc) <> None /\
    is_str (end_time tc) = false)) /\
  (finalize_test_case fromisoformat tc = Raise TypeError <->
   exists ds de,
     parsed_timestamp fromisoformat (start_time tc) = Some ds /\
     parsed_timestamp fromisoformat (end_time tc) = Some de /\
     same_awareness de ds = false).
Proof.
  pose proof (finalize_outcomes tc) as Hout.
  split; [|split].
  - intros e He.
    destruct Hout as [[tc' H] | [(Ts & Te & Hs) | [(ds & Ps & Te & Hn)
                     | (ds & de & Ps & Pe & Haw)]]].
    + congruence.
    + rewrite (finalize_attribute_error_start tc Ts Te Hs) in He.
      inversion He. auto.
    + rewrite (finalize_attribute_error_end tc ds Ps Te Hn) in He.
      inversion He. auto.
    + rewrite (finalize_type_error tc ds de Ps Pe Haw) in He.
      inversion He. auto.
  - split.
    + intro He.
      destruct Hout as [[tc' H] | [(Ts & Te & Hs) | [(ds & Ps & Te & Hn)
                       | (ds & de & Ps & Pe & Haw)]]].
      * congruence.
      * auto.
      * destruct (parsed_some fromisoformat _ _ Ps) as [s [_ [Ts _]]].
        split; [exact Ts|]. split; [exact Te|]. right.
        split; [congruence | exact Hn].
      * rewrite (finalize_type_error tc ds de Ps Pe Haw) in He.
        discriminate.
    + intros (Ts & Te & [Hs | [Ps Hn]]).
      * exact (finalize_attribute_error_start tc Ts Te Hs).
      * destruct (parsed_timestamp fromisoformat (start_time tc))
          as [ds|] eqn:E; [|congruence].
        exact (finalize_attribute_error_end tc ds E Te Hn).
  - split.
    + intro He.
      destruct Hout as [[tc' H] | [(Ts & Te & Hs) | [(ds & Ps & Te & Hn)
                       | (ds & de & Ps & Pe & Haw)]]].
      * congruence.
      * rewrite (finalize_attribute_error_start tc Ts Te Hs) in He.
        discriminate.
      * rewrite (finalize_attribute_error_end tc ds Ps Te Hn) in He.
        discriminate.
      * eauto.
    + intros (ds & de & Ps & Pe & Haw).
      exact (finalize_type_error tc ds de Ps Pe Haw).
Qed.

End FinalizationCompleted.

(** ** Frames, completed *)

Lemma success_frame_bad_data (tc : test_case) (d : dict) (v : json) :
  eq_str (field (JDict d) "status") "success" = true ->
  dict_get d "data" = Some v ->
  is_dict v = false ->
  process_frame_data tc (JDict d) = Raise AttributeError.
Proof.
  intros Hs Hd Hv. apply eq_str_true in Hs.
  unfold field in Hs. unfold process_frame_data. cbn [py_get Py.bind].
  rewrite Hs. cbn [eq_str py_eq String.eqb Ascii.eqb Bool.eqb].
  unfold extract_success_data. cbn [py_get Py.bind]. rewrite Hd.
  destruct v; try discriminate; reflexivity.
Qed.

(** X11. Processing a frame raises nothing but [AttributeError], and
    raises it exactly when the frame is not an object, or its status is
    success and it has a [data] that is not an object, null included. *)
Theorem frame_failures (tc : test_case) (frame : json) :
  (forall e, process_frame_data tc frame = Raise e -> e = AttributeError) /\
  (process_frame_data tc frame = Raise AttributeError <->
   is_dict frame = false \/
   eq_str (field frame "status") "success" = true /\
   exists v, py_getitem frame "data" = Ok v /\ is_dict v = false).
Proof.
  destruct frame as [| | | | | |d];
    try (split; [intros e H; inversion H; reflexivity
                | split; [intros _; left; reflexivity | reflexivity]]).
  destruct (eq_str (field (JDict d) "status") "success") eqn:Hs.
  - destruct (dict_get d "data") as [v|] eqn:Hd.
    + destruct (is_dict v) eqn:Hv.
      * destruct (process_frame_total tc (JDict d)) as [tc' Hok].
        { unfold well_typed_frame. rewrite Hs, Hd. exact Hv. }
        rewrite Hok. split; [discriminate|]. split; [discriminate|].
        intros [H | (_ & v' & Hg & Hv')]; [discriminate|].
        cbn [py_getitem] in Hg. rewrite Hd in Hg. congruence.
      * rewrite (success_frame_bad_data tc d v Hs Hd Hv).
        split; [intros e H; inversion H; reflexivity|].
        split; [|reflexivity]. intros _. right. split; [reflexivity|].
        exists v. cbn [py_getitem]. rewrite Hd. auto.
    + destruct (process_frame_total tc (JDict d)) as [tc' Hok].
      { unfold well_typed_frame. rewrite Hs, Hd. reflexivity. }
      rewrite Hok. split; [discriminate|]. split; [discriminate|].
      intros [H | (_ & v' & Hg & Hv')]; [discriminate|].
      cbn [py_getitem] in Hg. rewrite Hd in Hg. discriminate.
  - destruct (process_frame_total tc (JDict d)) as [tc' Hok].
    { unfold well_typed_frame. rewrite Hs. reflexivity. }
    rewrite Hok. split; [discriminate|]. split; [discriminate|].
    intros [H | (H & _)]; discriminate.
Qed.

(** ** The runner and the reconstructor *)

(** X12. The runner stops reading at a frame exactly when that frame is
    the verdict of the case for the reconstructor.  When [should_close]
    answers true the status of the frame is success or error, and the
    reconstructor either returns the case with that status, or raises
    [AttributeError], which it does only at a success frame with a [data]
    that is not an object.  When [should_close] does not answer true, also
    when it raises, the reconstructor either returns the case with the status
    it had, or raises [AttributeError] because the frame is not an object. *)
Theorem runner_closes_on_verdicts (tc : test_case) (frame : json) :
  (RunGrun.should_close frame = Ok true ->
   exists verdict,
     In verdict ["success"; "error"] /\
     field frame "status" = JStr verdict /\
     ((exists tc',
         process_frame_data tc frame = Ok tc' /\ status tc' = verdict) \/
      (verdict = "success" /\
       (exists v, py_getitem frame "data" = Ok v /\ is_dict v = false) /\
       process_frame_data tc frame = Raise AttributeError))) /\
  (RunGrun.should_close frame <> Ok true ->
   (exists tc',
      process_frame_data tc frame = Ok tc' /\ status tc' = status tc) \/
   (is_dict frame = false /\
    process_frame_data tc frame = Raise AttributeError)).
Proof.
  destruct frame as [| | | | | |d];
    try (split; [discriminate | intros _; right; split; reflexivity]).
  assert (Hsc : RunGrun.should_close (JDict d)
                = RunGrun.in_str_set (field (JDict d) "status")
                    ["success"; "error"]) by reflexivity.
  rewrite Hsc. clear Hsc.
  destruct (well_typed_frame (JDict d)) eqn:Hw.
  - destruct (process_frame_total tc (JDict d) Hw) as [tc' H]. rewrite H.
    destruct (process_frame_cases _ _ _ H)
      as [[E1 ->] | [(E1 & E2 & final & Hx & ->) | [(E1 & E2 & E3 & ->)
         | (E1 & E2 & E3 & ->)]]]; cbv zeta in *.
    + apply eq_str_true in E1. rewrite E1.
      split; [discriminate | intros _; left; eauto].
    + apply eq_str_true in E2. rewrite E2. split.
      * intros _. exists "success".
        split; [simpl; auto|]. split; [reflexivity|]. left.
        eexists. split; reflexivity.
      * intro Hn. exfalso. apply Hn. reflexivity.
    + apply eq_str_true in E3. rewrite E3. split.
      * intros _. exists "error".
        split; [simpl; auto|]. split; [reflexivity|]. left.
        eexists. split; reflexivity.
      * intro Hn. exfalso. apply Hn. reflexivity.
    + split; [|intros _; left; eauto].
      unfold RunGrun.in_str_set.
      destruct (field (JDict d) "status"); try discriminate;
        cbn [existsb]; rewrite ?E2, ?E3; discriminate.
  - unfold well_typed_frame in Hw.
    apply Bool.orb_false_iff in Hw. destruct Hw as [Hs Hd].
    apply Bool.negb_false_iff in Hs.
    destruct (dict_get d "data") as [v|] eqn:Hv; [|discriminate].
    cbn in Hd.
    rewrite (success_frame_bad_data tc d v Hs Hv Hd).
    apply eq_str_true in Hs. rewrite Hs. split.
    + intros _. exists "success". split; [simpl; auto|].
      split; [reflexivity|]. right. split; [reflexivity|].
      split; [|reflexivity]. exists v. cbn [py_getitem]. rewrite Hv. auto.
    + intro Hn. exfalso. apply Hn. reflexivity.
Qed.

Section RunnerRecords.

Variable fromisoformat : string -> option Datetime.datetime.

(** X13. The record the runner writes for a server message is handled as a
    frame whenever the case it names is the open one: the payload goes to
    [process_frame_data] as it is, so a payload that is JSON but not an
    object ends the reconstruction with [AttributeError]. *)
Theorem runner_frame_record_is_processed
    (st : loop_state) (tc : test_case) (case payload : json)
    (session_id : string) :
  current_test_case st = Some tc ->
  py_eq case (name tc) = true ->
  handle_entry fromisoformat st (RunGrun.frame_record case session_id payload)
  = (tc' <- process_frame_data tc payload;;
     Ok (mk_state (acc st) (Some tc'))) /\
  (is_dict payload = false ->
   handle_entry fromisoformat st
     (RunGrun.frame_record case session_id payload)
   = Raise AttributeError).
Proof.
  intros Hcur Heq.
  assert (E : handle_entry fromisoformat st
                (RunGrun.frame_record case session_id payload)
              = (tc' <- process_frame_data tc payload;;
                 Ok (mk_state (acc st) (Some tc')))).
  { unfold handle_entry, RunGrun.frame_record.
    cbn [py_get dict_get String.eqb Ascii.eqb Bool.eqb Py.bind eq_str py_eq
         py_in dict_has andb py_getitem].
    rewrite Hcur, Heq. reflexivity. }
  split; [exact E|].
  intro Hp. rewrite E. destruct payload; try discriminate; reflexivity.
Qed.

End RunnerRecords.

(** ** From the test case to the request snapshot *)

Section Requests.

Lemma dict_get_absent (d : dict) (k : string) :
  ~ In k (dict_keys d) -> dict_get d k = None.
Proof.
  induction d as [|[k' v'] d IH]; simpl; intro H; [reflexivity|].
  destruct (String.eqb_spec k k') as [->|ne].
  - exfalso. apply H. now left.
  - apply IH. intro Hin. apply H. now right.
Qed.

Lemma dict_get_set (d : dict) (k k' : string) (v : json) :
  dict_get (dict_set d k v) k'
  = if String.eqb k' k then Some v else dict_get d k'.
Proof.
  induction d as [|[k0 v0] d IH]; simpl.
  - reflexivity.
  - destruct (String.eqb_spec k k0) as [->|ne]; simpl.
    + destruct (String.eqb_spec k' k0); reflexivity.
    + rewrite IH. destruct (String.eqb_spec k' k0) as [->|ne'].
      * destruct (String.eqb_spec k0 k); [congruence | reflexivity].
      * reflexivity.
Qed.

Lemma dict_set_keys (d : dict) (k : string) (v : json) :
  dict_keys (dict_set d k v)
  = if existsb (String.eqb k) (dict_keys d) then dict_keys d
    else dict_keys d ++ [k].
Proof.
  unfold dict_keys.
  induction d as [|[k0 v0] d IH]; cbn [dict_set map fst existsb];
    [reflexivity|].
  destruct (String.eqb k k0); cbn [map fst orb]; [reflexivity|].
  rewrite IH. destruct (existsb (String.eqb k) (map fst d)); reflexivity.
Qed.

Lemma nodup_snoc (l : list string) (k : string) :
  NoDup l -> ~ In k l -> NoDup (l ++ [k]).
Proof.
  induction 1 as [|x l Hx Hl IH]; intro Hk; simpl.
  - repeat constructor. intros [].
  - constructor.
    + intro Hin. apply in_app_or in Hin. destruct Hin as [Hin|[<-|[]]].
      * exact (Hx Hin).
      * apply Hk. now left.
    + apply IH. intro Hin. apply Hk. now right.
Qed.

Lemma dict_set_nodup (d : dict) (k : string) (v : json) :
  NoDup (dict_keys d) -> NoDup (dict_keys (dict_set d k v)).
Proof.
  intro H. rewrite dict_set_keys.
  destruct (existsb (String.eqb k) (dict_keys d)) eqn:E; [exact H|].
  apply nodup_snoc; [exact H|].
  intro Hin. apply existsb_eqb_In in Hin. congruence.
Qed.

Lemma dict_update_nodup (items base : dict) :
  NoDup (dict_keys base) -> NoDup (dict_keys (RunGrun.dict_update base items)).
Proof.
  unfold RunGrun.dict_update. revert base.
  induction items as [|[k v] items IH]; intros base H; [exact H|].
  simpl. apply IH. now apply dict_set_nodup.
Qed.

Lemma dict_update_get (items base : dict) (k : string) :
  NoDup (dict_keys items) ->
  dict_get (RunGrun.dict_update base items) k
  = match dict_get items k with
    | Some v => Some v
    | None => dict_get base k
    end.
Proof.
  unfold RunGrun.dict_update. revert base.
  induction items as [|[k0 v0] items IH]; intros base H; [reflexivity|].
  inversion H as [|? ? Hnot Hrest]; subst.
  cbn [fold_left fst snd dict_get]. rewrite (IH _ Hrest), dict_get_set.
  destruct (String.eqb_spec k k0) as [->|ne]; [|reflexivity].
  now rewrite (dict_get_absent _ _ Hnot).
Qed.

(** X14. A test case with a prompt and a dictionary of additional
    parameters: the request the runner builds from it is always read back
    by the reconstructor, and every additional parameter other than
    [session_id] is found in the snapshot with its value, under its field
    when it is one of the six recognized keys and in [additional_params]
    otherwise; [session_id] is nowhere in the snapshot, and the prompt is
    the test case's unless an additional parameter replaces it. *)
Theorem runner_request_reaches_snapshot
    (tcd items : dict) (prompt case : json) (session_id ts : string) :
  dict_get tcd "prompt" = Some prompt ->
  dict_get tcd "additional_params" = Some (JDict items) ->
  NoDup (dict_keys items) ->
  exists req snap ap,
    RunGrun.mk_request (JDict tcd) session_id = Ok req /\
    extract_request_data
      (RunGrun.sent_request_record case session_id req ts)
    = Ok (JDict snap) /\
    dict_get snap "additional_params" = Some (JDict ap) /\
    dict_get snap "session_id" = None /\
    dict_get ap "session_id" = None /\
    (forall k v,
       dict_get items k = Some v ->
       k <> "session_id" ->
       match snapshot_field k with
       | Some f => dict_get snap f = Some v
       | None => dict_get ap k = Some v
       end) /\
    (dict_get items "prompt" = None -> dict_get snap "prompt" = Some prompt).
Proof.
  intros Hp Ha Hnd.
  set (base := [("prompt", prompt);
                ("env_id",
                 match dict_get tcd "env_id" with
                 | Some v => v
                 | None => JStr "default"
                 end);
                ("session_id", JStr session_id)]).
  set (rd := RunGrun.dict_update base items).
  set (keep := fun k : string => negb (existsb (String.eqb k) core_params)).
  assert (Hrd : NoDup (dict_keys rd)).
  { apply dict_update_nodup. unfold base. simpl.
    repeat constructor; simpl; intuition discriminate. }
  assert (Hget : forall k v, dict_get items k = Some v ->
                             dict_get rd k = Some v).
  { intros k v Hk. unfold rd. now rewrite (dict_update_get _ _ _ Hnd), Hk. }
  exists (JDict rd).
  exists
    [("prompt", match dict_get rd "prompt" with Some v => v | None => JNull end);
     ("env_id", match dict_get rd "env_id" with Some v => v | None => JNull end);
     ("where", match dict_get rd "where" with Some v => v | None => JNull end);
     ("when", match dict_get rd "when" with Some v => v | None => JNull end);
     ("metric_filters",
      match dict_get rd "metricFilters" with Some v => v | None => JList [] end);
     ("use_vector_search",
      match dict_get rd "useVectorSearch" with
      | Some v => v
      | None => JBool false
      end);
     ("additional_params", JDict (filter (fun kv => keep (fst kv)) rd))],
    (filter (fun kv => keep (fst kv)) rd).
  split.
  { unfold RunGrun.mk_request. cbn [py_getitem]. rewrite Hp.
    cbn [Py.bind py_get]. rewrite Ha. cbn [Py.bind py_items]. reflexivity. }
  split.
  { unfold extract_request_data, RunGrun.sent_request_record.
    cbn [py_get dict_get String.eqb Ascii.eqb Bool.eqb Py.bind py_items].
    pose proof (dict_of_items_nodup _ (filter_keys_nodup keep rd Hrd)) as E.
    unfold keep in E. rewrite E. reflexivity. }
  split; [reflexivity|]. split; [reflexivity|].
  split; [rewrite (dict_get_filter keep); reflexivity|].
  split.
  - intros k v Hk Hs. pose proof (Hget k v Hk) as Hr.
    unfold snapshot_field.
    destruct (String.eqb_spec k "prompt") as [->|N1];
      [simpl; now rewrite Hr|].
    destruct (String.eqb_spec k "env_id") as [->|N2];
      [simpl; now rewrite Hr|].
    destruct (String.eqb_spec k "where") as [->|N3];
      [simpl; now rewrite Hr|].
    destruct (String.eqb_spec k "when") as [->|N4];
      [simpl; now rewrite Hr|].
    destruct (String.eqb_spec k "metricFilters") as [->|N5];
      [simpl; now rewrite Hr|].
    destruct (String.eqb_spec k "useVectorSearch") as [->|N6];
      [simpl; now rewrite Hr|].
    rewrite (dict_get_filter keep).
    assert (Hkeep : keep k = true).
    { unfold keep. apply negb_true_iff. apply not_true_is_false.
      rewrite existsb_eqb_In. unfold core_params. simpl.
      intuition congruence. }
    now rewrite Hkeep.
  - intro Hnone. simpl. unfold rd.
    rewrite (dict_update_get _ _ _ Hnd), Hnone. reflexivity.
Qed.

End Requests.

(** ** From the final result to the judge *)

Section Judge.

Import EvalAnalysis.

Lemma nonempty_str_some (v : json) (s : string) :
  nonempty_str v = Some s -> s <> "".
Proof.
  unfold nonempty_str. destruct v; try discriminate.
  destruct (String.eqb_spec s0 ""); [discriminate|].
  intro H. inversion H. now subst.
Qed.

Lemma join_nonempty (sep p : string) (rest : list string) :
  p <> "" -> join sep (p :: rest) <> "".
Proof.
  intro H. destruct p as [|c p]; [congruence|].
  destruct rest; discriminate.
Qed.

(** X15. The text handed to the judge is never empty, whatever the final
    result and the mode. *)
Theorem judged_text_is_never_empty (final_result : json) (mode : string) :
  build_analysis_actual_output final_result mode <> "".
Proof.
  unfold build_analysis_actual_output.
  destruct final_result as [| | | | | |d]; try discriminate.
  destruct (String.eqb mode "executive_summary").
  { destruct (nonempty_str _) eqn:E;
      [exact (nonempty_str_some _ _ E) | discriminate]. }
  destruct (String.eqb mode "key_findings").
  { destruct (nonempty_str _) eqn:E;
      [exact (nonempty_str_some _ _ E) | discriminate]. }
  match goal with
  | |- match ?parts with _ => _ end <> _ => destruct parts as [|p rest] eqn:E
  end; [discriminate|].
  apply join_nonempty.
  assert (Hin : In p (p :: rest)) by now left.
  rewrite <- E in Hin. apply in_flat_map in Hin.
  destruct Hin as [k [_ Hk]].
  destruct (nonempty_str _); [|destruct Hk].
  destruct Hk as [<-|[]]. destruct k; discriminate.
Qed.

(** X16. For a success frame whose data is an object, the text and the
    retrieval context built from the final result are those built from the
    frame's data itself, in every mode: the eight fields the judge reads
    pass through [extract_success_data] unchanged. *)
Theorem final_result_carries_the_analysis (d dd : dict) (mode : string) :
  dict_get d "data" = Some (JDict dd) ->
  exists final,
    extract_success_data (JDict d) = Ok final /\
    build_analysis_actual_output final mode
    = build_analysis_actual_output (JDict dd) mode /\
    build_retrieval_context final = build_retrieval_context (JDict dd).
Proof.
  intro Hd. eexists. split.
  { unfold extract_success_data. cbn [py_get Py.bind]. rewrite Hd.
    cbn [py_get Py.bind]. reflexivity. }
  split.
  - unfold build_analysis_actual_output, ordered_keys.
    cbn [dict_get String.eqb Ascii.eqb Bool.eqb flat_map]. reflexivity.
  - unfold build_retrieval_context, candidate_keys.
    cbn [dict_get String.eqb Ascii.eqb Bool.eqb flat_map].
    destruct (dict_get dd "key_metrics"), (dict_get dd "recommendations"),
      (dict_get dd "context"), (dict_get dd "alerts"); reflexivity.
Qed.

End Judge.

(** ** These theorems at concrete inputs *)

Lemma appended_lines_keep_cases_witness :
  exists r r0 new,
    Runs.parse (Logs.first_session ++ Logs.later_sessions) = Ok r /\
    Runs.parse Logs.first_session = Ok r0 /\
    List.length (test_cases r0) = 1 /\
    test_cases r = test_cases r0 ++ new.
Proof.
  unfold Runs.parse.
  pose proof (appended_lines_keep_cases JsonText.loads Datetime.iso8601
                Logs.first_session Logs.later_sessions) as T.
  eexists. edestruct T as (r0 & new & H0 & Hn); [vm_compute; reflexivity|].
  exists r0, new. split; [vm_compute; reflexivity|].
  split; [exact H0|]. split; [|exact Hn].
  vm_compute in H0. inversion H0. reflexivity.
Defined.

Lemma cases_bounded_by_events_witness :
  exists r,
    Runs.parse (Runs.open_A_line :: Logs.four_sessions) = Ok r /\
    count_events JsonText.loads "connection_opening"
      (Runs.open_A_line :: Logs.four_sessions) = 5 /\
    List.length (test_cases r)
    <= count_events JsonText.loads "connection_opening"
         (Runs.open_A_line :: Logs.four_sessions) /\
    List.length (test_cases r)
    <= count_events JsonText.loads "connection_closed"
         (Runs.open_A_line :: Logs.four_sessions).
Proof.
  unfold Runs.parse. eexists. split; [vm_compute; reflexivity|].
  split; [vm_compute; reflexivity|].
  refine (cases_bounded_by_events JsonText.loads Datetime.iso8601
            (Runs.open_A_line :: Logs.four_sessions) _ _).
  vm_compute. reflexivity.
Defined.

Lemma non_object_line_aborts_witness :
  Runs.parse (Logs.first_session ++ Logs.number_line :: Logs.later_sessions)
  = Raise AttributeError /\
  Runs.parse
    (Logs.first_session ++ Logs.long_number_line :: Logs.later_sessions)
  = Raise ValueError.
Proof.
  unfold Runs.parse. split.
  - refine (proj1 (non_object_line_aborts JsonText.loads Datetime.iso8601
                     Logs.first_session Logs.later_sessions Logs.number_line
                     _ _) (JInt 42) _ _).
    + vm_compute. reflexivity.
    + vm_compute. reflexivity.
    + discriminate.
  - refine (proj2 (non_object_line_aborts JsonText.loads Datetime.iso8601
                     Logs.first_session Logs.later_sessions
                     Logs.long_number_line _ _) ValueError _ _).
    + vm_compute. reflexivity.
    + vm_compute. reflexivity.
    + reflexivity.
Defined.

Lemma well_typed_log_returns_witness :
  JsonText.loads (py_strip Runs.truncated_line) = Raise JSONDecodeError /\
  exists r, Runs.parse (Runs.truncated_line :: Logs.four_sessions) = Ok r.
Proof.
  split; [vm_compute; reflexivity|].
  unfold Runs.parse.
  apply (well_typed_log_returns JsonText.loads Datetime.iso8601).
  unfold Logs.four_sessions. cbn [map].
  repeat (constructor; [vm_compute; reflexivity|]). constructor.
Defined.

Lemma finalization_failures_witness :
  finalize_test_case Datetime.iso8601 Logs.numeric_start
  = Raise AttributeError.
Proof.
  apply (finalization_failures Datetime.iso8601 Logs.numeric_start).
  vm_compute. auto.
Defined.

Lemma frame_failures_witness :
  process_frame_data Runs.case_A Logs.success_frame_null_data
  = Raise AttributeError.
Proof.
  apply (frame_failures Runs.case_A Logs.success_frame_null_data).
  right. split; [reflexivity|]. exists JNull. split; reflexivity.
Defined.

Lemma runner_closes_on_verdicts_witness :
  RunGrun.should_close Logs.success_frame = Ok true /\
  RunGrun.should_close Logs.success_frame_null_data = Ok true /\
  exists verdict,
    In verdict ["success"; "error"] /\
    field Logs.success_frame_null_data "status" = JStr verdict /\
    ((exists tc',
        process_frame_data Runs.case_A Logs.success_frame_null_data = Ok tc' /\
        status tc' = verdict) \/
     (verdict = "success" /\
      (exists v,
         py_getitem Logs.success_frame_null_data "data" = Ok v /\
         is_dict v = false) /\
      process_frame_data Runs.case_A Logs.success_frame_null_data
      = Raise AttributeError)).
Proof.
  split; [reflexivity|]. split; [reflexivity|].
  apply (proj1 (runner_closes_on_verdicts Runs.case_A
                  Logs.success_frame_null_data)).
  reflexivity.
Defined.

Lemma runner_frame_record_is_processed_witness :
  handle_entry Datetime.iso8601 Runs.A_is_open
    (RunGrun.frame_record (JStr "A") "s1" (JList [JInt 1; JInt 2]))
  = Raise AttributeError.
Proof.
  refine (proj2 (runner_frame_record_is_processed Datetime.iso8601
                   Runs.A_is_open Runs.case_A (JStr "A")
                   (JList [JInt 1; JInt 2]) "s1" _ _) _);
    reflexivity.
Defined.

Lemma runner_request_reaches_snapshot_witness :
  exists req snap ap,
    RunGrun.mk_request (JDict Logs.converted_case) "0f8a" = Ok req /\
    extract_request_data
      (RunGrun.sent_request_record (JStr "Prometheus - Up (case_1)") "0f8a"
         req "2025-01-01T00:00:01+00:00")
    = Ok (JDict snap) /\
    dict_get snap "additional_params" = Some (JDict ap) /\
    dict_get snap "session_id" = None /\
    dict_get ap "session_id" = None /\
    dict_get snap "metric_filters" = Some (JList [JStr "up"]) /\
    dict_get ap "limit" = Some (JInt 5) /\
    dict_get snap "prompt" = Some (JStr "is the target up?").
Proof.
  destruct (runner_request_reaches_snapshot Logs.converted_case
              [("where", JStr "prometheus"); ("when", JStr "1h");
               ("metricFilters", JList [JStr "up"]);
               ("useVectorSearch", JBool true); ("limit", JInt 5)]
              (JStr "is the target up?") (JStr "Prometheus - Up (case_1)")
              "0f8a" "2025-01-01T00:00:01+00:00")
    as (req & snap & ap & Hreq & Hsnap & Hap & Hs1 & Hs2 & Hall & Hprompt).
  - reflexivity.
  - reflexivity.
  - repeat constructor; simpl; intuition discriminate.
  - exists req, snap, ap.
    split; [exact Hreq|]. split; [exact Hsnap|]. split; [exact Hap|].
    split; [exact Hs1|]. split; [exact Hs2|].
    split; [exact (Hall "metricFilters" _ eq_refl ltac:(discriminate))|].
    split; [exact (Hall "limit" _ eq_refl ltac:(discriminate))|].
    apply Hprompt. reflexivity.
Defined.

Lemma final_result_carries_the_analysis_witness :
  exists final,
    extract_success_data Logs.success_frame = Ok final /\
    EvalAnalysis.build_analysis_actual_output final "key_findings"
    = EvalAnalysis.build_analysis_actual_output
        (JDict [("key_findings", JStr "k"); ("executive_summary", JStr "e");
                ("alerts", JStr "")])
        "key_findings" /\
    EvalAnalysis.build_retrieval_context final
    = EvalAnalysis.build_retrieval_context
        (JDict [("key_findings", JStr "k"); ("executive_summary", JStr "e");
                ("alerts", JStr "")]).
Proof.
  apply (final_result_carries_the_analysis
           [("status", JStr "success"); ("message", JStr "done");
            ("data", JDict [("key_findings", JStr "k");
                            ("executive_summary", JStr "e");
                            ("alerts", JStr "")])]).
  reflexivity.
Defined.

(** ** The log of the runner, reconstructed *)

Section RunnerLog.

Variable json_loads : string -> result json.
Variable fromisoformat : string -> option Datetime.datetime.
Variable describe : exn -> string.
Variable now : nat -> string.

Lemma run_decoded (lines : list string) (entries : list json)
    (st : loop_state) :
  decode_to json_loads lines entries ->
  run_lines json_loads fromisoformat lines st
  = handle_all fromisoformat entries st.
Proof.
  intro H. revert st.
  induction H as [|line entry lines entries Hl _ IH]; intro st;
    [reflexivity|].
  cbn [run_lines handle_all]. rewrite Hl.
  destruct (handle_entry fromisoformat st entry); cbn [Py.bind];
    [apply IH | reflexivity].
Qed.

Lemma handle_all_app (pre post : list json) (st : loop_state) :
  handle_all fromisoformat (pre ++ post) st
  = (st' <- handle_all fromisoformat pre st;;
     handle_all fromisoformat post st').
Proof.
  revert st. induction pre as [|entry pre IH]; intro st; [reflexivity|].
  cbn [app handle_all].
  destruct (handle_entry fromisoformat st entry); cbn [Py.bind];
    [apply IH | reflexivity].
Qed.

Lemma frames_of_app (pre post : list json) :
  frames_of (pre ++ post) = frames_of pre ++ frames_of post.
Proof. unfold frames_of. apply flat_map_app. Qed.

Lemma decode_to_map (lines : list string) (entries : list json) :
  map (fun line => json_loads (py_strip line)) lines = map Ok entries ->
  decode_to json_loads lines entries.
Proof.
  revert entries. induction lines as [|line lines IH]; intros [|entry entries] H;
    try discriminate; [constructor|].
  cbn [map] in H. inversion H. constructor; [assumption | now apply IH].
Qed.

(** *** What the reconstructor does with each record of the runner *)

Lemma handle_header_record (st : loop_state) (ts endpoint_id url : string) :
  handle_entry fromisoformat st (RunGrun.header_record ts endpoint_id url)
  = Ok (set_run_info st
          (JDict [("timestamp", JStr ts); ("endpoint_id", JStr endpoint_id);
                  ("websocket_url", JStr url)])).
Proof. reflexivity. Qed.

Lemma handle_opening_record (st : loop_state) (name : json)
    (session_id url ts : string) :
  handle_entry fromisoformat st
    (RunGrun.opening_record name session_id url ts)
  = Ok (mk_state (acc st)
          (Some (mk_test_case name (JStr session_id) (JStr ts) JNull None
                   "running" (JDict []) [] (JDict []) [] []))).
Proof. reflexivity. Qed.

Lemma handle_open_record (st : loop_state) (name : json)
    (session_id ts : string) :
  handle_entry fromisoformat st (RunGrun.open_record name session_id ts)
  = Ok st.
Proof. reflexivity. Qed.

Lemma handle_timeout_record (st : loop_state) (tc : test_case) (name : json)
    (session_id ts : string) :
  current_test_case st = Some tc ->
  handle_entry fromisoformat st (RunGrun.timeout_record name session_id ts)
  = Ok (mk_state (acc st)
          (Some (append_error tc
                   (JDict [("type", JStr "client_timeout");
                           ("message", JStr "Timeout occurred");
                           ("timestamp", JStr ts)])))).
Proof.
  intro H. unfold handle_entry, RunGrun.timeout_record.
  cbn. rewrite H. reflexivity.
Qed.

Lemma handle_error_record (st : loop_state) (tc : test_case) (name : json)
    (session_id error ts : string) :
  current_test_case st = Some tc ->
  handle_entry fromisoformat st
    (RunGrun.error_record name session_id error ts)
  = Ok (mk_state (acc st)
          (Some (append_error tc
                   (JDict [("type", JStr "client_error");
                           ("message", JStr error);
                           ("timestamp", JStr ts)])))).
Proof.
  intro H. unfold handle_entry, RunGrun.error_record.
  cbn. rewrite H. reflexivity.
Qed.

Lemma handle_closed_record (st : loop_state) (tc : test_case) (name : json)
    (session_id ts : string) :
  current_test_case st = Some tc ->
  handle_entry fromisoformat st (RunGrun.closed_record name session_id ts)
  = (tc' <- finalize_test_case fromisoformat (set_end_time tc (JStr ts));;
     Ok (mk_state
           (mk_results (run_info (acc st)) (test_cases (acc st) ++ [tc'])
              (summary (acc st)) (generated_at (acc st)))
           None)).
Proof.
  intro H. unfold handle_entry, RunGrun.closed_record.
  cbn [py_get dict_get String.eqb Ascii.eqb Bool.eqb Py.bind eq_str py_eq
       py_in dict_has andb orb].
  rewrite H. reflexivity.
Qed.

Lemma handle_frame_record
    (st : loop_state) (tc : test_case) (name payload : json)
    (session_id : string) :
  current_test_case st = Some tc ->
  py_eq name (ConsumeLogs.name tc) = true ->
  handle_entry fromisoformat st (RunGrun.frame_record name session_id payload)
  = (tc' <- process_frame_data tc payload;;
     Ok (mk_state (acc st) (Some tc'))).
Proof.
  intros Hcur Heq. unfold handle_entry, RunGrun.frame_record.
  cbn [py_get dict_get String.eqb Ascii.eqb Bool.eqb Py.bind eq_str py_eq
       py_in dict_has andb py_getitem].
  rewrite Hcur, Heq. reflexivity.
Qed.

Lemma mk_request_dict (test_case req : json) (session_id : string) :
  RunGrun.mk_request test_case session_id = Ok req -> is_dict req = true.
Proof.
  unfold RunGrun.mk_request. intro H.
  destruct (py_getitem test_case "prompt"); cbn [Py.bind] in H;
    [|discriminate].
  destruct (py_get test_case "env_id" (JStr "default")); cbn [Py.bind] in H;
    [|discriminate].
  destruct (py_get test_case "additional_params" JNull) as [additional|];
    cbn [Py.bind] in H; [|discriminate].
  destruct additional; try (inversion H; reflexivity).
  destruct (py_getitem test_case "additional_params") as [other|];
    cbn [Py.bind] in H; [|discriminate].
  destruct (py_items other); cbn [Py.bind] in H; [|discriminate].
  inversion H. reflexivity.
Qed.

Lemma handle_sent_request_record (st : loop_state) (tc : test_case)
    (name req : json) (session_id ts : string) :
  current_test_case st = Some tc ->
  is_dict req = true ->
  exists snapshot,
    extract_request_data
      (RunGrun.sent_request_record name session_id req ts) = Ok snapshot /\
    handle_entry fromisoformat st
      (RunGrun.sent_request_record name session_id req ts)
    = Ok (mk_state (acc st) (Some (set_request tc snapshot))).
Proof.
  intros Hcur Hreq. destruct req as [| | | | | |rd]; try discriminate.
  eexists. split; [reflexivity|].
  unfold handle_entry, RunGrun.sent_request_record.
  cbn [py_get dict_get String.eqb Ascii.eqb Bool.eqb Py.bind eq_str py_eq].
  rewrite Hcur. reflexivity.
Qed.

(** What a frame does to the open case, by the runner's own test of it. *)
Lemma process_frame_by_should_close (tc tc' : test_case) (payload : json) :
  process_frame_data tc payload = Ok tc' ->
  ConsumeLogs.name tc' = ConsumeLogs.name tc /\
  session_id tc' = session_id tc /\
  start_time tc' = start_time tc /\
  request tc' = request tc /\
  responses tc' = responses tc ++ [response_of payload] /\
  (RunGrun.should_close payload = Ok true ->
   (status tc' = "success" /\ is_success payload = true) \/
   (status tc' = "error" /\ is_success payload = false /\ errors tc' <> [])) /\
  (RunGrun.should_close payload <> Ok true ->
   status tc' = status tc /\ errors tc' = errors tc /\
   is_success payload = false).
Proof.
  intro H.
  assert (Hd : exists d, payload = JDict d)
    by (destruct payload; try discriminate; eauto).
  destruct Hd as [d ->].
  assert (Hsc : RunGrun.should_close (JDict d)
                = RunGrun.in_str_set (field (JDict d) "status")
                    ["success"; "error"]) by reflexivity.
  rewrite Hsc. clear Hsc. unfold is_success.
  destruct (process_frame_cases _ _ _ H)
    as [[E1 ->] | [(E1 & E2 & final & Hx & ->) | [(E1 & E2 & E3 & ->)
       | (E1 & E2 & E3 & ->)]]]; cbv zeta in *;
    repeat (split; [reflexivity|]).
  - apply eq_str_true in E1. rewrite E1.
    split; [intro Hc; vm_compute in Hc; discriminate
           | intros _; repeat split].
  - rewrite E2. split.
    + intros _. left. split; reflexivity.
    + apply eq_str_true in E2. rewrite E2. intro Hn. exfalso. apply Hn.
      reflexivity.
  - rewrite E2. split.
    + intros _. right. repeat split.
      cbn [errors append_error set_status]. intro Hnil.
      apply app_eq_nil in Hnil. destruct Hnil. discriminate.
    + apply eq_str_true in E3. rewrite E3. intro Hn. exfalso. apply Hn.
      reflexivity.
  - rewrite E2. split; [|intros _; repeat split].
    unfold RunGrun.in_str_set.
    destruct (field (JDict d) "status"); try discriminate;
      cbn [existsb]; rewrite ?E2, ?E3; discriminate.
Qed.

(** *** The loop of the runner, replayed by the reconstructor *)

(** What a frame and the events between opening and closing leave alone. *)
Let kept (tc tc' : test_case) : Prop :=
  ConsumeLogs.name tc' = ConsumeLogs.name tc /\
  session_id tc' = session_id tc /\
  start_time tc' = start_time tc /\
  request tc' = request tc.

Lemma kept_refl (tc : test_case) : kept tc tc.
Proof. repeat split. Qed.

Lemma kept_trans (a b c : test_case) : kept a b -> kept b c -> kept a c.
Proof.
  intros (A1 & A2 & A3 & A4) (B1 & B2 & B3 & B4).
  repeat split; congruence.
Qed.

(** One frame record, handled while its case is open and running. *)
Lemma frame_record_step
    (st st' : loop_state) (tc : test_case) (name payload : json)
    (session_id : string) (rest : list json) :
  current_test_case st = Some tc ->
  py_eq name (ConsumeLogs.name tc) = true ->
  handle_all fromisoformat
    (RunGrun.frame_record name session_id payload :: rest) st = Ok st' ->
  exists tc1,
    process_frame_data tc payload = Ok tc1 /\
    handle_all fromisoformat rest (mk_state (acc st) (Some tc1)) = Ok st'.
Proof.
  intros Hcur Heq H. cbn [handle_all] in H.
  rewrite (handle_frame_record _ _ _ _ _ Hcur Heq) in H.
  destruct (process_frame_data tc payload) as [tc1|]; cbn [Py.bind] in H;
    [eauto | discriminate].
Qed.

Lemma receive_replayed (name : json) (session_id : string)
    (inbox : list RunGrun.received) :
  forall (j j' : RunGrun.journal) (h : option RunGrun.halt),
    RunGrun.receive json_loads describe now name session_id inbox j = (h, j') ->
    exists records,
      RunGrun.written j' = RunGrun.written j ++ records /\
      forall (st st' : loop_state) (tc : test_case),
        current_test_case st = Some tc ->
        py_eq name (ConsumeLogs.name tc) = true ->
        status tc = "running" ->
        handle_all fromisoformat records st = Ok st' ->
        exists tc',
          st' = mk_state (acc st) (Some tc') /\
          kept tc tc' /\
          responses tc' = responses tc ++ map response_of (frames_of records) /\
          (status tc' = "success" <->
           existsb is_success (frames_of records) = true) /\
          match h with
          | None =>
              status tc' = "success" \/ status tc' = "error" \/
              (status tc' = "running" /\ errors tc' <> [])
          | Some _ => status tc' = "running" /\ errors tc' = errors tc
          end.
Proof.
  induction inbox as [|message inbox IH]; intros j j' h H.
  - inversion H; subst. exists []. split; [now rewrite app_nil_r|].
    intros st st' tc Hcur Heq Hrun Hall. inversion Hall; subst st'.
    exists tc. destruct st as [a c]. cbn in Hcur. subst c.
    rewrite app_nil_r. repeat split; auto.
    + rewrite Hrun. discriminate.
    + discriminate.
  - destruct message as [|raw_b64|raw|h0].
    + (* timeout *)
      inversion H; subst. eexists. split; [reflexivity|].
      intros st st' tc Hcur Heq Hrun Hall. cbn [handle_all] in Hall.
      rewrite (handle_timeout_record _ _ _ _ _ Hcur) in Hall.
      inversion Hall; subst st'. eexists. split; [reflexivity|].
      cbn [frames_of flat_map RunGrun.timeout_record dict_get String.eqb
           Ascii.eqb Bool.eqb map existsb app].
      rewrite app_nil_r. repeat split; auto.
      * cbn. rewrite Hrun. discriminate.
      * discriminate.
      * right. right. split; [exact Hrun|]. cbn. intro Hnil.
        apply app_eq_nil in Hnil. destruct Hnil. discriminate.
    + (* bytes *)
      cbn [RunGrun.receive] in H.
      destruct (IH _ _ _ H) as (records & Hw & Hrec).
      eexists (_ :: records). split.
      { rewrite Hw. unfold RunGrun.write_at. cbn [RunGrun.written].
        rewrite <- app_assoc. reflexivity. }
      intros st st' tc Hcur Heq Hrun Hall.
      destruct (frame_record_step _ _ _ _ _ _ _ Hcur Heq Hall)
        as (tc1 & Hp & Hall1).
      destruct (process_frame_by_should_close _ _ _ Hp)
        as (K1 & K2 & K3 & K4 & Hresp & _ & Hno).
      destruct Hno as (Hs & He & Hsucc); [discriminate|].
      destruct (Hrec (mk_state (acc st) (Some tc1)) st' tc1 eq_refl)
        as (tc' & Hst & Hk & Hr & Hiff & Hend); try assumption;
        [now rewrite K1 | now rewrite Hs|].
      exists tc'. split; [exact Hst|].
      split; [apply (kept_trans _ tc1); [repeat split|]; assumption|].
      cbn [frames_of flat_map RunGrun.frame_record dict_get String.eqb
           Ascii.eqb Bool.eqb app map existsb].
      fold (frames_of records). rewrite Hsucc. cbn [orb].
      split; [rewrite Hr, Hresp, <- app_assoc; reflexivity|].
      split; [exact Hiff|].
      destruct h; [rewrite <- He; exact Hend | exact Hend].
    + (* text *)
      cbn [RunGrun.receive] in H.
      destruct (RunGrun.read_text json_loads now raw j) as [[payload|e] j1]
        eqn:Hread.
      2:{ inversion H; subst.
          assert (Hj : RunGrun.written j' = RunGrun.written j).
          { unfold RunGrun.read_text in Hread.
            destruct (json_loads raw) as [[| | | | | |d]|e0];
              try (inversion Hread; reflexivity).
            destruct (isinstance e0 JSONDecodeError); inversion Hread;
              reflexivity. }
          exists []. split; [now rewrite Hj, app_nil_r|].
          intros st st' tc Hcur Heq Hrun Hall. inversion Hall; subst st'.
          exists tc. destruct st as [a c]. cbn in Hcur. subst c.
          rewrite app_nil_r. repeat split; auto.
          - rewrite Hrun. discriminate.
          - discriminate. }
      assert (Hj : RunGrun.written j1 = RunGrun.written j).
      { unfold RunGrun.read_text in Hread.
        destruct (json_loads raw) as [[| | | | | |d]|e0];
          try (inversion Hread; reflexivity).
        destruct (isinstance e0 JSONDecodeError); inversion Hread;
          reflexivity. }
      destruct (RunGrun.should_close payload) as [[|]|e] eqn:Hsc.
      * (* the verdict *)
        inversion H; subst. eexists [_]. split.
        { unfold RunGrun.write. cbn [RunGrun.written]. rewrite Hj.
          reflexivity. }
        intros st st' tc Hcur Heq Hrun Hall.
        destruct (frame_record_step _ _ _ _ _ _ _ Hcur Heq Hall)
          as (tc1 & Hp & Hall1).
        inversion Hall1; subst st'.
        destruct (process_frame_by_should_close _ _ _ Hp)
          as (K1 & K2 & K3 & K4 & Hresp & Hyes & _).
        exists tc1. split; [reflexivity|].
        split; [repeat split; assumption|].
        cbn [frames_of flat_map RunGrun.frame_record dict_get String.eqb
             Ascii.eqb Bool.eqb app map existsb].
        split; [exact Hresp|]. rewrite orb_false_r.
        destruct (Hyes Hsc) as [[Hs Hsucc] | (Hs & Hsucc & _)].
        -- split; [split; auto|]. left. exact Hs.
        -- split; [|right; left; exact Hs].
           rewrite Hs, Hsucc. split; discriminate.
      * (* another frame *)
        destruct (IH _ _ _ H) as (records & Hw & Hrec).
        eexists (_ :: records). split.
        { rewrite Hw. unfold RunGrun.write. cbn [RunGrun.written].
          rewrite Hj, <- app_assoc. reflexivity. }
        intros st st' tc Hcur Heq Hrun Hall.
        destruct (frame_record_step _ _ _ _ _ _ _ Hcur Heq Hall)
          as (tc1 & Hp & Hall1).
        destruct (process_frame_by_should_close _ _ _ Hp)
          as (K1 & K2 & K3 & K4 & Hresp & _ & Hno).
        destruct Hno as (Hs & He & Hsucc); [rewrite Hsc; discriminate|].
        destruct (Hrec (mk_state (acc st) (Some tc1)) st' tc1 eq_refl)
          as (tc' & Hst & Hk & Hr & Hiff & Hend); try assumption;
          [now rewrite K1 | now rewrite Hs|].
        exists tc'. split; [exact Hst|].
        split; [apply (kept_trans _ tc1); [repeat split|]; assumption|].
        cbn [frames_of flat_map RunGrun.frame_record dict_get String.eqb
             Ascii.eqb Bool.eqb app map existsb].
        fold (frames_of records). rewrite Hsucc. cbn [orb].
        split; [rewrite Hr, Hresp, <- app_assoc; reflexivity|].
        split; [exact Hiff|].
        destruct h; [rewrite <- He; exact Hend | exact Hend].
      * (* the test of the frame raises *)
        inversion H; subst. eexists [_]. split.
        { unfold RunGrun.write. cbn [RunGrun.written]. rewrite Hj.
          reflexivity. }
        intros st st' tc Hcur Heq Hrun Hall.
        destruct (frame_record_step _ _ _ _ _ _ _ Hcur Heq Hall)
          as (tc1 & Hp & Hall1).
        inversion Hall1; subst st'.
        destruct (process_frame_by_should_close _ _ _ Hp)
          as (K1 & K2 & K3 & K4 & Hresp & _ & Hno).
        destruct Hno as (Hs & He & Hsucc); [rewrite Hsc; discriminate|].
        exists tc1. split; [reflexivity|].
        split; [repeat split; assumption|].
        cbn [frames_of flat_map RunGrun.frame_record dict_get String.eqb
             Ascii.eqb Bool.eqb app map existsb].
        split; [exact Hresp|]. rewrite Hsucc. cbn [orb].
        repeat split; try discriminate; try congruence.
    + (* the await does not hand back a message *)
      inversion H; subst. exists []. split; [now rewrite app_nil_r|].
      intros st st' tc Hcur Heq Hrun Hall. inversion Hall; subst st'.
      exists tc. destruct st as [a c]. cbn in Hcur. subst c.
      rewrite app_nil_r. repeat split; auto.
      * rewrite Hrun. discriminate.
      * discriminate.
Qed.

Lemma handle_all_split (pre post : list json) (st st' : loop_state) :
  handle_all fromisoformat (pre ++ post) st = Ok st' ->
  exists st1,
    handle_all fromisoformat pre st = Ok st1 /\
    handle_all fromisoformat post st1 = Ok st'.
Proof.
  rewrite handle_all_app. intro H.
  destruct (handle_all fromisoformat pre st) as [st1|]; cbn [Py.bind] in H;
    [eauto | discriminate].
Qed.

(** The closing record, handled while a case is open. *)
Lemma closed_record_step (a : results) (st' : loop_state) (tc : test_case)
    (name : json) (session_id ts : string) :
  handle_all fromisoformat [RunGrun.closed_record name session_id ts]
    (mk_state a (Some tc)) = Ok st' ->
  exists d,
    st' = mk_state
            (mk_results (run_info a)
               (test_cases a
                ++ [set_status (set_duration (set_end_time tc (JStr ts)) d)
                      (closing_status tc)])
               (summary a) (generated_at a))
            None.
Proof.
  intro H. cbn [handle_all] in H.
  rewrite (handle_closed_record _ tc) in H by reflexivity.
  destruct (finalize_test_case fromisoformat (set_end_time tc (JStr ts)))
    as [tc'|] eqn:Hf; cbn [Py.bind] in H; [|discriminate].
  inversion H; subst st'.
  destruct (finalize_returns fromisoformat _ _ Hf) as [d ->].
  exists d. reflexivity.
Qed.

(** The record of a caught exception, handled while a case is open. *)
Lemma error_record_step (a : results) (st' : loop_state) (tc : test_case)
    (name : json) (session_id error ts : string) (rest : list json) :
  handle_all fromisoformat
    (RunGrun.error_record name session_id error ts :: rest)
    (mk_state a (Some tc)) = Ok st' ->
  handle_all fromisoformat rest
    (mk_state a
       (Some (append_error tc
                (JDict [("type", JStr "client_error");
                        ("message", JStr error);
                        ("timestamp", JStr ts)])))) = Ok st'.
Proof.
  intro H. cbn [handle_all] in H.
  rewrite (handle_error_record _ tc) in H by reflexivity.
  exact H.
Qed.

(** The body of the [try] statement, replayed. *)
Lemma exchange_replayed (name : json) (s : RunGrun.session)
    (j j' : RunGrun.journal) (h : option RunGrun.halt) :
  RunGrun.exchange json_loads describe now name s j = (h, j') ->
  exists records,
    RunGrun.written j' = RunGrun.written j ++ records /\
    forall (st st' : loop_state) (tc : test_case),
      current_test_case st = Some tc ->
      py_eq name (ConsumeLogs.name tc) = true ->
      status tc = "running" ->
      errors tc = [] ->
      handle_all fromisoformat records st = Ok st' ->
      exists tc',
        st' = mk_state (acc st) (Some tc') /\
        ConsumeLogs.name tc' = ConsumeLogs.name tc /\
        session_id tc' = session_id tc /\
        start_time tc' = start_time tc /\
        responses tc' = responses tc ++ map response_of (frames_of records) /\
        (status tc' = "success" <->
         existsb is_success (frames_of records) = true) /\
        In (status tc') ["running"; "success"; "error"] /\
        (h = None -> status tc' <> "running" \/ errors tc' <> []).
Proof.
  unfold RunGrun.exchange. intro H.
  assert (Hidle :
    forall st st' tc,
      current_test_case st = Some tc ->
      status tc = "running" ->
      handle_all fromisoformat [] st = Ok st' ->
      exists tc',
        st' = mk_state (acc st) (Some tc') /\
        ConsumeLogs.name tc' = ConsumeLogs.name tc /\
        session_id tc' = session_id tc /\
        start_time tc' = start_time tc /\
        responses tc' = responses tc ++ map response_of (frames_of []) /\
        (status tc' = "success" <-> existsb is_success (frames_of []) = true) /\
        In (status tc') ["running"; "success"; "error"]).
  { intros st st' tc Hcur Hrun Hall. inversion Hall; subst st'.
    exists tc. destruct st as [a c]. cbn in Hcur. subst c.
    cbn [frames_of flat_map map existsb]. rewrite app_nil_r.
    repeat split; auto.
    - rewrite Hrun. discriminate.
    - discriminate.
    - rewrite Hrun. simpl. auto. }
  destruct (RunGrun.connect (RunGrun.socket s)) as [h0|].
  { inversion H; subst. exists []. split; [now rewrite app_nil_r|].
    intros st st' tc Hcur Heq Hrun Herr Hall.
    destruct (Hidle _ _ _ Hcur Hrun Hall) as (tc' & ? & ? & ? & ? & ? & ? & ?).
    exists tc'. repeat split; auto; try tauto. discriminate. }
  destruct (RunGrun.mk_request (RunGrun.case s) (RunGrun.uuid s))
    as [req|e] eqn:Hreq.
  2:{ inversion H; subst. eexists [_]. split; [reflexivity|].
      intros st st' tc Hcur Heq Hrun Herr Hall. cbn [handle_all] in Hall.
      rewrite handle_open_record in Hall. cbn [Py.bind] in Hall.
      destruct (Hidle _ _ _ Hcur Hrun Hall)
        as (tc' & ? & ? & ? & ? & ? & ? & ?).
      exists tc'. repeat split; auto; try tauto. discriminate. }
  destruct (RunGrun.send (RunGrun.socket s)) as [h0|].
  { inversion H; subst. eexists [_]. split; [reflexivity|].
    intros st st' tc Hcur Heq Hrun Herr Hall. cbn [handle_all] in Hall.
    rewrite handle_open_record in Hall. cbn [Py.bind] in Hall.
    destruct (Hidle _ _ _ Hcur Hrun Hall)
      as (tc' & ? & ? & ? & ? & ? & ? & ?).
    exists tc'. repeat split; auto; try tauto. discriminate. }
  match type of H with
  | match ?r with _ => _ end = _ => destruct r as [h1 j1] eqn:Hloop
  end.
  destruct (receive_replayed _ _ _ _ _ _ Hloop) as (records & Hw & Hrec).
  assert (Hj : RunGrun.written j' = RunGrun.written j1)
    by (destruct h1; inversion H; reflexivity).
  eexists (_ :: _ :: records). split.
  { rewrite Hj, Hw. unfold RunGrun.write_at. cbn [RunGrun.written].
    rewrite <- !app_assoc. reflexivity. }
  intros st st' tc Hcur Heq Hrun Herr Hall. cbn [handle_all] in Hall.
  rewrite handle_open_record in Hall. cbn [Py.bind] in Hall.
  destruct (handle_sent_request_record st tc name req (RunGrun.uuid s)
              (now (S (RunGrun.reads j))) Hcur (mk_request_dict _ _ _ Hreq))
    as (snapshot & _ & Hsent).
  cbn [RunGrun.reads] in Hall. rewrite Hsent in Hall. cbn [Py.bind] in Hall.
  destruct (Hrec (mk_state (acc st) (Some (set_request tc snapshot))) st'
              (set_request tc snapshot) eq_refl Heq Hrun Hall)
    as (tc' & Hst & (K1 & K2 & K3 & K4) & Hr & Hiff & Hend).
  exists tc'. split; [exact Hst|].
  cbn [frames_of flat_map RunGrun.open_record RunGrun.sent_request_record
       dict_get String.eqb Ascii.eqb Bool.eqb app].
  fold (frames_of records).
  repeat (split; [assumption|]).
  split.
  { destruct h1 as [h1|].
    - destruct Hend as [-> _]. simpl. auto.
    - destruct Hend as [-> | [-> | [-> _]]]; simpl; auto. }
  intros ->. destruct h1 as [h1|]; [discriminate|].
  destruct Hend as [Hs | [Hs | [_ He]]];
    [left; rewrite Hs; discriminate | left; rewrite Hs; discriminate
    | right; exact He].
Qed.

Lemma closing_status_cases (tc : test_case) :
  In (status tc) ["running"; "success"; "error"] ->
  (closing_status tc = "success" <-> status tc = "success") /\
  In (closing_status tc) ["success"; "error"; "incomplete"] /\
  (closing_status tc = "incomplete" -> status tc = "running" /\ errors tc = []).
Proof.
  unfold closing_status.
  intros [E | [E | [E | []]]]; rewrite <- E; cbn [String.eqb Ascii.eqb Bool.eqb].
  - destruct (errors tc); simpl; repeat split; auto; discriminate.
  - simpl. repeat split; auto; discriminate.
  - simpl. repeat split; auto; discriminate.
Qed.

Lemma getitem_field (o v : json) (k : string) :
  py_getitem o k = Ok v -> field o k = v.
Proof.
  destruct o as [| | | | | |d]; try discriminate. cbn [py_getitem field].
  destruct (dict_get d k); [|discriminate]. now inversion 1.
Qed.

(** One call of [run_case], replayed. *)
Lemma run_case_replayed (s : RunGrun.session) (url : string)
    (j j' : RunGrun.journal) (h : option RunGrun.halt) :
  RunGrun.run_case json_loads describe now s url j = (h, j') ->
  self_equal (name_of s) ->
  exists records,
    RunGrun.written j' = RunGrun.written j ++ records /\
    forall st st' : loop_state,
      handle_all fromisoformat records st = Ok st' ->
      match h with
      | Some (RunGrun.failure _) => st' = st
      | Some RunGrun.pending => acc st' = acc st
      | _ =>
          exists tc,
            st' = mk_state
                    (mk_results (run_info (acc st))
                       (test_cases (acc st) ++ [tc])
                       (summary (acc st)) (generated_at (acc st)))
                    None /\
            ConsumeLogs.name tc = name_of s /\
            session_id tc = JStr (RunGrun.uuid s) /\
            start_time tc = JStr (now (RunGrun.reads j)) /\
            end_time tc = JStr (now (pred (RunGrun.reads j'))) /\
            responses tc = map response_of (frames_of records) /\
            (status tc = "success" <->
             existsb is_success (frames_of records) = true) /\
            In (status tc) ["success"; "error"; "incomplete"] /\
            (status tc = "incomplete" -> h = Some RunGrun.cancelled)
      end.
Proof.
  unfold RunGrun.run_case, self_equal, name_of. intros H Hself.
  destruct (py_getitem (RunGrun.case s) "name") as [name|e] eqn:Hname.
  2:{ inversion H; subst. exists []. split; [now rewrite app_nil_r|].
      intros st st' Hall. now inversion Hall. }
  rewrite (getitem_field _ _ _ Hname) in *.
  match type of H with
  | match ?r with _ => _ end = _ => destruct r as [h1 j1] eqn:Hex
  end.
  destruct (exchange_replayed _ _ _ _ _ Hex) as (records & Hw & Hrec).
  cbn [RunGrun.write_at RunGrun.written] in Hw.
  set (tc0 := mk_test_case name (JStr (RunGrun.uuid s))
                (JStr (now (RunGrun.reads j))) JNull None "running"
                (JDict []) [] (JDict []) [] []).
  assert (Hstart :
    forall tail st st',
      handle_all fromisoformat
        (RunGrun.opening_record name (RunGrun.uuid s) url
           (now (RunGrun.reads j)) :: records ++ tail) st = Ok st' ->
      exists tc',
        handle_all fromisoformat tail (mk_state (acc st) (Some tc')) = Ok st' /\
        ConsumeLogs.name tc' = name /\
        session_id tc' = JStr (RunGrun.uuid s) /\
        start_time tc' = JStr (now (RunGrun.reads j)) /\
        responses tc' = map response_of (frames_of records) /\
        (status tc' = "success" <->
         existsb is_success (frames_of records) = true) /\
        In (status tc') ["running"; "success"; "error"] /\
        (h1 = None -> status tc' <> "running" \/ errors tc' <> [])).
  { intros tail st st' Hall. cbn [handle_all] in Hall.
    rewrite handle_opening_record in Hall. cbn [Py.bind] in Hall.
    fold tc0 in Hall.
    destruct (handle_all_split _ _ _ _ Hall) as (st1 & Hmid & Htail).
    destruct (Hrec (mk_state (acc st) (Some tc0)) st1 tc0 eq_refl Hself
                eq_refl eq_refl Hmid)
      as (tc' & -> & K1 & K2 & K3 & Hr & Hiff & Hin & Hend).
    exists tc'. cbn [acc] in Htail. repeat split; try tauto; assumption. }
  assert (Hframes :
    forall tail,
      frames_of tail = [] ->
      frames_of
        (RunGrun.opening_record name (RunGrun.uuid s) url
           (now (RunGrun.reads j)) :: records ++ tail)
      = frames_of records).
  { intros tail Ht.
    change (frames_of (RunGrun.opening_record name (RunGrun.uuid s) url
                         (now (RunGrun.reads j)) :: records ++ tail))
      with (frames_of (records ++ tail)).
    now rewrite frames_of_app, Ht, app_nil_r. }
  destruct h1 as [[text| |]|].
  - (* an exception, caught and logged *)
    inversion H; subst h j'. clear H.
    eexists (_ :: records ++ [_; _]). split.
    { cbn [RunGrun.write_at RunGrun.written]. rewrite Hw.
      rewrite <- !app_assoc. reflexivity. }
    intros st st' Hall.
    destruct (Hstart _ _ _ Hall)
      as (tc' & Htail & K1 & K2 & K3 & Hr & Hiff & Hin & _).
    apply error_record_step in Htail.
    destruct (closed_record_step _ _ _ _ _ _ Htail) as [d ->].
    eexists. split; [reflexivity|].
    rewrite Hframes by reflexivity.
    cbn [ConsumeLogs.name session_id start_time end_time responses status
         set_status set_duration set_end_time append_error RunGrun.reads
         RunGrun.write_at pred acc].
    repeat (split; [assumption || reflexivity|]).
    match goal with
    | |- context [closing_status ?x] =>
        destruct (closing_status_cases x Hin) as (C1 & C2 & C3)
    end.
    split; [rewrite C1; exact Hiff|]. split; [exact C2|].
    intro Hinc. destruct (C3 Hinc) as [_ Hnil]. cbn [errors append_error] in Hnil.
    apply app_eq_nil in Hnil. destruct Hnil. discriminate.
  - (* a cancellation *)
    inversion H; subst h j'. clear H.
    eexists (_ :: records ++ [_]). split.
    { cbn [RunGrun.write_at RunGrun.written]. rewrite Hw.
      rewrite <- !app_assoc. reflexivity. }
    intros st st' Hall.
    destruct (Hstart _ _ _ Hall)
      as (tc' & Htail & K1 & K2 & K3 & Hr & Hiff & Hin & _).
    destruct (closed_record_step _ _ _ _ _ _ Htail) as [d ->].
    eexists. split; [reflexivity|].
    rewrite Hframes by reflexivity.
    cbn [ConsumeLogs.name session_id start_time end_time responses status
         set_status set_duration set_end_time append_error RunGrun.reads
         RunGrun.write_at pred acc].
    repeat (split; [assumption || reflexivity|]).
    destruct (closing_status_cases tc' Hin) as (C1 & C2 & C3).
    split; [rewrite C1; exact Hiff|]. split; [exact C2 | reflexivity].
  - (* still waiting *)
    inversion H; subst h j'. clear H.
    exists (RunGrun.opening_record name (RunGrun.uuid s) url
              (now (RunGrun.reads j)) :: records).
    split; [rewrite Hw, <- app_assoc; reflexivity|].
    intros st st' Hall. rewrite <- (app_nil_r records) in Hall.
    destruct (Hstart _ _ _ Hall) as (tc' & Htail & _).
    inversion Htail. reflexivity.
  - (* the block is left in order *)
    inversion H; subst h j'. clear H.
    eexists (_ :: records ++ [_]). split.
    { cbn [RunGrun.write_at RunGrun.written]. rewrite Hw.
      rewrite <- !app_assoc. reflexivity. }
    intros st st' Hall.
    destruct (Hstart _ _ _ Hall)
      as (tc' & Htail & K1 & K2 & K3 & Hr & Hiff & Hin & Hend).
    destruct (closed_record_step _ _ _ _ _ _ Htail) as [d ->].
    eexists. split; [reflexivity|].
    rewrite Hframes by reflexivity.
    cbn [ConsumeLogs.name session_id start_time end_time responses status
         set_status set_duration set_end_time append_error RunGrun.reads
         RunGrun.write_at pred acc].
    repeat (split; [assumption || reflexivity|]).
    destruct (closing_status_cases tc' Hin) as (C1 & C2 & C3).
    split; [rewrite C1; exact Hiff|]. split; [exact C2|].
    intro Hinc. destruct (C3 Hinc) as [Hrun Hnil].
    destruct (Hend eq_refl); contradiction.
Qed.

(** X17. One call of [run_case] that has closed its session, whether it
    returned or was cancelled, gives the reconstructor exactly one more test
    case, whatever was reconstructed before: the case has the name and the
    session identifier of the call, the first and the last clock reading of
    the call for its start and end time, and one response for each frame
    logged, in order.  Its status is success exactly when a frame with
    status success was logged, and it is incomplete only if the call was
    cancelled.  The name of the test case must equal itself. *)
Theorem runner_session_is_one_case
    (s : RunGrun.session) (url : string) (j j' : RunGrun.journal)
    (h : option RunGrun.halt) (records : list json) (lines : list string)
    (st st' : loop_state) :
  RunGrun.run_case json_loads describe now s url j = (h, j') ->
  h = None \/ h = Some RunGrun.cancelled ->
  self_equal (name_of s) ->
  RunGrun.written j' = RunGrun.written j ++ records ->
  decode_to json_loads lines records ->
  run_lines json_loads fromisoformat lines st = Ok st' ->
  exists tc,
    test_cases (acc st') = test_cases (acc st) ++ [tc] /\
    current_test_case st' = None /\
    ConsumeLogs.name tc = name_of s /\
    session_id tc = JStr (RunGrun.uuid s) /\
    start_time tc = JStr (now (RunGrun.reads j)) /\
    end_time tc = JStr (now (pred (RunGrun.reads j'))) /\
    responses tc = map response_of (frames_of records) /\
    (status tc = "success" <->
     existsb is_success (frames_of records) = true) /\
    (status tc = "incomplete" -> h = Some RunGrun.cancelled).
Proof.
  intros Hrun Hh Hself Hw Hdec Hlines.
  destruct (run_case_replayed _ _ _ _ _ Hrun Hself) as (records0 & Hw0 & Hrec).
  assert (records0 = records)
    by (apply (app_inv_head (RunGrun.written j)); congruence).
  subst records0.
  rewrite (run_decoded _ _ _ Hdec) in Hlines.
  specialize (Hrec _ _ Hlines).
  destruct Hh as [-> | ->];
    destruct Hrec as (tc & -> & K1 & K2 & K3 & K4 & K5 & K6 & _ & K8);
    exists tc; repeat split; try assumption; try apply K6.
Qed.

(** The [for] loop of [main_async], replayed. *)
Lemma run_cases_replayed (sessions : list RunGrun.session) (url : string) :
  forall (j j' : RunGrun.journal) (h : option RunGrun.halt),
    RunGrun.run_cases json_loads describe now sessions url j = (h, j') ->
    Forall (fun s => self_equal (name_of s)) sessions ->
    exists records,
      RunGrun.written j' = RunGrun.written j ++ records /\
      forall st st' : loop_state,
        handle_all fromisoformat records st = Ok st' ->
        exists (closed : list test_case) (done rest : list RunGrun.session),
          test_cases (acc st') = test_cases (acc st) ++ closed /\
          run_info (acc st') = run_info (acc st) /\
          sessions = done ++ rest /\
          (h = None -> rest = []) /\
          Forall2
            (fun s tc =>
               ConsumeLogs.name tc = name_of s /\
               session_id tc = JStr (RunGrun.uuid s))
            done closed /\
          Forall
            (fun tc =>
               status tc = "success" \/ status tc = "error" \/
               (status tc = "incomplete" /\ h = Some RunGrun.cancelled))
            closed.
Proof.
  induction sessions as [|s sessions IH]; intros j j' h H Hself.
  - inversion H; subst. exists []. split; [now rewrite app_nil_r|].
    intros st st' Hall. inversion Hall; subst st'.
    exists [], [], []. rewrite app_nil_r. repeat split; auto.
  - cbn [RunGrun.run_cases] in H.
    destruct (RunGrun.run_case json_loads describe now s url j)
      as [h1 j1] eqn:Hcase.
    inversion Hself as [|? ? Hs Hrest]; subst.
    destruct (run_case_replayed _ _ _ _ _ Hcase Hs) as (records1 & Hw1 & Hrec1).
    destruct h1 as [[text| |]|].
    + inversion H; subst. exists records1. split; [exact Hw1|].
      intros st st' Hall. rewrite (Hrec1 _ _ Hall).
      exists [], [], (s :: sessions). rewrite app_nil_r.
      repeat split; auto. discriminate.
    + inversion H; subst. exists records1. split; [exact Hw1|].
      intros st st' Hall.
      destruct (Hrec1 _ _ Hall) as (tc & -> & K1 & K2 & _ & _ & _ & _ & K7 & _).
      exists [tc], [s], sessions. cbn [acc test_cases run_info].
      repeat split; auto; try discriminate.
      constructor; [|constructor].
      destruct K7 as [E | [E | [E | []]]]; auto.
    + inversion H; subst. exists records1. split; [exact Hw1|].
      intros st st' Hall. rewrite (Hrec1 _ _ Hall).
      exists [], [], (s :: sessions). rewrite app_nil_r.
      repeat split; auto. discriminate.
    + destruct (IH _ _ _ H Hrest) as (records2 & Hw2 & Hrec2).
      exists (records1 ++ records2). split.
      { rewrite Hw2, Hw1, app_assoc. reflexivity. }
      intros st st' Hall.
      destruct (handle_all_split _ _ _ _ Hall) as (st1 & Hall1 & Hall2).
      destruct (Hrec1 _ _ Hall1)
        as (tc & -> & K1 & K2 & _ & _ & _ & _ & K7 & K8).
      destruct (Hrec2 _ _ Hall2)
        as (closed & done & rest & Hc & Hi & Hs2 & Hr & Hf2 & Hst).
      cbn [acc test_cases run_info] in Hc, Hi.
      exists (tc :: closed), (s :: done), rest.
      rewrite Hc, Hi, Hs2, <- app_assoc. repeat split; auto.
      constructor; [|exact Hst].
      destruct K7 as [E | [E | [E | []]]]; auto.
      symmetry in E. specialize (K8 E). discriminate.
Qed.

(** X18. A log written by [main_async]: when the reconstructor returns on
    it, the run information is that of the header, and the test cases are,
    in order, one for each session of an initial part of the run, each with
    the name and the session identifier of its session; of the whole run
    when [main_async] returned.  Every case is a success or an error, except that
    the case of a cancelled session may be incomplete.  The names of the
    test cases must equal themselves. *)
Theorem runner_log_is_reconstructed
    (host : string) (port : Z) (endpoint_id : string)
    (sessions : list RunGrun.session) (h : option RunGrun.halt)
    (j : RunGrun.journal) (lines : list string) (r : results) :
  RunGrun.main_async json_loads describe now host port endpoint_id sessions
  = (h, j) ->
  Forall (fun s => self_equal (name_of s)) sessions ->
  decode_to json_loads lines (RunGrun.written j) ->
  parse_log_file json_loads fromisoformat lines = Ok r ->
  run_info r
  = JDict [("timestamp", JStr (now 0)); ("endpoint_id", JStr endpoint_id);
           ("websocket_url",
            JStr (RunGrun.ws_url host port endpoint_id))] /\
  exists done rest,
    sessions = done ++ rest /\
    (h = None -> rest = []) /\
    Forall2
      (fun s tc =>
         ConsumeLogs.name tc = name_of s /\
         session_id tc = JStr (RunGrun.uuid s))
      done (test_cases r) /\
    Forall
      (fun tc =>
         status tc = "success" \/ status tc = "error" \/
         (status tc = "incomplete" /\ h = Some RunGrun.cancelled))
      (test_cases r).
Proof.
  unfold RunGrun.main_async, parse_log_file. intros Hmain Hself Hdec Hparse.
  destruct (run_cases_replayed _ _ _ _ _ Hmain Hself) as (records & Hw & Hrec).
  cbn [RunGrun.written RunGrun.write_at RunGrun.empty_journal RunGrun.reads
       app] in Hw.
  rewrite Hw in Hdec.
  rewrite (run_decoded _ _ _ Hdec) in Hparse.
  cbn [handle_all] in Hparse. rewrite handle_header_record in Hparse.
  cbn [Py.bind] in Hparse.
  match type of Hparse with
  | Py.bind ?m _ = _ => destruct m as [st'|] eqn:Hall
  end; cbn [Py.bind] in Hparse; [|discriminate].
  inversion Hparse; subst r.
  destruct (Hrec _ _ Hall) as (closed & done & rest & Hc & Hi & Hs & Hr & Hf & Hst).
  cbn in Hc, Hi. rewrite Hc, Hi.
  split; [reflexivity|]. exists done, rest. auto.
Qed.

(** *** The shape of the log *)

Lemma read_text_written (raw : string) (j j1 : RunGrun.journal)
    (payload : result json) :
  RunGrun.read_text json_loads now raw j = (payload, j1) ->
  RunGrun.written j1 = RunGrun.written j.
Proof.
  unfold RunGrun.read_text. intro H.
  destruct (json_loads raw) as [[| | | | | |d]|e0];
    try (inversion H; reflexivity).
  destruct (isinstance e0 JSONDecodeError); inversion H; reflexivity.
Qed.

Lemma receive_logged (name : json) (session_id : string)
    (inbox : list RunGrun.received) :
  forall (j j' : RunGrun.journal) (h : option RunGrun.halt),
    RunGrun.receive json_loads describe now name session_id inbox j = (h, j') ->
    exists records,
      RunGrun.written j' = RunGrun.written j ++ records /\
      Forall (logged now name session_id) records.
Proof.
  induction inbox as [|message inbox IH]; intros j j' h H.
  - inversion H; subst. exists []. split; [now rewrite app_nil_r | constructor].
  - destruct message as [|raw_b64|raw|h0].
    + inversion H; subst. eexists [_]. split; [reflexivity|].
      constructor; [apply logged_timeout | constructor].
    + cbn [RunGrun.receive] in H.
      destruct (IH _ _ _ H) as (records & Hw & Hl).
      eexists (_ :: records). split.
      { rewrite Hw. cbn [RunGrun.write_at RunGrun.written].
        rewrite <- app_assoc. reflexivity. }
      constructor; [apply logged_frame | exact Hl].
    + cbn [RunGrun.receive] in H.
      destruct (RunGrun.read_text json_loads now raw j) as [[payload|e] j1]
        eqn:Hread; pose proof (read_text_written _ _ _ _ Hread) as Hj.
      2:{ inversion H; subst. exists [].
          split; [now rewrite Hj, app_nil_r | constructor]. }
      destruct (RunGrun.should_close payload) as [[|]|e].
      * inversion H; subst. eexists [_]. split.
        { cbn [RunGrun.write RunGrun.written]. rewrite Hj. reflexivity. }
        constructor; [apply logged_frame | constructor].
      * destruct (IH _ _ _ H) as (records & Hw & Hl).
        eexists (_ :: records). split.
        { rewrite Hw. cbn [RunGrun.write RunGrun.written].
          rewrite Hj, <- app_assoc. reflexivity. }
        constructor; [apply logged_frame | exact Hl].
      * inversion H; subst. eexists [_]. split.
        { cbn [RunGrun.write RunGrun.written]. rewrite Hj. reflexivity. }
        constructor; [apply logged_frame | constructor].
    + inversion H; subst. exists [].
      split; [now rewrite app_nil_r | constructor].
Qed.

Lemma exchange_logged (name : json) (s : RunGrun.session)
    (j j' : RunGrun.journal) (h : option RunGrun.halt) :
  RunGrun.exchange json_loads describe now name s j = (h, j') ->
  exists records,
    RunGrun.written j' = RunGrun.written j ++ records /\
    Forall (logged now name (RunGrun.uuid s)) records.
Proof.
  unfold RunGrun.exchange. intro H.
  destruct (RunGrun.connect (RunGrun.socket s)) as [h0|].
  { inversion H; subst. exists [].
    split; [now rewrite app_nil_r | constructor]. }
  destruct (RunGrun.mk_request (RunGrun.case s) (RunGrun.uuid s))
    as [req|e] eqn:Hreq.
  2:{ inversion H; subst. eexists [_]. split; [reflexivity|].
      constructor; [apply logged_open | constructor]. }
  destruct (RunGrun.send (RunGrun.socket s)) as [h0|].
  { inversion H; subst. eexists [_]. split; [reflexivity|].
    constructor; [apply logged_open | constructor]. }
  match type of H with
  | match ?r with _ => _ end = _ => destruct r as [h1 j1] eqn:Hloop
  end.
  destruct (receive_logged _ _ _ _ _ _ Hloop) as (records & Hw & Hl).
  assert (Hj : RunGrun.written j' = RunGrun.written j1)
    by (destruct h1; inversion H; reflexivity).
  eexists (_ :: _ :: records). split.
  { rewrite Hj, Hw. cbn [RunGrun.write_at RunGrun.written].
    rewrite <- !app_assoc. reflexivity. }
  constructor; [apply logged_open|].
  constructor; [|exact Hl].
  apply logged_sent. exact (mk_request_dict _ _ _ Hreq).
Qed.

(** X19. A call of [run_case] that returned or was cancelled has added to
    the log one block: the record of the opening first, the record of the
    closing last, both with the name and the session identifier of the call
    and with the first and the last clock reading of the call, and between
    them only records of the five other kinds, with the same name and
    identifier.  The closing record is there also when the connection
    fails, and when the call is cancelled. *)
Theorem runner_closes_every_session
    (s : RunGrun.session) (url : string) (j j' : RunGrun.journal)
    (h : option RunGrun.halt) :
  RunGrun.run_case json_loads describe now s url j = (h, j') ->
  h = None \/ h = Some RunGrun.cancelled ->
  exists middle,
    RunGrun.written j'
    = RunGrun.written j
      ++ RunGrun.opening_record (name_of s) (RunGrun.uuid s) url
           (now (RunGrun.reads j))
         :: middle
      ++ [RunGrun.closed_record (name_of s) (RunGrun.uuid s)
            (now (pred (RunGrun.reads j')))] /\
    Forall (logged now (name_of s) (RunGrun.uuid s)) middle.
Proof.
  unfold RunGrun.run_case, name_of. intros H Hh.
  destruct (py_getitem (RunGrun.case s) "name") as [name|e] eqn:Hname.
  2:{ inversion H; subst. destruct Hh; discriminate. }
  rewrite (getitem_field _ _ _ Hname).
  match type of H with
  | match ?r with _ => _ end = _ => destruct r as [h1 j1] eqn:Hex
  end.
  destruct (exchange_logged _ _ _ _ _ Hex) as (records & Hw & Hl).
  cbn [RunGrun.write_at RunGrun.written] in Hw.
  destruct h1 as [[text| |]|]; inversion H; subst h j'; clear H.
  - eexists (records ++ [_]). split.
    + cbn [RunGrun.write_at RunGrun.written RunGrun.reads pred]. rewrite Hw.
      rewrite <- !app_assoc. reflexivity.
    + apply Forall_app. split; [exact Hl|].
      constructor; [apply logged_error | constructor].
  - exists records. split; [|exact Hl].
    cbn [RunGrun.write_at RunGrun.written RunGrun.reads pred]. rewrite Hw.
    rewrite <- !app_assoc. reflexivity.
  - destruct Hh; discriminate.
  - exists records. split; [|exact Hl].
    cbn [RunGrun.write_at RunGrun.written RunGrun.reads pred]. rewrite Hw.
    rewrite <- !app_assoc. reflexivity.
Qed.

(** *** When the reconstructor can read the log *)

Lemma process_frame_well_typed (tc tc' : test_case) (payload : json) :
  process_frame_data tc payload = Ok tc' -> well_typed_frame payload = true.
Proof.
  destruct payload as [| | | | | |d]; try discriminate.
  unfold well_typed_frame, field, process_frame_data.
  cbn [py_get Py.bind].
  destruct (eq_str _ "progress") eqn:E1.
  { apply eq_str_true in E1. rewrite E1. reflexivity. }
  destruct (eq_str _ "success") eqn:E2; [|reflexivity].
  cbn [negb orb]. unfold extract_success_data. cbn [py_get Py.bind].
  destruct (dict_get d "data") as [[| | | | | |dd]|]; try discriminate;
    reflexivity.
Qed.

Lemma logged_replayed (name : json) (session_id : string)
    (middle : list json) :
  Forall (logged now name session_id) middle ->
  forall (st st' : loop_state) (tc : test_case),
    current_test_case st = Some tc ->
    py_eq name (ConsumeLogs.name tc) = true ->
    handle_all fromisoformat middle st = Ok st' ->
    Forall (fun frame => well_typed_frame frame = true) (frames_of middle).
Proof.
  induction 1 as [|record middle Hl _ IH]; intros st st' tc Hcur Heq Hall;
    [constructor|].
  destruct Hl as [n | req n Hreq | payload | n | text n].
  - cbn [handle_all] in Hall. rewrite handle_open_record in Hall.
    exact (IH _ _ _ Hcur Heq Hall).
  - cbn [handle_all] in Hall.
    destruct (handle_sent_request_record st tc name req session_id (now n)
                Hcur Hreq) as (snapshot & _ & Hsent).
    rewrite Hsent in Hall. cbn [Py.bind] in Hall.
    eapply IH; [| |exact Hall]; [reflexivity | exact Heq].
  - destruct (frame_record_step _ _ _ _ _ _ _ Hcur Heq Hall)
      as (tc1 & Hp & Hall1).
    change (frames_of (RunGrun.frame_record name session_id payload :: middle))
      with (payload :: frames_of middle).
    constructor; [exact (process_frame_well_typed _ _ _ Hp)|].
    destruct (process_frame_by_should_close _ _ _ Hp) as (K1 & _).
    eapply IH; [| |exact Hall1]; [reflexivity | now rewrite K1].
  - cbn [handle_all] in Hall.
    rewrite (handle_timeout_record _ _ _ _ _ Hcur) in Hall.
    cbn [Py.bind] in Hall.
    eapply IH; [| |exact Hall]; [reflexivity | exact Heq].
  - cbn [handle_all] in Hall.
    rewrite (handle_error_record _ _ _ _ _ _ Hcur) in Hall.
    cbn [Py.bind] in Hall.
    eapply IH; [| |exact Hall]; [reflexivity | exact Heq].
Qed.

(** The log of one call of [run_case], whatever its end. *)
Lemma run_case_logged (s : RunGrun.session) (url : string)
    (j j' : RunGrun.journal) (h : option RunGrun.halt) :
  RunGrun.run_case json_loads describe now s url j = (h, j') ->
  RunGrun.written j' = RunGrun.written j \/
  exists middle tail,
    RunGrun.written j'
    = RunGrun.written j
      ++ RunGrun.opening_record (name_of s) (RunGrun.uuid s) url
           (now (RunGrun.reads j))
         :: middle ++ tail /\
    Forall (logged now (name_of s) (RunGrun.uuid s)) middle /\
    (tail = [] \/
     exists n,
       tail = [RunGrun.closed_record (name_of s) (RunGrun.uuid s) (now n)]).
Proof.
  unfold RunGrun.run_case, name_of. intro H.
  destruct (py_getitem (RunGrun.case s) "name") as [name|e] eqn:Hname.
  2:{ inversion H; subst. left. reflexivity. }
  right. rewrite (getitem_field _ _ _ Hname).
  match type of H with
  | match ?r with _ => _ end = _ => destruct r as [h1 j1] eqn:Hex
  end.
  destruct (exchange_logged _ _ _ _ _ Hex) as (records & Hw & Hl).
  cbn [RunGrun.write_at RunGrun.written] in Hw.
  destruct h1 as [[text| |]|]; inversion H; subst h j'; clear H.
  - eexists (records ++ [_]), [_]. split; [|split].
    + cbn [RunGrun.write_at RunGrun.written]. rewrite Hw.
      rewrite <- !app_assoc. reflexivity.
    + apply Forall_app. split; [exact Hl|].
      constructor; [apply logged_error | constructor].
    + right. eexists. reflexivity.
  - eexists records, [_]. split; [|split; [exact Hl|]].
    + cbn [RunGrun.write_at RunGrun.written]. rewrite Hw.
      rewrite <- !app_assoc. reflexivity.
    + right. eexists. reflexivity.
  - exists records, []. split; [|split; [exact Hl | left; reflexivity]].
    rewrite Hw, app_nil_r, <- app_assoc. reflexivity.
  - eexists records, [_]. split; [|split; [exact Hl|]].
    + cbn [RunGrun.write_at RunGrun.written]. rewrite Hw.
      rewrite <- !app_assoc. reflexivity.
    + right. eexists. reflexivity.
Qed.

Lemma run_case_frames_typed (s : RunGrun.session) (url : string)
    (j j' : RunGrun.journal) (h : option RunGrun.halt) (records : list json)
    (st st' : loop_state) :
  RunGrun.run_case json_loads describe now s url j = (h, j') ->
  self_equal (name_of s) ->
  RunGrun.written j' = RunGrun.written j ++ records ->
  handle_all fromisoformat records st = Ok st' ->
  Forall (fun frame => well_typed_frame frame = true) (frames_of records).
Proof.
  intros H Hself Hrec Hall.
  destruct (run_case_logged _ _ _ _ _ H)
    as [Hw | (middle & tail & Hw & Hl & Htail)].
  - assert (records = []).
    { apply (app_inv_head (RunGrun.written j)). rewrite app_nil_r. congruence. }
    subst records. constructor.
  - rewrite Hw in Hrec. apply app_inv_head in Hrec. subst records.
    cbn [handle_all] in Hall. rewrite handle_opening_record in Hall.
    cbn [Py.bind] in Hall.
    destruct (handle_all_split _ _ _ _ Hall) as (st1 & Hmid & _).
    change (frames_of (RunGrun.opening_record (name_of s) (RunGrun.uuid s) url
                         (now (RunGrun.reads j)) :: middle ++ tail))
      with (frames_of (middle ++ tail)).
    rewrite frames_of_app.
    assert (Ht : frames_of tail = [])
      by (destruct Htail as [-> | [n ->]]; reflexivity).
    rewrite Ht, app_nil_r.
    eapply (logged_replayed _ _ _ Hl); [| |exact Hmid];
      [reflexivity | exact Hself].
Qed.

Section Clock.

(** The readings of the clock are timestamps with an offset, as [ts()]
    formats them. *)
Hypothesis clock :
  forall n, offset_ts fromisoformat (JStr (now n)) = true.

Lemma logged_well_typed (name : json) (session_id : string)
    (middle : list json) :
  Forall (logged now name session_id) middle ->
  Forall (fun frame => well_typed_frame frame = true) (frames_of middle) ->
  Forall (fun entry => well_typed_entry fromisoformat entry = true) middle.
Proof.
  induction 1 as [|record middle Hl _ IH]; intro Hf; [constructor|].
  change (record :: middle) with ([record] ++ middle) in Hf.
  rewrite frames_of_app in Hf. apply Forall_app in Hf. destruct Hf as [Hr Hm].
  constructor; [|exact (IH Hm)].
  destruct Hl as [n | req n Hreq | payload | n | text n];
    cbn [well_typed_entry RunGrun.open_record RunGrun.sent_request_record
         RunGrun.frame_record RunGrun.timeout_record RunGrun.error_record
         field dict_get String.eqb Ascii.eqb Bool.eqb absent_or_dict andb];
    rewrite ?clock; try reflexivity.
  - rewrite Hreq. reflexivity.
  - inversion Hr; subst. cbn [offset_ts andb]. assumption.
Qed.

Lemma run_case_entries_typed (s : RunGrun.session) (url : string)
    (j j' : RunGrun.journal) (h : option RunGrun.halt) (records : list json) :
  RunGrun.run_case json_loads describe now s url j = (h, j') ->
  RunGrun.written j' = RunGrun.written j ++ records ->
  Forall (fun frame => well_typed_frame frame = true) (frames_of records) ->
  Forall (fun entry => well_typed_entry fromisoformat entry = true) records.
Proof.
  intros H Hrec Hf.
  destruct (run_case_logged _ _ _ _ _ H)
    as [Hw | (middle & tail & Hw & Hl & Htail)].
  - assert (records = []).
    { apply (app_inv_head (RunGrun.written j)). rewrite app_nil_r. congruence. }
    subst records. constructor.
  - rewrite Hw in Hrec. apply app_inv_head in Hrec. subst records.
    change (frames_of (RunGrun.opening_record (name_of s) (RunGrun.uuid s) url
                         (now (RunGrun.reads j)) :: middle ++ tail))
      with (frames_of (middle ++ tail)) in Hf.
    rewrite frames_of_app in Hf. apply Forall_app in Hf.
    destruct Hf as [Hm _].
    constructor.
    + cbn [well_typed_entry RunGrun.opening_record field dict_get String.eqb
           Ascii.eqb Bool.eqb absent_or_dict andb].
      rewrite clock. reflexivity.
    + apply Forall_app. split; [exact (logged_well_typed _ _ _ Hl Hm)|].
      destruct Htail as [-> | [n ->]]; [constructor|].
      constructor; [|constructor].
      cbn [well_typed_entry RunGrun.closed_record field dict_get String.eqb
           Ascii.eqb Bool.eqb absent_or_dict andb].
      rewrite clock. reflexivity.
Qed.

Lemma run_case_written (s : RunGrun.session) (url : string)
    (j j' : RunGrun.journal) (h : option RunGrun.halt) :
  RunGrun.run_case json_loads describe now s url j = (h, j') ->
  exists records, RunGrun.written j' = RunGrun.written j ++ records.
Proof.
  intro H.
  destruct (run_case_logged _ _ _ _ _ H) as [Hw | (middle & tail & Hw & _)].
  - exists []. now rewrite app_nil_r.
  - eexists. exact Hw.
Qed.

Lemma run_cases_typed (sessions : list RunGrun.session) (url : string) :
  forall (j j' : RunGrun.journal) (h : option RunGrun.halt),
    RunGrun.run_cases json_loads describe now sessions url j = (h, j') ->
    Forall (fun s => self_equal (name_of s)) sessions ->
    exists records,
      RunGrun.written j' = RunGrun.written j ++ records /\
      (forall st st' : loop_state,
         handle_all fromisoformat records st = Ok st' ->
         Forall (fun frame => well_typed_frame frame = true)
           (frames_of records)) /\
      (Forall (fun frame => well_typed_frame frame = true)
         (frames_of records) ->
       Forall (fun entry => well_typed_entry fromisoformat entry = true)
         records).
Proof.
  induction sessions as [|s sessions IH]; intros j j' h H Hself.
  - inversion H; subst. exists [].
    split; [now rewrite app_nil_r|]. split; intros; constructor.
  - cbn [RunGrun.run_cases] in H.
    destruct (RunGrun.run_case json_loads describe now s url j)
      as [h1 j1] eqn:Hcase.
    inversion Hself as [|? ? Hs Hrest]; subst.
    destruct (run_case_written _ _ _ _ _ Hcase) as (records1 & Hw1).
    pose proof (fun st st' =>
                  run_case_frames_typed _ _ _ _ _ _ st st' Hcase Hs Hw1) as Ht1.
    pose proof (run_case_entries_typed _ _ _ _ _ _ Hcase Hw1) as He1.
    destruct h1 as [h1|].
    + inversion H; subst. exists records1. auto.
    + destruct (IH _ _ _ H Hrest) as (records2 & Hw2 & Ht2 & He2).
      exists (records1 ++ records2). split; [|split].
      * rewrite Hw2, Hw1, app_assoc. reflexivity.
      * intros st st' Hall.
        destruct (handle_all_split _ _ _ _ Hall) as (st1 & Hall1 & Hall2).
        rewrite frames_of_app. apply Forall_app. split; eauto.
      * rewrite frames_of_app. intro Hf. apply Forall_app in Hf.
        destruct Hf. apply Forall_app. split; auto.
Qed.

Lemma handle_all_well_typed (entries : list json) :
  Forall (fun entry => well_typed_entry fromisoformat entry = true) entries ->
  forall st : loop_state,
    (forall tc,
       current_test_case st = Some tc ->
       offset_ts fromisoformat (start_time tc) = true) ->
    exists st', handle_all fromisoformat entries st = Ok st'.
Proof.
  induction 1 as [|entry entries He _ IH]; intros st Hst.
  - eexists. reflexivity.
  - cbn [handle_all].
    destruct (handle_well_typed fromisoformat st entry He Hst)
      as [st1 [Hh Hst1]].
    rewrite Hh. cbn [Py.bind]. exact (IH st1 Hst1).
Qed.

(** X20. A log written by [main_async], with a clock whose readings are
    timestamps with an offset: the reconstructor returns a result on it if
    and only if every frame in it is an object that, when its status is
    success, has an object or nothing for its data.  So a text message of
    the server that is JSON but not an object, or a success whose data is
    null, which the runner logs as it comes, leaves a log the reconstructor
    cannot read.  The names of the test cases must equal themselves. *)
Theorem runner_log_is_readable
    (host : string) (port : Z) (endpoint_id : string)
    (sessions : list RunGrun.session) (h : option RunGrun.halt)
    (j : RunGrun.journal) (lines : list string) :
  RunGrun.main_async json_loads describe now host port endpoint_id sessions
  = (h, j) ->
  Forall (fun s => self_equal (name_of s)) sessions ->
  decode_to json_loads lines (RunGrun.written j) ->
  ((exists r, parse_log_file json_loads fromisoformat lines = Ok r) <->
   Forall (fun frame => well_typed_frame frame = true)
     (frames_of (RunGrun.written j))).
Proof.
  unfold RunGrun.main_async, parse_log_file. intros Hmain Hself Hdec.
  destruct (run_cases_typed _ _ _ _ _ Hmain Hself) as (records & Hw & Ht & He).
  cbn [RunGrun.written RunGrun.write_at RunGrun.empty_journal RunGrun.reads
       app] in Hw.
  rewrite Hw in *.
  rewrite (run_decoded _ _ _ Hdec).
  change (frames_of (RunGrun.header_record (now 0) endpoint_id
                       (RunGrun.ws_url host port endpoint_id) :: records))
    with (frames_of records).
  cbn [handle_all]. rewrite handle_header_record. cbn [Py.bind].
  split.
  - intros [r Hr].
    match type of Hr with
    | Py.bind ?m _ = _ => destruct m as [st'|] eqn:Hall
    end; cbn [Py.bind] in Hr; [|discriminate].
    exact (Ht _ _ Hall).
  - intro Hf.
    destruct (handle_all_well_typed _ (He Hf)
                (set_run_info initial_state
                   (JDict [("timestamp", JStr (now 0));
                           ("endpoint_id", JStr endpoint_id);
                           ("websocket_url",
                            JStr (RunGrun.ws_url host port endpoint_id))])))
      as [st' Hall]; [intros tc Htc; discriminate|].
    rewrite Hall. cbn [Py.bind]. eauto.
Qed.

End Clock.

End RunnerLog.

(** ** The theorems on the runner at concrete inputs *)

Lemma runner_session_is_one_case_witness :
  exists st' tc,
    run_lines JsonText.loads Datetime.iso8601 Logs.cpu_lines initial_state
    = Ok st' /\
    test_cases (acc st') = [tc] /\
    current_test_case st' = None /\
    ConsumeLogs.name tc = JStr "cpu" /\
    session_id tc = JStr "u1" /\
    List.length (responses tc) = 4 /\
    status tc = "success".
Proof.
  eexists.
  edestruct (runner_session_is_one_case JsonText.loads Datetime.iso8601
               Logs.describe Logs.clock Logs.cpu_session
               (RunGrun.ws_url "localhost" 9999 "default") Logs.after_header
               (snd (RunGrun.run_case JsonText.loads Logs.describe Logs.clock
                       Logs.cpu_session
                       (RunGrun.ws_url "localhost" 9999 "default")
                       Logs.after_header))
               None
               (skipn 1
                  (RunGrun.written
                     (snd (RunGrun.run_case JsonText.loads Logs.describe
                             Logs.clock Logs.cpu_session
                             (RunGrun.ws_url "localhost" 9999 "default")
                             Logs.after_header))))
               Logs.cpu_lines initial_state)
    as (tc & H1 & H2 & H3 & H4 & _ & _ & H7 & H8 & _).
  - vm_compute. reflexivity.
  - left. reflexivity.
  - vm_compute. reflexivity.
  - vm_compute. reflexivity.
  - apply decode_to_map. vm_compute. reflexivity.
  - vm_compute. reflexivity.
  - exists tc. split; [vm_compute; reflexivity|]. split; [exact H1|].
    split; [exact H2|].
    split; [exact H3|]. split; [exact H4|].
    split; [rewrite H7; vm_compute; reflexivity|].
    apply H8. vm_compute. reflexivity.
Defined.

Lemma runner_log_is_reconstructed_witness :
  exists r,
    Runs.parse Logs.runner_lines = Ok r /\
    map status (test_cases r) = ["success"; "error"] /\
    run_info r
    = JDict [("timestamp", JStr (Logs.clock 0));
             ("endpoint_id", JStr "default");
             ("websocket_url",
              JStr (RunGrun.ws_url "localhost" 9999 "default"))] /\
    exists done rest,
      [Logs.cpu_session; Logs.refused_session] = done ++ rest /\
      (@None RunGrun.halt = None -> rest = []) /\
      Forall2
        (fun s tc =>
           ConsumeLogs.name tc = name_of s /\
           session_id tc = JStr (RunGrun.uuid s))
        done (test_cases r) /\
      Forall
        (fun tc =>
           status tc = "success" \/ status tc = "error" \/
           (status tc = "incomplete" /\
            @None RunGrun.halt = Some RunGrun.cancelled))
        (test_cases r).
Proof.
  unfold Runs.parse. eexists. split; [vm_compute; reflexivity|].
  split; [vm_compute; reflexivity|].
  refine (runner_log_is_reconstructed JsonText.loads Datetime.iso8601
            Logs.describe Logs.clock "localhost" 9999 "default"
            [Logs.cpu_session; Logs.refused_session] None
            (snd (Logs.run_of [Logs.cpu_session; Logs.refused_session]))
            Logs.runner_lines _ _ _ _ _).
  - vm_compute. reflexivity.
  - repeat (constructor; [vm_compute; reflexivity|]). constructor.
  - apply decode_to_map. vm_compute. reflexivity.
  - vm_compute. reflexivity.
Defined.

Lemma runner_closes_every_session_witness :
  exists middle,
    RunGrun.written
      (snd (RunGrun.run_case JsonText.loads Logs.describe Logs.clock
              Logs.refused_session "ws://h" RunGrun.empty_journal))
    = RunGrun.written RunGrun.empty_journal
      ++ RunGrun.opening_record (name_of Logs.refused_session)
           (RunGrun.uuid Logs.refused_session) "ws://h"
           (Logs.clock (RunGrun.reads RunGrun.empty_journal))
         :: middle
      ++ [RunGrun.closed_record (name_of Logs.refused_session)
            (RunGrun.uuid Logs.refused_session)
            (Logs.clock
               (pred
                  (RunGrun.reads
                     (snd (RunGrun.run_case JsonText.loads Logs.describe
                             Logs.clock Logs.refused_session "ws://h"
                             RunGrun.empty_journal)))))] /\
    Forall
      (logged Logs.clock (name_of Logs.refused_session)
         (RunGrun.uuid Logs.refused_session))
      middle.
Proof.
  refine (runner_closes_every_session JsonText.loads Logs.describe Logs.clock
            Logs.refused_session "ws://h" RunGrun.empty_journal _ None _ _).
  - vm_compute. reflexivity.
  - left. reflexivity.
Defined.

Lemma runner_log_is_readable_witness :
  ((exists r, Runs.parse Logs.runner_lines = Ok r) <->
   Forall (fun frame => well_typed_frame frame = true)
     (frames_of
        (RunGrun.written
           (snd (Logs.run_of [Logs.cpu_session; Logs.refused_session]))))) /\
  ((exists r, Runs.parse Logs.list_lines = Ok r) <->
   Forall (fun frame => well_typed_frame frame = true)
     (frames_of (RunGrun.written (snd (Logs.run_of [Logs.list_session]))))) /\
  Runs.parse Logs.list_lines = Raise AttributeError.
Proof.
  assert (Hclock : forall n,
             offset_ts Datetime.iso8601 (JStr (Logs.clock n)) = true).
  { intro n. unfold Logs.clock. destruct (Nat.ltb n 8); vm_compute; reflexivity. }
  unfold Runs.parse. split; [|split].
  - refine (runner_log_is_readable JsonText.loads Datetime.iso8601
              Logs.describe Logs.clock Hclock "localhost" 9999 "default"
              [Logs.cpu_session; Logs.refused_session] None
              (snd (Logs.run_of [Logs.cpu_session; Logs.refused_session]))
              Logs.runner_lines _ _ _).
    + vm_compute. reflexivity.
    + repeat (constructor; [vm_compute; reflexivity|]). constructor.
    + apply decode_to_map. vm_compute. reflexivity.
  - refine (runner_log_is_readable JsonText.loads Datetime.iso8601
              Logs.describe Logs.clock Hclock "localhost" 9999 "default"
              [Logs.list_session] None
              (snd (Logs.run_of [Logs.list_session]))
              Logs.list_lines _ _ _).
    + vm_compute. reflexivity.
    + repeat (constructor; [vm_compute; reflexivity|]). constructor.
    + apply decode_to_map. vm_compute. reflexivity.
  - vm_compute. reflexivity.
Defined.

(** ** The search for the generated query *)

Section PqlSearch.

Variable lower : string -> string.

Let rejected (required : string) (step : json) : Prop :=
  EvalPql.accepts lower required step = Ok None.

Lemma search_below (pre post : list json) (required : string) (n : nat) :
  n <= List.length pre ->
  EvalPql.search lower (pre ++ post) required n
  = EvalPql.search lower pre required n.
Proof.
  induction n as [|index IH]; intro H; [reflexivity|].
  cbn [EvalPql.search]. rewrite app_nth1 by lia. rewrite IH by lia.
  reflexivity.
Qed.

Lemma search_snoc (pre : list json) (step : json) (required : string) :
  EvalPql.search lower (pre ++ [step]) required (List.length (pre ++ [step]))
  = (found <- EvalPql.accepts lower required step;;
     match found with
     | Some pql => Ok (Some pql)
     | None => EvalPql.search lower pre required (List.length pre)
     end).
Proof.
  rewrite length_app, Nat.add_1_r. cbn [EvalPql.search].
  rewrite nth_middle, search_below by lia. reflexivity.
Qed.

Lemma search_latest (steps : list json) (required : string)
    (out : result (option string)) :
  EvalPql.search lower steps required (List.length steps) = out <->
  (out = Ok None /\ Forall (rejected required) steps) \/
  (out <> Ok None /\
   exists pre step post,
     steps = pre ++ step :: post /\
     EvalPql.accepts lower required step = out /\
     Forall (rejected required) post).
Proof.
  revert out. induction steps as [|x l IH] using rev_ind; intro out.
  - cbn. split.
    + intros <-. left. split; [reflexivity | constructor].
    + intros [[-> _] | (_ & pre & step & post & H & _)]; [reflexivity|].
      destruct pre; discriminate.
  - rewrite search_snoc.
    destruct (EvalPql.accepts lower required x) as [[pql|]|e] eqn:Hx;
      cbn [Py.bind].
    + split.
      * intros <-. right. split; [discriminate|].
        exists l, x, []. repeat split; [exact Hx | constructor].
      * intros [[_ Hall] | (_ & pre & step & post & Hs & Ha & Hpost)].
        -- apply Forall_app in Hall. destruct Hall as [_ Hall].
           inversion Hall; subst. unfold rejected in *. congruence.
        -- induction post as [|y post' _] using rev_ind.
           ++ apply app_inj_tail in Hs. destruct Hs as [_ <-]. congruence.
           ++ rewrite app_comm_cons, app_assoc in Hs.
              apply app_inj_tail in Hs. destruct Hs as [_ <-].
              apply Forall_app in Hpost. destruct Hpost as [_ Hy].
              inversion Hy; subst. unfold rejected in *. congruence.
    + rewrite IH. split.
      * intros [[-> Hall] | (Hn & pre & step & post & -> & Ha & Hpost)].
        -- left. split; [reflexivity|]. apply Forall_app. split; [exact Hall|].
           constructor; [exact Hx | constructor].
        -- right. split; [exact Hn|]. exists pre, step, (post ++ [x]).
           split; [now rewrite <- app_assoc|]. split; [exact Ha|].
           apply Forall_app. split; [exact Hpost|].
           constructor; [exact Hx | constructor].
      * intros [[-> Hall] | (Hn & pre & step & post & Hs & Ha & Hpost)].
        -- left. split; [reflexivity|]. apply Forall_app in Hall. tauto.
        -- right. split; [exact Hn|].
           induction post as [|y post' _] using rev_ind.
           ++ apply app_inj_tail in Hs. destruct Hs as [_ <-]. congruence.
           ++ rewrite app_comm_cons, app_assoc in Hs.
              apply app_inj_tail in Hs. destruct Hs as [-> <-].
              apply Forall_app in Hpost. destruct Hpost as [Hpost _].
              exists pre, step, post'. auto.
    + split.
      * intros <-. right. split; [discriminate|].
        exists l, x, []. repeat split; [exact Hx | constructor].
      * intros [[_ Hall] | (_ & pre & step & post & Hs & Ha & Hpost)].
        -- apply Forall_app in Hall. destruct Hall as [_ Hall].
           inversion Hall; subst. unfold rejected in *. congruence.
        -- induction post as [|y post' _] using rev_ind.
           ++ apply app_inj_tail in Hs. destruct Hs as [_ <-]. congruence.
           ++ rewrite app_comm_cons, app_assoc in Hs.
              apply app_inj_tail in Hs. destruct Hs as [_ <-].
              apply Forall_app in Hpost. destruct Hpost as [_ Hy].
              inversion Hy; subst. unfold rejected in *. congruence.
Qed.

(** X21. The search through a list of steps goes from the last step to the
    first and stops at the first step that gives a query or raises: what it
    answers is what the latest such step gives, and it answers nothing
    exactly when every step gives nothing.  So a later match hides an
    earlier one, and also an earlier step that is not an object. *)
Theorem pql_search_prefers_latest (steps : list json) (required : string)
    (out : result (option string)) :
  EvalPql.find_pql_in_step_list lower (JList steps) required = out <->
  (out = Ok None /\
   Forall (fun step => EvalPql.accepts lower required step = Ok None) steps) \/
  (out <> Ok None /\
   exists pre step post,
     steps = pre ++ step :: post /\
     EvalPql.accepts lower required step = out /\
     Forall (fun step => EvalPql.accepts lower required step = Ok None) post).
Proof. exact (search_latest steps required out). Qed.

End PqlSearch.

(** ** The query of a reconstructed case *)

Section PqlOfCases.

Variable json_loads : string -> result json.
Variable fromisoformat : string -> option Datetime.datetime.
Variable lower : string -> string.

Let objects (tc : test_case) : Prop :=
  Forall (fun response => is_dict response = true) (responses tc).

Lemma handle_keeps_objects (st st' : loop_state) (entry : json) :
  handle_entry fromisoformat st entry = Ok st' ->
  Forall objects (test_cases (acc st)) /\
  (forall tc, current_test_case st = Some tc -> objects tc) ->
  Forall objects (test_cases (acc st')) /\
  (forall tc, current_test_case st' = Some tc -> objects tc).
Proof.
  intros H [Hclosed Hopen]. apply handle_effect in H.
  destruct H as [Hc Hcur _ | fresh _ Hi Hc Hcur | tc req _ Ht _ Hc Hcur
                | tc tc' frame _ Ht _ Hp Hc Hcur | tc tc' ts _ Ht Hf Hc Hcur
                | tc kind message ts _ Ht Hc Hcur];
    rewrite Hc, Hcur.
  - auto.
  - split; [exact Hclosed|]. intros x Hx. inversion Hx; subst.
    unfold initialize_test_case in Hi. split_result Hi. inversion Hi.
    constructor.
  - split; [exact Hclosed|]. intros x Hx. inversion Hx; subst.
    exact (Hopen tc Ht).
  - split; [exact Hclosed|]. intros x Hx. inversion Hx; subst.
    destruct (process_frame_by_should_close _ _ _ Hp)
      as (_ & _ & _ & _ & Hr & _).
    unfold objects. rewrite Hr. apply Forall_app. split; [exact (Hopen tc Ht)|].
    constructor; [|constructor].
    destruct frame; try discriminate. reflexivity.
  - split; [|discriminate].
    apply Forall_app. split; [exact Hclosed|]. constructor; [|constructor].
    destruct (finalize_returns fromisoformat _ _ Hf) as [d ->].
    exact (Hopen tc Ht).
  - split; [exact Hclosed|]. intros x Hx. inversion Hx; subst.
    exact (Hopen tc Ht).
Qed.

Lemma responses_are_objects (lines : list string) (r : results) :
  parse_log_file json_loads fromisoformat lines = Ok r ->
  Forall objects (test_cases r).
Proof.
  unfold parse_log_file. intro H.
  destruct (run_lines json_loads fromisoformat lines initial_state)
    as [st|] eqn:Hrun; cbn [Py.bind] in H; [|discriminate].
  inversion H; subst r. clear H.
  assert (Hinit : Forall objects (test_cases (acc initial_state)) /\
                  (forall tc,
                     current_test_case initial_state = Some tc -> objects tc))
    by (split; [constructor | discriminate]).
  revert Hrun Hinit. generalize initial_state.
  induction lines as [|line lines IH]; intros st0 Hrun Hinv.
  - inversion Hrun; subst. tauto.
  - destruct (run_cons_ok _ _ _ _ _ _ Hrun)
      as [(_ & _ & Hr) | (entry & st1 & _ & _ & Hh & Hr)].
    + exact (IH _ Hr Hinv).
    + exact (IH _ Hr (handle_keeps_objects _ _ _ Hh Hinv)).
Qed.

Lemma accepts_object (required : string) (step : json) :
  is_dict step = true ->
  exists found,
    EvalPql.accepts lower required step = Ok found /\
    forall pql,
      found = Some pql ->
      field step "data" = JStr pql /\
      EvalPql.is_probable_pql lower (JStr pql) = true /\
      substring_of required
        (EvalPql.message_or_status (field step "message")
           (field step "status")) = true.
Proof.
  destruct step as [| | | | | |d]; try discriminate. intros _.
  unfold EvalPql.accepts, field. cbn [py_get Py.bind].
  destruct (substring_of required _) eqn:Hsub;
    [|eexists; split; [reflexivity | discriminate]].
  destruct (dict_get d "data") as [[| | | |data| |]|];
    try (eexists; split; [reflexivity | discriminate]).
  destruct (negb (String.eqb (py_strip data) "")
            && EvalPql.is_probable_pql lower (JStr data)) eqn:Hp;
    [|eexists; split; [reflexivity | discriminate]].
  eexists. split; [reflexivity|]. intros pql Hq. inversion Hq; subst.
  apply andb_true_iff in Hp. destruct Hp as [_ Hp]. auto.
Qed.

(** X22. The query of a reconstructed case is always found or reported
    missing: on a test case whose responses are those the reconstructor
    holds, [extract_pql_from_case] raises nothing, and what it answers is
    the placeholder or the data of one of the responses of the case, a
    string that looks like a query, in a response whose message, or whose
    status when the message is not a string, contains the words that mark
    a generated workflow. *)
Theorem pql_of_reconstructed_case
    (lines : list string) (r : results) (tc : test_case) (d : dict) :
  parse_log_file json_loads fromisoformat lines = Ok r ->
  In tc (test_cases r) ->
  dict_get d "responses" = Some (JList (responses tc)) ->
  exists text,
    EvalPql.extract_pql_from_case lower (JDict d) = Ok text /\
    (text = "(no PQL found)" \/
     exists response,
       In response (responses tc) /\
       field response "data" = JStr text /\
       EvalPql.is_probable_pql lower (JStr text) = true /\
       substring_of EvalPql.required_substring
         (EvalPql.message_or_status (field response "message")
            (field response "status")) = true).
Proof.
  intros Hparse Hin Hd.
  pose proof (responses_are_objects _ _ Hparse) as Hall.
  rewrite Forall_forall in Hall. specialize (Hall tc Hin).
  unfold EvalPql.extract_pql_from_case. cbn [py_get Py.bind]. rewrite Hd.
  assert (Hfind :
    EvalPql.find_pql_in_step_list lower
      (if truthy (JList (responses tc)) then JList (responses tc)
       else JList [])
      EvalPql.required_substring
    = EvalPql.search lower (responses tc) EvalPql.required_substring
        (List.length (responses tc))).
  { destruct (responses tc); reflexivity. }
  rewrite Hfind. clear Hfind.
  destruct (EvalPql.search lower (responses tc) EvalPql.required_substring
              (List.length (responses tc))) as [[pql|]|e] eqn:Hs;
    cbn [Py.bind].
  - exists pql. split; [reflexivity|]. right.
    apply search_latest in Hs.
    destruct Hs as [[Hs _] | (_ & pre & step & post & Hsteps & Ha & _)];
      [discriminate|].
    assert (Hstep : In step (responses tc))
      by (rewrite Hsteps; apply in_elt).
    destruct (accepts_object EvalPql.required_substring step
                (proj1 (Forall_forall _ _) Hall step Hstep))
      as (found & Hf & Hq).
    rewrite Hf in Ha. inversion Ha; subst found.
    destruct (Hq pql eq_refl) as (Q1 & Q2 & Q3).
    exists step. repeat split; assumption.
  - eexists. split; [reflexivity|]. left. reflexivity.
  - exfalso. apply search_latest in Hs.
    destruct Hs as [[Hs _] | (_ & pre & step & post & Hsteps & Ha & _)];
      [discriminate|].
    assert (Hstep : In step (responses tc))
      by (rewrite Hsteps; apply in_elt).
    destruct (accepts_object EvalPql.required_substring step
                (proj1 (Forall_forall _ _) Hall step Hstep))
      as (found & Hf & _).
    congruence.
Qed.

End PqlOfCases.

Lemma pql_of_reconstructed_case_witness :
  exists r tc,
    Runs.parse Logs.pql_lines = Ok r /\
    test_cases r = [tc] /\
    EvalPql.extract_pql_from_case Logs.ascii_lower
      (JDict [("name", ConsumeLogs.name tc);
              ("responses", JList (responses tc))])
    = Ok "where(@aws) .when(24h) .what(Namespace='AWS/ApiGateway') .request($where[0]) .as($second)" /\
    exists text,
      EvalPql.extract_pql_from_case Logs.ascii_lower
        (JDict [("name", ConsumeLogs.name tc);
                ("responses", JList (responses tc))])
      = Ok text /\
      (text = "(no PQL found)" \/
       exists response,
         In response (responses tc) /\
         field response "data" = JStr text /\
         EvalPql.is_probable_pql Logs.ascii_lower (JStr text) = true /\
         substring_of EvalPql.required_substring
           (EvalPql.message_or_status (field response "message")
              (field response "status")) = true).
Proof.
  unfold Runs.parse. eexists. eexists.
  split; [vm_compute; reflexivity|]. split; [vm_compute; reflexivity|].
  split; [vm_compute; reflexivity|].
  refine (pql_of_reconstructed_case JsonText.loads Datetime.iso8601
            Logs.ascii_lower Logs.pql_lines _ _ _ _ _ _).
  - vm_compute. reflexivity.
  - left. reflexivity.
  - reflexivity.
Defined.

(** ** From the converted test case to the request snapshot *)

Section ConvertedCases.

Variable json_loads : string -> result json.
Variable lower : string -> string.
Variable title : string -> string.
Variable repr : json -> string.

Lemma provider_config_shape (provider config : json) :
  MakeTestCases.determine_provider_config lower provider = Ok config ->
  exists where_ when_,
    config = JDict [("where", JStr where_); ("when", JStr when_);
                    ("useVectorSearch", JBool true)].
Proof.
  unfold MakeTestCases.determine_provider_config, MakeTestCases.py_lower.
  destruct provider as [| | | |p| |]; try discriminate. cbn [Py.bind].
  intro H. inversion H.
  destruct (String.eqb (lower p) "prometheus"); [eauto|].
  destruct (String.eqb (lower p) "aws"); [eauto|].
  destruct (String.eqb (lower p) "cloudwatch"); eauto.
Qed.

(** The shape of a converted test case. *)
Lemma converted_shape (line_number : Z) (line : string) (test_case : json) :
  MakeTestCases.convert_line json_loads lower title repr line_number line
  = Ok (Some test_case) ->
  exists name question where_ when_ filters metadata,
    test_case
    = JDict [("name", JStr name); ("prompt", question);
             ("env_id", JStr "default");
             ("additional_params",
              JDict [("where", JStr where_); ("when", JStr when_);
                     ("metricFilters", JList filters);
                     ("useVectorSearch", JBool true)]);
             ("metadata", metadata)].
Proof.
  unfold MakeTestCases.convert_line. intro H.
  destruct (String.eqb (py_strip line) ""); [discriminate|].
  destruct (json_loads (py_strip line)) as [jsonl_case|e];
    [|destruct (isinstance e JSONDecodeError); discriminate].
  destruct (py_get jsonl_case "id" _) as [test_case_id|];
    cbn [Py.bind] in H; [|discriminate].
  destruct (py_get jsonl_case "provider" _) as [provider|];
    cbn [Py.bind] in H; [|discriminate].
  destruct (py_get jsonl_case "metric_information" _) as [metric_info|];
    cbn [Py.bind] in H; [|discriminate].
  destruct (py_get jsonl_case "generated_question" _) as [question|];
    cbn [Py.bind] in H; [|discriminate].
  destruct (MakeTestCases.determine_provider_config lower provider)
    as [config|] eqn:Hc; cbn [Py.bind] in H; [|discriminate].
  destruct (provider_config_shape _ _ Hc) as (where_ & when_ & ->).
  destruct (MakeTestCases.extract_metric_filters repr metric_info)
    as [filters|]; cbn [Py.bind] in H; [|discriminate].
  destruct (py_get metric_info "MetricName" _) as [metric_name|];
    cbn [Py.bind] in H; [|discriminate].
  destruct (MakeTestCases.generate_test_case_name lower title repr
              test_case_id provider metric_name) as [name|];
    cbn [Py.bind] in H; [|discriminate].
  cbn in H. inversion H. eauto 10.
Qed.

(** X23. A test case that [make_test_cases.py] converts from a line has a
    string for its name, and the request the runner builds from it is read
    back by the reconstructor with nothing lost and nothing left over: the
    snapshot has the question for its prompt, [default] for its
    environment, the provider's [where] and [when], the metric filters,
    [true] for the vector search, and no additional parameter. *)
Theorem converted_case_reaches_snapshot
    (line_number : Z) (line : string) (test_case : json) :
  MakeTestCases.convert_line json_loads lower title repr line_number line
  = Ok (Some test_case) ->
  (exists name, field test_case "name" = JStr name) /\
  forall (case : json) (session_id ts : string),
    exists req snapshot,
      RunGrun.mk_request test_case session_id = Ok req /\
      extract_request_data
        (RunGrun.sent_request_record case session_id req ts) = Ok snapshot /\
      field snapshot "prompt" = field test_case "prompt" /\
      field snapshot "env_id" = JStr "default" /\
      field snapshot "where"
      = field (field test_case "additional_params") "where" /\
      field snapshot "when"
      = field (field test_case "additional_params") "when" /\
      field snapshot "metric_filters"
      = field (field test_case "additional_params") "metricFilters" /\
      field snapshot "use_vector_search" = JBool true /\
      field snapshot "additional_params" = JDict [].
Proof.
  intro H.
  destruct (converted_shape _ _ _ H)
    as (name & question & where_ & when_ & filters & metadata & ->).
  split; [exists name; reflexivity|].
  intros case session_id ts. eexists. eexists.
  split; [reflexivity|]. split; [reflexivity|].
  repeat split.
Qed.

End ConvertedCases.

Lemma converted_case_reaches_snapshot_witness :
  exists test_case,
    MakeTestCases.convert_line JsonText.loads Logs.ascii_lower
      Logs.ascii_title Logs.repr 1 Logs.jsonl_line = Ok (Some test_case) /\
    field test_case "name" = JStr "AWS CloudWatch - Cpuutilization (q7)" /\
    field (field test_case "additional_params") "metricFilters"
    = JList [JStr "CPUUtilization"; JStr "AWS/EC2"; JStr "300";
             JStr "Average"; JStr "Maximum"] /\
    (exists name, field test_case "name" = JStr name) /\
    forall (case : json) (session_id ts : string),
      exists req snapshot,
        RunGrun.mk_request test_case session_id = Ok req /\
        extract_request_data
          (RunGrun.sent_request_record case session_id req ts) = Ok snapshot /\
        field snapshot "prompt" = field test_case "prompt" /\
        field snapshot "env_id" = JStr "default" /\
        field snapshot "where"
        = field (field test_case "additional_params") "where" /\
        field snapshot "when"
        = field (field test_case "additional_params") "when" /\
        field snapshot "metric_filters"
        = field (field test_case "additional_params") "metricFilters" /\
        field snapshot "use_vector_search" = JBool true /\
        field snapshot "additional_params" = JDict [].
Proof.
  eexists. split; [vm_compute; reflexivity|].
  split; [vm_compute; reflexivity|]. split; [vm_compute; reflexivity|].
  refine (converted_case_reaches_snapshot JsonText.loads Logs.ascii_lower
            Logs.ascii_title Logs.repr 1 Logs.jsonl_line _ _).
  vm_compute. reflexivity.
Defined.
